(** * Multi-sig session manager: a shallow embedding

    Source modelled here:
    - [lib/server/validators/multi_sig_wallet/multi-sig-session.ts]
      (the session record, the TTL helpers, the storage helpers and the
      public session API);
    - the three coordination flows [initiateUnlock], [coSign] and
      [submitUnlock] of [multi-sig-unlock.ts].

    Conventions.
    - A TypeScript [number] that holds a count or a millisecond timestamp is
      a [Z]; a [string] is a [String.string].
    - The browser is a [World]: the wall clock read by [Date.now()], whether
      [window] exists, the slot of [sessionStorage] under [SESSION_KEY] and
      the deadlines of the pending [setTimeout(clearSession, _)] callbacks.
      A synchronous function runs to completion on one clock reading; time
      passes (and timers fire) only across an [await], see [advance].
    - The storage slot holds the session value itself: this module is the
      only writer of the key, and [JSON.parse (JSON.stringify s)] gives back
      [s] for a record of strings, string arrays and integers.
    - Writing to [sessionStorage] succeeds (no quota error is modelled).
    - A function that may [throw] runs in the monad [M]: it returns an
      [Outcome] together with the world it leaves behind.  Nothing is rolled
      back when an exception is raised. *)

From Stdlib Require Import ZArith List String Ascii Bool Lia.
From Stdlib Require DecimalString.
Import ListNotations.

Local Open Scope Z_scope.
Local Open Scope string_scope.

(* ------------------------------------------------------------------------- *)
(** ** Data model *)

Definition SESSION_KEY : string := "multisig_session".
Definition SESSION_TTL_MS : Z := 10 * 60 * 1000.

(** [status: "pending" | "ready" | "submitted"] *)
Inductive Status : Type :=
| pending
| ready
| submitted.

Definition Status_eqb (a b : Status) : bool :=
  match a, b with
  | pending, pending | ready, ready | submitted, submitted => true
  | _, _ => false
  end.

(** The string a status is printed as inside a template literal. *)
Definition Status_toString (s : Status) : string :=
  match s with
  | pending => "pending"
  | ready => "ready"
  | submitted => "submitted"
  end.

(** [interface MultiSigSession] *)
Record MultiSigSession : Type := mkSession {
  sessionId : string;
  unsignedTx : string;
  partialTx : string;
  collectedSigners : list string;
  threshold : Z;
  status : Status;
  createdAt : Z;
  expiresAt : Z;
  txHash : option string
}.

(** The object literal built by [exportSessionPayload] and read back by
    [importSessionPayload]. *)
Module Payload.
Record t : Type := mk {
  sessionId : string;
  partialTx : string;
  collectedSigners : list string;
  threshold : Z;
  expiresAt : Z
}.
End Payload.

(* ------------------------------------------------------------------------- *)
(** ** The browser world and the exception monad *)

Record World : Type := mkWorld {
  clock : Z;                          (* what Date.now() returns *)
  browser : bool;                     (* typeof window !== "undefined" *)
  storage : option MultiSigSession;   (* sessionStorage[SESSION_KEY] *)
  timers : list Z                     (* deadlines of setTimeout(clearSession) *)
}.

Inductive Outcome (A : Type) : Type :=
| Ok (a : A)
| Throw (message : string).
Arguments Ok {A} a.
Arguments Throw {A} message.

Definition M (A : Type) : Type := World -> Outcome A * World.

Definition ret {A} (a : A) : M A := fun w => (Ok a, w).

Definition bind {A B} (m : M A) (k : A -> M B) : M B :=
  fun w =>
    match m w with
    | (Ok a, w') => k a w'
    | (Throw e, w') => (Throw e, w')
    end.

Definition throw {A} (message : string) : M A := fun w => (Throw message, w).

(** [try { body } catch (e) { handler(e.message) }] *)
Definition try_catch {A} (body : M A) (handler : string -> M A) : M A :=
  fun w =>
    match body w with
    | (Ok a, w') => (Ok a, w')
    | (Throw e, w') => handler e w'
    end.

Declare Scope js_scope.
Delimit Scope js_scope with js.
Notation "x <- m ;; k" := (bind m (fun x => k))
  (at level 61, m at next level, right associativity) : js_scope.
Notation "m ;; k" := (bind m (fun _ => k))
  (at level 61, right associativity) : js_scope.
Local Open Scope js_scope.

Definition Date_now : M Z := fun w => (Ok (clock w), w).

Definition sessionStorage_getItem : M (option MultiSigSession) :=
  fun w => (Ok (storage w), w).

Definition sessionStorage_setItem (session : MultiSigSession) : M unit :=
  fun w => (Ok tt, mkWorld (clock w) (browser w) (Some session) (timers w)).

Definition sessionStorage_removeItem : M unit :=
  fun w => (Ok tt, mkWorld (clock w) (browser w) None (timers w)).

(** [setTimeout(clearSession, delay)]: the callback is recorded with the
    time at which it becomes due. *)
Definition setTimeout_clearSession (delay : Z) : M unit :=
  fun w =>
    (Ok tt, mkWorld (clock w) (browser w) (storage w)
                    (timers w ++ [clock w + delay])%list).

(* ------------------------------------------------------------------------- *)
(** ** TTL helpers *)

Definition isExpired (session : MultiSigSession) : M bool :=
  now <- Date_now ;;
  ret (now >? expiresAt session).

Definition getRemainingMs (session : MultiSigSession) : M Z :=
  now <- Date_now ;;
  ret (Z.max 0 (expiresAt session - now)).

(* ------------------------------------------------------------------------- *)
(** ** Storage helpers (SSR-safe) *)

Definition isBrowser : M bool := fun w => (Ok (browser w), w).

Definition clearSession : M unit :=
  b <- isBrowser ;;
  if negb b then ret tt else sessionStorage_removeItem.

Definition writeSession (session : MultiSigSession) : M unit :=
  b <- isBrowser ;;
  if negb b then ret tt else sessionStorage_setItem session.

Definition readSession : M (option MultiSigSession) :=
  b <- isBrowser ;;
  if negb b then ret None
  else
    try_catch
      (raw <- sessionStorage_getItem ;;
       match raw with
       | None => ret None
       | Some session =>
           expired <- isExpired session ;;
           if expired then (clearSession ;; ret None)
           else ret (Some session)
       end)
      (fun _ => ret None).

(* ------------------------------------------------------------------------- *)
(** ** Public API of the session manager *)

Definition hasActiveSession : M bool :=
  s <- readSession ;;
  ret (match s with Some _ => true | None => false end).

(** [createSession(params)].  [uuid] is the value [crypto.randomUUID()]
    returns during the call. *)
Definition createSession
    (unsignedTx_ partialTx_ : string) (threshold_ : Z) (initiatorPkh : string)
    (uuid : string) : M MultiSigSession :=
  now <- Date_now ;;
  let session :=
    {| sessionId := uuid;
       unsignedTx := unsignedTx_;
       partialTx := partialTx_;
       collectedSigners := [initiatorPkh];
       threshold := threshold_;
       status := pending;
       createdAt := now;
       expiresAt := now + SESSION_TTL_MS;
       txHash := None |} in
  writeSession session ;;
  ret session.

Definition getSession : M (option MultiSigSession) := readSession.

(** [Array.prototype.includes] on an array of strings. *)
Definition includes (l : list string) (x : string) : bool :=
  existsb (String.eqb x) l.

Definition dquote : string := String (ascii_of_nat 34) EmptyString.

(** [`Session is already "${status}".`] *)
Definition msg_already (s : Status) : string :=
  "Session is already " ++ dquote ++ Status_toString s ++ dquote ++ ".".

Definition msg_no_session : string := "No active session or session expired.".
Definition msg_already_signed : string :=
  "This wallet has already signed this session.".

Definition applySignature (signerPkh newPartialTx : string)
  : M MultiSigSession :=
  r <- readSession ;;
  match r with
  | None => throw msg_no_session
  | Some session =>
      if negb (Status_eqb (status session) pending) then
        throw (msg_already (status session))
      else if includes (collectedSigners session) signerPkh then
        throw msg_already_signed
      else
        let updatedCollected := (collectedSigners session ++ [signerPkh])%list in
        let thresholdMet :=
          Z.of_nat (List.length updatedCollected) >=? threshold session in
        let updated :=
          {| sessionId := sessionId session;
             unsignedTx := unsignedTx session;
             partialTx := newPartialTx;
             collectedSigners := updatedCollected;
             threshold := threshold session;
             status := if thresholdMet then ready else pending;
             createdAt := createdAt session;
             expiresAt := expiresAt session;
             txHash := txHash session |} in
        writeSession updated ;;
        ret updated
  end.

(** [{ ...session, status: "submitted", txHash }] *)
Definition submitted_with (session : MultiSigSession) (txHash_ : string)
  : MultiSigSession :=
  {| sessionId := sessionId session;
     unsignedTx := unsignedTx session;
     partialTx := partialTx session;
     collectedSigners := collectedSigners session;
     threshold := threshold session;
     status := submitted;
     createdAt := createdAt session;
     expiresAt := expiresAt session;
     txHash := Some txHash_ |}.

Definition markSubmitted (txHash_ : string) : M unit :=
  r <- readSession ;;
  match r with
  | None => ret tt
  | Some session =>
      writeSession (submitted_with session txHash_) ;;
      setTimeout_clearSession 3000
  end.

(** The object handed to [JSON.stringify] by [exportSessionPayload]. *)
Definition payload_of (session : MultiSigSession) : Payload.t :=
  {| Payload.sessionId := sessionId session;
     Payload.partialTx := partialTx session;
     Payload.collectedSigners := collectedSigners session;
     Payload.threshold := threshold session;
     Payload.expiresAt := expiresAt session |}.

(** The platform functions the transfer payload goes through.  [btoa_json]
    is [btoa (JSON.stringify obj)]; [json_atob] is [JSON.parse (atob str)],
    which throws on a string that is not base64 or not JSON.  Strings are
    byte strings here, so [btoa] has no character out of its range. *)
Record Codec : Type := mkCodec {
  btoa_json : Payload.t -> string;
  json_atob : string -> Outcome Payload.t
}.

Definition exportSessionPayload (C : Codec) : M (option string) :=
  r <- readSession ;;
  match r with
  | None => ret None
  | Some session => ret (Some (btoa_json C (payload_of session)))
  end.

Definition msg_import_expired : string :=
  "Imported session has already expired.".

(** [{ ...data, unsignedTx: data.partialTx, status: "pending",
       createdAt: Date.now() }] *)
Definition adopted (data : Payload.t) (now : Z) : MultiSigSession :=
  {| sessionId := Payload.sessionId data;
     unsignedTx := Payload.partialTx data;
     partialTx := Payload.partialTx data;
     collectedSigners := Payload.collectedSigners data;
     threshold := Payload.threshold data;
     status := pending;
     createdAt := now;
     expiresAt := Payload.expiresAt data;
     txHash := None |}.

Definition importSessionPayload (C : Codec) (payload : string)
  : M (option MultiSigSession) :=
  try_catch
    (data <- (fun w => (json_atob C payload, w)) ;;
     now <- Date_now ;;
     if now >? Payload.expiresAt data then throw msg_import_expired
     else
       existing <- readSession ;;
       let adopt : M (option MultiSigSession) :=
         now' <- Date_now ;;
         let session := adopted data now' in
         writeSession session ;;
         ret (Some session) in
       match existing with
       | Some e =>
           (* Don't overwrite a newer session *)
           if String.eqb (sessionId e) (Payload.sessionId data)
           then ret (Some e)
           else adopt
       | None => adopt
       end)
    (fun e => throw ("Failed to import session: " ++ e)).

(* ------------------------------------------------------------------------- *)
(** ** Passing time *)

(** What the event loop does while an [async] function is suspended for
    [dt] milliseconds: the clock moves on and every [clearSession] callback
    whose deadline has been reached is run. *)
Definition advance (dt : Z) (w : World) : World :=
  let now := clock w + dt in
  let fired := existsb (fun deadline => (deadline <=? now)%Z) (timers w) in
  mkWorld now (browser w)
          (if fired && browser w then None else storage w)
          (filter (fun deadline => (now <? deadline)%Z) (timers w)).

(** [await promise], where the promise settles with [result] after [dt]. *)
Definition await {A} (dt : Z) (result : Outcome A) : M A :=
  fun w => (result, advance dt w).

(* ------------------------------------------------------------------------- *)
(** ** The coordination flows of [multi-sig-unlock.ts] *)

(** Everything the flows obtain from outside the session manager: the
    wallet, the address decoder, the transaction builder (its result is the
    triple [unsignedTx, owners, threshold]) and the id generator.
    [latency] is how long each awaited call takes. *)
Record Collaborators : Type := mkCollaborators {
  wallet_getChangeAddress : Outcome string;
  wallet_signTx : string -> bool -> Outcome string;
  wallet_submitTx : string -> Outcome string;
  deserializeAddress_pubKeyHash : string -> string;
  buildUnlockTransaction : Outcome (string * list string * Z);
  crypto_randomUUID : string;
  latency : Z
}.

(** [Number.prototype.toString] on an integer. *)
Definition Number_toString (z : Z) : string :=
  DecimalString.NilZero.string_of_int (Z.to_int z).

Definition msg_session_active : string :=
  "A multisig session is already active. Clear it before starting a new one.".
Definition msg_no_session_found : string :=
  "No active session found or session has expired.".

Definition msg_not_enough (session : MultiSigSession) : string :=
  let collected := Z.of_nat (List.length (collectedSigners session)) in
  "Not enough signatures: " ++ Number_toString collected ++ "/"
    ++ Number_toString (threshold session) ++ ". Waiting on "
    ++ Number_toString (threshold session - collected) ++ " more signer(s).".

Definition initiateUnlock (E : Collaborators) : M MultiSigSession :=
  active <- hasActiveSession ;;
  if active then throw msg_session_active
  else
    changeAddress <- await (latency E) (wallet_getChangeAddress E) ;;
    let initiatorPkh := deserializeAddress_pubKeyHash E changeAddress in
    built <- await (latency E) (buildUnlockTransaction E) ;;
    let '(unsignedTx_, _, threshold_) := built in
    partialTx_ <- await (latency E) (wallet_signTx E unsignedTx_ true) ;;
    createSession unsignedTx_ partialTx_ threshold_ initiatorPkh
                  (crypto_randomUUID E).

Definition coSign (E : Collaborators) : M MultiSigSession :=
  r <- getSession ;;
  match r with
  | None => throw msg_no_session_found
  | Some session =>
      changeAddress <- await (latency E) (wallet_getChangeAddress E) ;;
      let walletPkh := deserializeAddress_pubKeyHash E changeAddress in
      if includes (collectedSigners session) walletPkh then
        throw msg_already_signed
      else if negb (Status_eqb (status session) pending) then
        throw (msg_already (status session))
      else
        newPartialTx <-
          await (latency E) (wallet_signTx E (partialTx session) true) ;;
        applySignature walletPkh newPartialTx
  end.

Definition submitUnlock (E : Collaborators) : M string :=
  r <- getSession ;;
  match r with
  | None => throw msg_no_session_found
  | Some session =>
      if negb (Status_eqb (status session) ready) then
        throw (msg_not_enough session)
      else
        txHash_ <- await (latency E) (wallet_submitTx E (partialTx session)) ;;
        markSubmitted txHash_ ;;
        ret txHash_
  end.

(* ------------------------------------------------------------------------- *)
(** ** Vocabulary of the properties *)

(** The session [s] is the live session of the world [w]: the code runs in
    a browser, the storage slot holds [s] and [s] has not expired. *)
Definition live (w : World) (s : MultiSigSession) : Prop :=
  browser w = true /\ storage w = Some s /\ clock w <= expiresAt s.

(** The storage slot holds [s], whose time is up. *)
Definition stale (w : World) (s : MultiSigSession) : Prop :=
  browser w = true /\ storage w = Some s /\ expiresAt s < clock w.

Definition set_storage (w : World) (slot : option MultiSigSession) : World :=
  mkWorld (clock w) (browser w) slot (timers w).

Definition collected_count (s : MultiSigSession) : Z :=
  Z.of_nat (List.length (collectedSigners s)).

(** [{ ...session, partialTx: tx, collectedSigners: [...collected, signer],
       status: thresholdMet ? "ready" : "pending" }] *)
Definition countersigned (s : MultiSigSession) (signer tx : string)
  : MultiSigSession :=
  let updatedCollected := (collectedSigners s ++ [signer])%list in
  {| sessionId := sessionId s;
     unsignedTx := unsignedTx s;
     partialTx := tx;
     collectedSigners := updatedCollected;
     threshold := threshold s;
     status :=
       if Z.of_nat (List.length updatedCollected) >=? threshold s
       then ready else pending;
     createdAt := createdAt s;
     expiresAt := expiresAt s;
     txHash := txHash s |}.

(** Invariant 2 of the data model, for a session that is not terminal. *)
Definition ready_iff_threshold_met (s : MultiSigSession) : Prop :=
  status s <> submitted ->
  (status s = ready <-> threshold s <= collected_count s).

(* ------------------------------------------------------------------------- *)
(** ** Example data *)

(** A transfer codec for payloads whose strings contain neither ['|'] nor
    [','] (identifiers and hex strings do not): the five fields are
    written in order, separated by ['|'], the signers separated by [',']. *)
Module LineCodec.

Fixpoint join (sep : string) (l : list string) : string :=
  match l with
  | [] => ""
  | [x] => x
  | x :: rest => x ++ sep ++ join sep rest
  end.

Fixpoint split (sep : ascii) (s : string) : list string :=
  match s with
  | EmptyString => [""]
  | String c rest =>
      if Ascii.eqb c sep then "" :: split sep rest
      else
        match split sep rest with
        | [] => [String c ""]
        | field :: fields => String c field :: fields
        end
  end.

Definition parse_number (s : string) : option Z :=
  option_map Z.of_int (DecimalString.NilZero.int_of_string s).

Definition encode (p : Payload.t) : string :=
  join "|"
    [ Payload.sessionId p;
      Payload.partialTx p;
      join "," (Payload.collectedSigners p);
      Number_toString (Payload.threshold p);
      Number_toString (Payload.expiresAt p) ].

Definition decode (s : string) : Outcome Payload.t :=
  match split "|" s with
  | [sid; ptx; signers; thr; exp] =>
      match parse_number thr, parse_number exp with
      | Some thr', Some exp' =>
          Ok (Payload.mk sid ptx
                (if String.eqb signers "" then [] else split "," signers)
                thr' exp')
      | _, _ => Throw "malformed number in payload"
      end
  | _ => Throw "malformed payload"
  end.

Definition codec : Codec := mkCodec encode decode.

End LineCodec.

(** A 2-of-3 round opened by owner A at time 1000. *)
Definition session_A : MultiSigSession :=
  {| sessionId := "5b1e7d3c";
     unsignedTx := "84a400";
     partialTx := "84a400a1";
     collectedSigners := ["pkhA"];
     threshold := 2;
     status := pending;
     createdAt := 1000;
     expiresAt := 1000 + SESSION_TTL_MS;
     txHash := None |}.

(** The same round after owner B has signed. *)
Definition session_AB : MultiSigSession :=
  {| sessionId := "5b1e7d3c";
     unsignedTx := "84a400";
     partialTx := "84a400a2";
     collectedSigners := ["pkhA"; "pkhB"];
     threshold := 2;
     status := ready;
     createdAt := 1000;
     expiresAt := 1000 + SESSION_TTL_MS;
     txHash := None |}.

(** The round as stored once B has co-signed through [coSign]. *)
Definition session_AB_at_B : MultiSigSession :=
  countersigned session_A "pkhB" "84a400a1a2".

(** A browser tab, five seconds into the round, holding [session_A]. *)
Definition tab_A : World := mkWorld 6000 true (Some session_A) [].

(** The same tab one second after the round's time is up. *)
Definition tab_A_late : World :=
  mkWorld (1000 + SESSION_TTL_MS + 1000) true (Some session_A) [].

(** A tab on another device with nothing stored. *)
Definition tab_empty : World := mkWorld 7000 true None [].

(** The owners recorded in the datum of the example round. *)
Definition owners_ABC : list string := ["pkhA"; "pkhB"; "pkhC"].


(** A wallet and builder that always succeed, each call taking 200 ms. *)
Definition helpers_B : Collaborators :=
  {| wallet_getChangeAddress := Ok "addr_test1B";
     wallet_signTx := fun tx _ => Ok (tx ++ "a2");
     wallet_submitTx := fun _ => Ok "9f3c";
     deserializeAddress_pubKeyHash := fun _ => "pkhB";
     buildUnlockTransaction := Ok ("84a400", owners_ABC, 2);
     crypto_randomUUID := "c0ffee00";
     latency := 200 |}.

(** The wallet of D, who is not an owner of the example round. *)
Definition helpers_D : Collaborators :=
  {| wallet_getChangeAddress := Ok "addr_test1D";
     wallet_signTx := fun tx _ => Ok (tx ++ "a4");
     wallet_submitTx := fun _ => Ok "9f3c";
     deserializeAddress_pubKeyHash := fun _ => "pkhD";
     buildUnlockTransaction := Ok ("84a400", owners_ABC, 2);
     crypto_randomUUID := "c0ffee01";
     latency := 200 |}.

(* ------------------------------------------------------------------------- *)
(** ** Readings of the specification

    Statements of the design document, written over the code above, that
    the properties below compare the code against. *)

(** The reading of the specification: [applySignature] refuses, and keeps
    the stored session, whenever the signer is not among the required
    authorizers, whatever that set is. *)
Definition rejects_unrequired_signers : Prop :=
  forall (required : list string) (w : World) (s : MultiSigSession)
         (signer tx : string),
    live w s -> ~ In signer required ->
    exists e w', applySignature signer tx w = (Throw e, w')
                 /\ storage w' = Some s.



(** The reading of the specification: a payload for the local session's id
    that carries more collected signers than the local session replaces
    it. *)
Definition import_adopts_greater_progress (C : Codec) : Prop :=
  forall (w : World) (s : MultiSigSession) (str : string) (p : Payload.t),
    live w s -> json_atob C str = Ok p -> clock w <= Payload.expiresAt p ->
    Payload.sessionId p = sessionId s ->
    collected_count s < Z.of_nat (List.length (Payload.collectedSigners p)) ->
    exists s' w',
      importSessionPayload C str w = (Ok (Some s'), w')
      /\ storage w' = Some s'
      /\ collectedSigners s' = Payload.collectedSigners p.

(** The reading of the specification: a payload adopted where no session
    is stored yields a session whose status agrees with its count. *)
Definition import_recomputes_status (C : Codec) : Prop :=
  forall (w : World) (str : string) (s' : MultiSigSession) (w' : World),
    storage w = None ->
    importSessionPayload C str w = (Ok (Some s'), w') ->
    ready_iff_threshold_met s'.

(** The reading of the specification: creating a session fails, and keeps
    the stored session, while a live session exists. *)
Definition create_refuses_while_live : Prop :=
  forall (utx ptx : string) (thr : Z) (pkh uuid : string)
         (w : World) (s : MultiSigSession),
    live w s ->
    exists e w', createSession utx ptx thr pkh uuid w = (Throw e, w')
                 /\ storage w' = Some s.

(** The reading of the specification: once a session's time is up, both
    mutating operations fail with an error. *)
Definition expired_operations_fail : Prop :=
  forall (w : World) (s : MultiSigSession),
    stale w s ->
    (forall signer tx, exists e w', applySignature signer tx w = (Throw e, w'))
    /\ (forall h, exists e w', markSubmitted h w = (Throw e, w')).

(* ------------------------------------------------------------------------- *)
(** ** The status snapshot *)

(** The object [getSessionStatus] returns. *)
Module SessionStatus.
Record t : Type := mk {
  signed : Z;
  required : Z;
  status : Status;
  remainingMs : Z;
  sessionId : string
}.
End SessionStatus.

Definition getSessionStatus : M (option SessionStatus.t) :=
  r <- readSession ;;
  match r with
  | None => ret None
  | Some session =>
      remaining <- getRemainingMs session ;;
      ret (Some {| SessionStatus.signed :=
                     Z.of_nat (List.length (collectedSigners session));
                   SessionStatus.required := threshold session;
                   SessionStatus.status := status session;
                   SessionStatus.remainingMs := remaining;
                   SessionStatus.sessionId := sessionId session |})
  end.

(* ------------------------------------------------------------------------- *)
(** ** Runs of the session manager *)

(** A tab in which one [applySignature] call after another is made, each
    with its signer and merged transaction, whether or not it is accepted;
    no time passes in between. *)
Fixpoint applySignatures (calls : list (string * string)) (w : World) : World :=
  match calls with
  | [] => w
  | (signerPkh, newPartialTx) :: rest =>
      applySignatures rest (snd (applySignature signerPkh newPartialTx w))
  end.

(** No [clearSession] callback becomes due within the next [dt] ms. *)
Definition quiet_for (dt : Z) (w : World) : Prop :=
  Forall (fun deadline => clock w + dt < deadline) (timers w).

(** The world [dt] ms later when nothing fires: only the clock has moved. *)
Definition later (dt : Z) (w : World) : World :=
  mkWorld (clock w + dt) (browser w) (storage w) (timers w).

(** A session in which the count of signers and the status agree and the
    count has not gone past the threshold. *)
Definition tracked (s : MultiSigSession) : Prop :=
  (status s = pending /\ collected_count s < threshold s)
  \/ (status s = ready /\ collected_count s = threshold s).

(** Two sessions that agree on the fields fixed at creation. *)
Definition same_round (s s' : MultiSigSession) : Prop :=
  sessionId s' = sessionId s
  /\ unsignedTx s' = unsignedTx s
  /\ threshold s' = threshold s
  /\ createdAt s' = createdAt s
  /\ expiresAt s' = expiresAt s.

(** The example round, ready, in the tab of B. *)
Definition tab_AB : World := mkWorld 6400 true (Some session_AB) [].

(** A server-side render: no [window]. *)
Definition server_side : World := mkWorld 6000 false None [].

(** The example round seen from a tab whose local copy expires later than
    the payload says: the payload of [session_A] is stale at time 700000. *)
Definition session_A_extended : MultiSigSession :=
  mkSession "5b1e7d3c" "84a400" "84a400a1" ["pkhA"] 2 pending 1000 900000 None.
Definition tab_A_extended : World :=
  mkWorld 700000 true (Some session_A_extended) [].

(** Another round, opened by C, and its payload. *)
Definition session_other : MultiSigSession :=
  mkSession "77aa01bc" "84a500" "84a500a3" ["pkhC"] 3 pending 2000 602000 None.

(** A wallet whose user declines to sign and to submit. *)
Definition helpers_declining : Collaborators :=
  {| wallet_getChangeAddress := Ok "addr_test1C";
     wallet_signTx := fun _ _ => Throw "user declined to sign";
     wallet_submitTx := fun _ => Throw "user declined to submit";
     deserializeAddress_pubKeyHash := fun _ => "pkhC";
     buildUnlockTransaction := Ok ("84a400", owners_ABC, 2);
     crypto_randomUUID := "c0ffee02";
     latency := 200 |}.

(** The wallet of A, who opened the example round. *)
Definition helpers_A : Collaborators :=
  {| wallet_getChangeAddress := Ok "addr_test1A";
     wallet_signTx := fun tx _ => Ok (tx ++ "a1");
     wallet_submitTx := fun _ => Ok "9f3c";
     deserializeAddress_pubKeyHash := fun _ => "pkhA";
     buildUnlockTransaction := Ok ("84a400", owners_ABC, 2);
     crypto_randomUUID := "5b1e7d3c";
     latency := 200 |}.

(** The tab of A a moment before the example round expires. *)
Definition tab_A_closing : World :=
  mkWorld (1000 + SESSION_TTL_MS - 100) true (Some session_A) [].

(* ------------------------------------------------------------------------- *)
(** ** Building the unlock transaction ([multi-sig-unlock.ts])

    The functions of this part touch neither the clock nor the session
    store: they run in [Outcome] alone.  What they get from the wallet,
    the provider, the serialization library and the transaction builder
    is passed in. *)

Module Builder.

Definition andThen {A B} (o : Outcome A) (k : A -> Outcome B) : Outcome B :=
  match o with
  | Ok a => k a
  | Throw e => Throw e
  end.

Notation "x <~ o ;; k" := (andThen o (fun x => k))
  (at level 61, o at next level, right associativity).

(** [Asset] and [UTxO] of the wallet library. *)
Record Asset : Type := mkAsset {
  unit_ : string;
  quantity : string
}.

Record UTxO : Type := mkUTxO {
  input_txHash : string;
  input_outputIndex : Z;
  output_address : string;
  output_amount : list Asset;
  output_plutusData : option string
}.

(** [Array.prototype.find] with a callback that may throw. *)
Fixpoint find_throwing {A} (p : A -> Outcome bool) (l : list A)
  : Outcome (option A) :=
  match l with
  | [] => Ok None
  | x :: rest =>
      found <~ p x ;;
      if found then Ok (Some x) else find_throwing p rest
  end.

Definition is_lovelace (a : Asset) : bool := String.eqb (unit_ a) "lovelace".

(** [u.output.amount.find(a => a.unit === "lovelace")?.quantity ?? "0"] *)
Definition lovelace_quantity (u : UTxO) : string :=
  match List.find is_lovelace (output_amount u) with
  | Some a => quantity a
  | None => "0"
  end.

(** The callback of [findCollateralUtxo].  [BigInt] is the conversion of a
    string to a big integer, which throws on a string that is no integer
    literal. *)
Definition collateral_candidate (BigInt : string -> Outcome Z) (u : UTxO)
  : Outcome bool :=
  let isOnlyAda := forallb is_lovelace (output_amount u) in
  q <~ BigInt (lovelace_quantity u) ;;
  let hasEnough := q >=? 5000000 in
  Ok (isOnlyAda && hasEnough).

Definition findCollateralUtxo (BigInt : string -> Outcome Z) (utxos : list UTxO)
  : Outcome (option UTxO) :=
  find_throwing (collateral_candidate BigInt) utxos.

(** Plutus data as the serialization library presents it; a byte string is
    kept as the hex text [Buffer.from(bytes).toString("hex")] prints.
    Integers are taken to be in the range where [parseInt] is exact. *)
#[warnings="-register-all"]
Inductive PlutusData : Type :=
| PConstr (alternative : Z) (fields : list PlutusData)
| PMap (entries : list (PlutusData * PlutusData))
| PList (items : list PlutusData)
| PInteger (z : Z)
| PBytes (hex : string).

(** The serialization library: decoding of a hex string, and the message
    of the error [PlutusList.get] raises for an index out of range. *)
Record CSL : Type := mkCSL {
  PlutusData_from_hex : string -> Outcome PlutusData;
  msg_index_out_of_range : string
}.

Definition PlutusList_get (lib : CSL) (l : list PlutusData) (i : nat)
  : Outcome PlutusData :=
  match nth_error l i with
  | Some d => Ok d
  | None => Throw (msg_index_out_of_range lib)
  end.

(** The loop of [parseDatum] over the owners list: entries that are not
    byte strings are passed over. *)
Fixpoint owners_of (items : list PlutusData) : list string :=
  match items with
  | [] => []
  | PBytes hex :: rest => hex :: owners_of rest
  | _ :: rest => owners_of rest
  end.

(** [parseDatum], on the Plutus data the wallet library gives as a hex
    string (the type of a UTxO); an empty string counts as absent. *)
Definition parseDatum (lib : CSL) (utxo : UTxO) : Outcome (list string * Z) :=
  match output_plutusData utxo with
  | None => Throw "UTxO does not contain Plutus data."
  | Some datum =>
      if String.eqb datum "" then Throw "UTxO does not contain Plutus data."
      else
        match
          (plutusData <~ PlutusData_from_hex lib datum ;;
           match plutusData with
           | PConstr _ fields =>
               field0 <~ PlutusList_get lib fields 0 ;;
               match field0 with
               | PList ownersList =>
                   let owners := owners_of ownersList in
                   field1 <~ PlutusList_get lib fields 1 ;;
                   match field1 with
                   | PInteger thresholdData => Ok (owners, thresholdData)
                   | _ => Throw "Threshold field is not an integer."
                   end
               | _ => Throw "Owners field is not a list."
               end
           | _ => Throw "Not a constructor datum."
           end)
        with
        | Ok r => Ok r
        | Throw e => Throw ("Failed to parse datum: " ++ e)
        end
  end.

(** The calls made on the transaction builder, in order. *)
Inductive BuilderCall : Type :=
| setNetwork (network : string)
| spendingPlutusScriptV3
| txIn (txHash : string) (outputIndex : Z) (amount : list Asset)
       (address : string)
| txInScript (scriptCbor : string)
| txInInlineDatumPresent
| txInDatumValue (datumCbor : string)
| txInRedeemerValue (redeemer : string) (mem steps : Z)
| requiredSignerHash (pkh : string)
| txOut (address : string) (amount : list Asset)
| txInCollateral (txHash : string) (outputIndex : Z) (amount : list Asset)
                 (address : string)
| changeAddress (address : string)
| selectUtxosFrom (utxos : list UTxO).

(** What [buildUnlockTransaction] awaits from outside: the wallet, the
    provider, and [complete], which turns the calls made so far into the
    unsigned transaction. *)
Record Services : Type := mkServices {
  csl : CSL;
  BigInt : string -> Outcome Z;
  wallet_getUtxos : Outcome (list UTxO);
  wallet_changeAddress : Outcome string;
  provider_fetchProtocolParameters : Outcome unit;
  txBuilder_complete : list BuilderCall -> Outcome string
}.

(** [array.slice(0, end)] *)
Definition slice0 {A} (l : list A) (e : Z) : list A :=
  let len := Z.of_nat (List.length l) in
  let stop := if (e <? 0)%Z then Z.max (len + e) 0 else Z.min e len in
  firstn (Z.to_nat stop) l.

Definition is_script_utxo (scriptUtxo u : UTxO) : bool :=
  String.eqb (input_txHash u) (input_txHash scriptUtxo)
  && (input_outputIndex u =? input_outputIndex scriptUtxo)%Z.

Definition msg_too_few_signers (threshold_ got : Z) : string :=
  "signingOwners must contain at least " ++ Number_toString threshold_
    ++ " key hashes (got " ++ Number_toString got ++ ").".

(** The builder calls of [buildUnlockTransaction] up to the redeemer. *)
Definition spend_calls (network : string) (scriptUtxo : UTxO)
    (scriptCbor : string) : list BuilderCall :=
  let datumCbor := output_plutusData scriptUtxo in
  let isInlineDatum :=
    match datumCbor with
    | Some d => negb (String.eqb d "")
    | None => false
    end in
  [ setNetwork network;
    spendingPlutusScriptV3;
    txIn (input_txHash scriptUtxo) (input_outputIndex scriptUtxo)
         (output_amount scriptUtxo) (output_address scriptUtxo);
    txInScript scriptCbor;
    if isInlineDatum then txInInlineDatumPresent
    else txInDatumValue (match datumCbor with Some d => d | None => "" end);
    txInRedeemerValue "d87980" 14000000 10000000000 ].

Definition buildUnlockTransaction (S : Services)
    (scriptAddr : string) (scriptUtxo : UTxO) (scriptCbor outputAddress : string)
    (network : string) (signingOwners : option (list string))
  : Outcome (string * list string * Z) :=
  datum <~ parseDatum (csl S) scriptUtxo ;;
  let '(ownersList, threshold_) := datum in
  walletUtxos <~ wallet_getUtxos S ;;
  changeAddress_ <~ wallet_changeAddress S ;;
  let filteredWalletUtxos :=
    filter (fun u => negb (is_script_utxo scriptUtxo u)) walletUtxos in
  _ <~ provider_fetchProtocolParameters S ;;
  let calls1 := spend_calls network scriptUtxo scriptCbor in
  let effectiveSigners :=
    match signingOwners with
    | Some l => l
    | None => slice0 ownersList threshold_
    end in
  if (Z.of_nat (List.length effectiveSigners) <? threshold_)%Z then
    Throw (msg_too_few_signers threshold_
             (Z.of_nat (List.length effectiveSigners)))
  else
    let calls2 :=
      (calls1
       ++ map requiredSignerHash
            (filter (fun pkh => Nat.eqb (String.length pkh) 56)
                    effectiveSigners)
       ++ [txOut outputAddress (output_amount scriptUtxo)])%list in
    collateralUtxo <~ findCollateralUtxo (BigInt S) walletUtxos ;;
    let calls3 :=
      match collateralUtxo with
      | Some c =>
          (calls2 ++ [txInCollateral (input_txHash c) (input_outputIndex c)
                                     (output_amount c) (output_address c)])%list
      | None => calls2
      end in
    unsignedTx_ <~ txBuilder_complete S
                     (calls3 ++ [changeAddress changeAddress_;
                                 selectUtxosFrom filteredWalletUtxos])%list ;;
    Ok (unsignedTx_, ownersList, threshold_).

End Builder.


(** The key hashes declared as required signers, in call order. *)
Fixpoint declared_signers (calls : list Builder.BuilderCall) : list string :=
  match calls with
  | [] => []
  | Builder.requiredSignerHash pkh :: rest => pkh :: declared_signers rest
  | _ :: rest => declared_signers rest
  end.

(** The lists offered for coin selection, in call order. *)
Fixpoint selections (calls : list Builder.BuilderCall)
  : list (list Builder.UTxO) :=
  match calls with
  | [] => []
  | Builder.selectUtxosFrom l :: rest => l :: selections rest
  | _ :: rest => selections rest
  end.

(** The outputs added, in call order. *)
Fixpoint outputs (calls : list Builder.BuilderCall)
  : list (string * list Builder.Asset) :=
  match calls with
  | [] => []
  | Builder.txOut a amount :: rest => (a, amount) :: outputs rest
  | _ :: rest => outputs rest
  end.

(** Reading a quantity written in decimal. *)
Definition decimal_BigInt (s : string) : Outcome Z :=
  match LineCodec.parse_number s with
  | Some z => Ok z
  | None => Throw "Cannot convert to a BigInt"
  end.

(** Example UTxOs: the script UTxO of the example round with its datum
    (owners A, B, C; threshold 2), and three wallet UTxOs. *)
Definition pkh_A : string :=
  "a1a1a1a1a1a1a1a1a1a1a1a1a1a1a1a1a1a1a1a1a1a1a1a1a1a1a1a1".
Definition pkh_B : string :=
  "b2b2b2b2b2b2b2b2b2b2b2b2b2b2b2b2b2b2b2b2b2b2b2b2b2b2b2b2".
Definition pkh_C : string :=
  "c3c3c3c3c3c3c3c3c3c3c3c3c3c3c3c3c3c3c3c3c3c3c3c3c3c3c3c3".

Definition datum_ABC : Builder.PlutusData :=
  Builder.PConstr 0
    [ Builder.PList [Builder.PBytes pkh_A; Builder.PBytes pkh_B;
                     Builder.PBytes pkh_C];
      Builder.PInteger 2 ].

Definition script_utxo : Builder.UTxO :=
  Builder.mkUTxO "aa00" 0 "addr_test1script"
    [Builder.mkAsset "lovelace" "20000000"] (Some "d8799f").

Definition utxo_tokens : Builder.UTxO :=
  Builder.mkUTxO "bb01" 0 "addr_test1A"
    [Builder.mkAsset "lovelace" "9000000"; Builder.mkAsset "cafe.TOKEN" "1"]
    None.
Definition utxo_small : Builder.UTxO :=
  Builder.mkUTxO "bb02" 1 "addr_test1A"
    [Builder.mkAsset "lovelace" "4999999"] None.
Definition utxo_ada : Builder.UTxO :=
  Builder.mkUTxO "bb03" 0 "addr_test1A"
    [Builder.mkAsset "lovelace" "5000000"] None.

Definition example_csl : Builder.CSL :=
  Builder.mkCSL
    (fun hex => if String.eqb hex "d8799f" then Ok datum_ABC
                else Throw "Deserialization failed")
    "index out of range".

Definition example_services : Builder.Services :=
  Builder.mkServices example_csl decimal_BigInt
    (Ok [utxo_tokens; script_utxo; utxo_small; utxo_ada])
    (Ok "addr_test1A") (Ok tt)
    (fun _ => Ok "84a400").

(* ------------------------------------------------------------------------- *)
(** ** Helpers of the React hook ([useMultisig.ts]) *)

Module Hook.

(** [String.prototype.padStart] *)
Fixpoint cycle_take (n : nat) (padString rest : string) : string :=
  match n with
  | O => ""
  | S n' =>
      match rest with
      | String c rest' => String c (cycle_take n' padString rest')
      | EmptyString =>
          match padString with
          | String c rest' => String c (cycle_take n' padString rest')
          | EmptyString => ""
          end
      end
  end.

Definition padStart (targetLength : nat) (padString s : string) : string :=
  if Nat.leb targetLength (String.length s) then s
  else cycle_take (targetLength - String.length s) padString padString ++ s.

(** [formatCountdown(ms)], for a whole number of milliseconds that a
    JavaScript number holds exactly (at most [MAX_SAFE_INTEGER] in
    size), the range in which the source's arithmetic on doubles is the
    arithmetic on integers and a number prints as its decimal digits:
    [Math.ceil(ms / 1000)] is the quotient of [ms + 999] by 1000 rounded
    down, and [%] is the remainder that takes the sign of the dividend. *)
Definition formatCountdown (ms : Z) : string :=
  let totalSeconds := (ms + 999) / 1000 in
  let m := totalSeconds / 60 in
  let s := Z.rem totalSeconds 60 in
  Number_toString m ++ ":" ++ padStart 2 "0" (Number_toString s).

End Hook.

(** [Number.MAX_SAFE_INTEGER], 2^53 - 1. *)
Definition MAX_SAFE_INTEGER : Z := 9007199254740991.

(** The character of a decimal digit. *)
Definition digit_char (d : Z) : ascii := ascii_of_nat (48 + Z.to_nat d).

(* ------------------------------------------------------------------------- *)
(** ** The script builder ([script-builder.ts])

    The blueprint ([plutus.json]), the network name and the address
    encoding are taken from outside. *)

Module ScriptBuilder.

Record Validator : Type := mkValidator {
  title : string;
  compiledCode : string;
  hash : string
}.

Record Script : Type := mkScript {
  scriptCbor : string;
  scriptAddr : string;
  script_title : string
}.

(** [bech32_address hrp headerByte hashHex] is the bech32 encoding, under
    [hrp], of the header byte followed by the bytes of the hash;
    [msg_undefined] is the message of the error raised on reading a
    property of [undefined]. *)
Record Platform : Type := mkPlatform {
  bech32_address : string -> Z -> string -> Outcome string;
  msg_undefined : string
}.

(** [Number.prototype.toString(16)] on a natural number: the digits in
    base 16, most significant first, no leading zero. *)
Definition hex_digit (d : N) : ascii :=
  match d with
  | 0%N => "0" | 1%N => "1" | 2%N => "2" | 3%N => "3"
  | 4%N => "4" | 5%N => "5" | 6%N => "6" | 7%N => "7"
  | 8%N => "8" | 9%N => "9" | 10%N => "a" | 11%N => "b"
  | 12%N => "c" | 13%N => "d" | 14%N => "e" | _ => "f"
  end%char.

Fixpoint hex_digits (fuel : nat) (n : N) : string :=
  match fuel with
  | O => ""
  | S fuel' =>
      (if (n / 16 =? 0)%N then "" else hex_digits fuel' (n / 16))
      ++ String (hex_digit (n mod 16)) ""
  end.

Definition toString16 (n : N) : string :=
  hex_digits (S (N.to_nat (N.log2 n))) n.

(** [(length / 2).toString(16)]: an odd length leaves one half, which is
    printed as [.8]. *)
Definition half_toString16 (length : nat) : string :=
  if Nat.even length then toString16 (N.of_nat (Nat.div2 length))
  else toString16 (N.of_nat (Nat.div2 length)) ++ ".8".

Definition getScript (P : Platform) (validators : list Validator)
    (NETWORK : string) (validatorIndex : nat) : Outcome Script :=
  match nth_error validators validatorIndex with
  | None => Throw (msg_undefined P)
  | Some v =>
      let networkId := if String.eqb NETWORK "mainnet" then 1 else 0 in
      let headerByte := if (networkId =? 1)%Z then 113 else 112 in
      let hrp := if (networkId =? 1)%Z then "addr" else "addr_test" in
      match bech32_address P hrp headerByte (hash v) with
      | Throw e => Throw e
      | Ok addr =>
          let doubleEncoded :=
            "59" ++ Hook.padStart 4 "0"
                      (half_toString16 (String.length (compiledCode v)))
                 ++ compiledCode v in
          Ok (mkScript doubleEncoded addr (title v))
      end
  end.

(** One round of the [forEach] of [getAllUniqueScripts]: the set of CBOR
    strings seen and the scripts kept so far. *)
Definition visit (P : Platform) (validators : list Validator)
    (NETWORK : string) (acc : list string * list Script) (index : nat)
  : list string * list Script :=
  let '(seenCbor, uniqueScripts) := acc in
  match getScript P validators NETWORK index with
  | Ok s =>
      if existsb (String.eqb (scriptCbor s)) seenCbor then acc
      else ((seenCbor ++ [scriptCbor s])%list, (uniqueScripts ++ [s])%list)
  | Throw _ => acc
  end.

Definition getAllUniqueScripts (P : Platform) (validators : list Validator)
    (NETWORK : string) : list Script :=
  snd (fold_left (visit P validators NETWORK)
                 (seq 0 (List.length validators)) ([], [])).

End ScriptBuilder.

(** The four hexadecimal digits of a number below 65536. *)
Definition four_hex_digits (k : N) : string :=
  String (ScriptBuilder.hex_digit (k / 4096))
    (String (ScriptBuilder.hex_digit (k / 256 mod 16))
       (String (ScriptBuilder.hex_digit (k / 16 mod 16))
          (String (ScriptBuilder.hex_digit (k mod 16)) ""))).

(** An address encoding for the examples. *)
Definition example_platform : ScriptBuilder.Platform :=
  ScriptBuilder.mkPlatform
    (fun hrp header hash =>
       if String.eqb hash "" then Throw "Invalid hash"
       else Ok (hrp ++ "1" ++ Number_toString header ++ hash))
    "Cannot read properties of undefined".

Definition example_blueprint : list ScriptBuilder.Validator :=
  [ ScriptBuilder.mkValidator "multisig.spend" "590a00aa" "ab12";
    ScriptBuilder.mkValidator "multisig.else" "590a00aa" "ab12";
    ScriptBuilder.mkValidator "broken.spend" "00" "";
    ScriptBuilder.mkValidator "vesting.spend" "4e4d01" "cd34" ].

(* ------------------------------------------------------------------------- *)
(** ** The server-side signature sessions (API route)

    An in-memory [Map] from session id to session, kept in insertion
    order, behind three HTTP handlers and a periodic cleanup.  A request
    body is the parsed JSON, with every field that may be absent an
    [option]; an empty string and the number 0 are falsy. *)

Module SignatureApi.

Record SignatureEntry : Type := mkEntry {
  signerAddress : string;
  signature : string;
  timestamp : Z
}.

Record SignatureSession : Type := mkSignatureSession {
  txHash : string;
  unsignedTx : string;
  scriptAddr : string;
  utxoRef : string;
  requiredSignatures : Z;
  signatures : list SignatureEntry;
  createdAt : Z;
  expiresAt : Z
}.

Definition SESSION_TTL : Z := 10 * 60 * 1000.

(** The [Map]: keys in insertion order. *)
Definition Sessions : Type := list (string * SignatureSession).

Fixpoint Map_get (m : Sessions) (key : string) : option SignatureSession :=
  match m with
  | [] => None
  | (k, v) :: rest => if String.eqb k key then Some v else Map_get rest key
  end.

Fixpoint Map_set (m : Sessions) (key : string) (value : SignatureSession)
  : Sessions :=
  match m with
  | [] => [(key, value)]
  | (k, v) :: rest =>
      if String.eqb k key then (k, value) :: rest
      else (k, v) :: Map_set rest key value
  end.

Definition Map_delete (m : Sessions) (key : string) : Sessions :=
  filter (fun kv => negb (String.eqb (fst kv) key)) m.

(** The server: its clock and the module-level map. *)
Record Server : Type := mkServer {
  now : Z;
  signatureSessions : Sessions
}.

Definition cleanupExpiredSessions (srv : Server) : Server :=
  mkServer (now srv)
    (filter (fun kv => negb (expiresAt (snd kv) <? now srv)%Z)
            (signatureSessions srv)).

(** The [data] object of a POST body. *)
Record Data : Type := mkData {
  data_unsignedTx : option string;
  data_scriptAddr : option string;
  data_utxoRef : option string;
  data_requiredSignatures : option Z;
  data_signerAddress : option string;
  data_signature : option string
}.

Record Body : Type := mkBody {
  body_sessionId : option string;
  body_action : option string;
  body_data : option Data
}.

(** What the summary of a session shows of a signature. *)
Record SignatureView : Type := mkSignatureView {
  view_signerAddress : string;
  view_timestamp : Z
}.

Record SessionView : Type := mkSessionView {
  view_sessionId : string;
  view_unsignedTx : string;
  view_scriptAddr : string;
  view_utxoRef : string;
  view_requiredSignatures : Z;
  view_signaturesCollected : Z;
  view_signatures : list SignatureView;
  view_createdAt : Z;
  view_expiresAt : Z;
  view_isComplete : bool
}.

Inductive Json : Type :=
| JError (error : string)
| JCreated (sessionId : string) (expiresIn : Z)
| JSigned (sessionId : string) (signaturesCollected required : Z)
          (isComplete : bool)
| JSession (session : SessionView)
| JDeleted (message : string).

Record Response : Type := mkResponse {
  status : Z;
  json : Json
}.

Definition truthy (s : option string) : bool :=
  match s with
  | Some v => negb (String.eqb v "")
  | None => false
  end.

Definition truthy_number (n : option Z) : bool :=
  match n with
  | Some v => negb (v =? 0)%Z
  | None => false
  end.

Definition text (s : option string) : string :=
  match s with Some v => v | None => "" end.

Definition number (n : option Z) : Z :=
  match n with Some v => v | None => 0 end.

(** The signature of [signer] replaced where it stands. *)
Fixpoint replace_signature (l : list SignatureEntry) (signer sig : string)
    (time : Z) : list SignatureEntry :=
  match l with
  | [] => []
  | e :: rest =>
      if String.eqb (signerAddress e) signer
      then mkEntry (signerAddress e) sig time :: rest
      else e :: replace_signature rest signer sig time
  end.

Definition with_signatures (s : SignatureSession) (l : list SignatureEntry)
  : SignatureSession :=
  mkSignatureSession (txHash s) (unsignedTx s) (scriptAddr s) (utxoRef s)
    (requiredSignatures s) l (createdAt s) (expiresAt s).

(** What the environment supplies to a POST: the outcome of
    [request.json()], the text [Math.random().toString(36).substr(2, 9)]
    yields, and the engine's text for the error raised when [data] is
    missing. *)
Record PostEnv : Type := mkPostEnv {
  request_json : Outcome Body;
  random_suffix : string;
  msg_destructure : string
}.

Definition POST (env : PostEnv) (srv : Server) : Response * Server :=
  match request_json env with
  | Throw e => (mkResponse 500 (JError e), srv)
  | Ok body =>
      if String.eqb (text (body_action body)) "create" then
        match body_data body with
        | None => (mkResponse 500 (JError (msg_destructure env)), srv)
        | Some data =>
            if negb (truthy (data_unsignedTx data))
               || negb (truthy (data_scriptAddr data))
               || negb (truthy (data_utxoRef data))
               || negb (truthy_number (data_requiredSignatures data))
            then (mkResponse 400 (JError "Missing required fields"), srv)
            else
              let newSessionId :=
                "sig_" ++ Number_toString (now srv) ++ "_"
                       ++ random_suffix env in
              let session :=
                mkSignatureSession "" (text (data_unsignedTx data))
                  (text (data_scriptAddr data)) (text (data_utxoRef data))
                  (number (data_requiredSignatures data)) []
                  (now srv) (now srv + SESSION_TTL) in
              (mkResponse 200 (JCreated newSessionId SESSION_TTL),
               mkServer (now srv)
                 (Map_set (signatureSessions srv) newSessionId session))
        end
      else if String.eqb (text (body_action body)) "sign" then
        match body_data body with
        | None => (mkResponse 500 (JError (msg_destructure env)), srv)
        | Some data =>
            if negb (truthy (body_sessionId body))
               || negb (truthy (data_signerAddress data))
               || negb (truthy (data_signature data))
            then (mkResponse 400 (JError "Missing required fields"), srv)
            else
              let sessionId := text (body_sessionId body) in
              let signer := text (data_signerAddress data) in
              let sig := text (data_signature data) in
              match Map_get (signatureSessions srv) sessionId with
              | None =>
                  (mkResponse 404 (JError "Session not found or expired"), srv)
              | Some session =>
                  if (expiresAt session <? now srv)%Z then
                    (mkResponse 410 (JError "Session expired"),
                     mkServer (now srv)
                       (Map_delete (signatureSessions srv) sessionId))
                  else
                    let updated :=
                      if existsb (fun e => String.eqb (signerAddress e) signer)
                                 (signatures session)
                      then replace_signature (signatures session) signer sig
                             (now srv)
                      else (signatures session
                            ++ [mkEntry signer sig (now srv)])%list in
                    let count := Z.of_nat (List.length updated) in
                    (mkResponse 200
                       (JSigned sessionId count (requiredSignatures session)
                          (count >=? requiredSignatures session)),
                     mkServer (now srv)
                       (Map_set (signatureSessions srv) sessionId
                          (with_signatures session updated)))
              end
        end
      else (mkResponse 400 (JError "Invalid action"), srv)
  end.

Definition view_of (sessionId : string) (session : SignatureSession)
  : SessionView :=
  mkSessionView sessionId (unsignedTx session) (scriptAddr session)
    (utxoRef session) (requiredSignatures session)
    (Z.of_nat (List.length (signatures session)))
    (map (fun s => mkSignatureView (signerAddress s) (timestamp s))
         (signatures session))
    (createdAt session) (expiresAt session)
    (Z.of_nat (List.length (signatures session))
     >=? requiredSignatures session).

(** [GET ?sessionId=...]: the argument is [searchParams.get('sessionId')]. *)
Definition GET (sessionId : option string) (srv : Server)
  : Response * Server :=
  if negb (truthy sessionId) then
    (mkResponse 400 (JError "Session ID required"), srv)
  else
    match Map_get (signatureSessions srv) (text sessionId) with
    | None => (mkResponse 404 (JError "Session not found or expired"), srv)
    | Some session =>
        if (expiresAt session <? now srv)%Z then
          (mkResponse 410 (JError "Session expired"),
           mkServer (now srv)
             (Map_delete (signatureSessions srv) (text sessionId)))
        else (mkResponse 200 (JSession (view_of (text sessionId) session)), srv)
    end.

Definition DELETE (sessionId : option string) (srv : Server)
  : Response * Server :=
  if negb (truthy sessionId) then
    (mkResponse 400 (JError "Session ID required"), srv)
  else
    match Map_get (signatureSessions srv) (text sessionId) with
    | None => (mkResponse 404 (JError "Session not found"), srv)
    | Some _ =>
        (mkResponse 200 (JDeleted "Session deleted successfully"),
         mkServer (now srv)
           (Map_delete (signatureSessions srv) (text sessionId)))
    end.

End SignatureApi.

(** A POST body asking to add the signature [sig] of [signer] to the
    session [sid], all three present and non-empty. *)
Definition sign_request (env : SignatureApi.PostEnv)
    (sid signer sig : string) : Prop :=
  exists body data,
    SignatureApi.request_json env = Ok body
    /\ SignatureApi.body_action body = Some "sign"
    /\ SignatureApi.body_data body = Some data
    /\ SignatureApi.body_sessionId body = Some sid /\ sid <> ""
    /\ SignatureApi.data_signerAddress data = Some signer /\ signer <> ""
    /\ SignatureApi.data_signature data = Some sig /\ sig <> "".

(** A POST body asking to create a session, its four fields present and
    truthy. *)
Definition create_request (env : SignatureApi.PostEnv)
    (utx addr ref : string) (required : Z) : Prop :=
  exists body data,
    SignatureApi.request_json env = Ok body
    /\ SignatureApi.body_action body = Some "create"
    /\ SignatureApi.body_data body = Some data
    /\ SignatureApi.data_unsignedTx data = Some utx /\ utx <> ""
    /\ SignatureApi.data_scriptAddr data = Some addr /\ addr <> ""
    /\ SignatureApi.data_utxoRef data = Some ref /\ ref <> ""
    /\ SignatureApi.data_requiredSignatures data = Some required
    /\ required <> 0.

(** The signers of a server-side session, in order of first signature. *)
Definition signers_of (s : SignatureApi.SignatureSession) : list string :=
  map SignatureApi.signerAddress (SignatureApi.signatures s).

(** An example server holding one session with the signature of A. *)
Definition server_session : SignatureApi.SignatureSession :=
  SignatureApi.mkSignatureSession "" "84a400" "addr_test1script" "aa00#0" 2
    [SignatureApi.mkEntry "addr_test1A" "sigA" 1500] 1000 601000.

Definition example_server : SignatureApi.Server :=
  SignatureApi.mkServer 6000 [("sig_1000_k3j2h1g0f", server_session)].

Definition example_server_late : SignatureApi.Server :=
  SignatureApi.mkServer 601001 [("sig_1000_k3j2h1g0f", server_session)].

Definition sign_env (sid signer sig : string) : SignatureApi.PostEnv :=
  SignatureApi.mkPostEnv
    (Ok (SignatureApi.mkBody (Some sid) (Some "sign")
           (Some (SignatureApi.mkData None None None None
                    (Some signer) (Some sig)))))
    "x7y8z9a1b" "Cannot destructure property of undefined".

Definition create_env (required : Z) : SignatureApi.PostEnv :=
  SignatureApi.mkPostEnv
    (Ok (SignatureApi.mkBody None (Some "create")
           (Some (SignatureApi.mkData (Some "84a400") (Some "addr_test1script")
                    (Some "aa00#0") (Some required) None None))))
    "x7y8z9a1b" "Cannot destructure property of undefined".

(* ========================================================================= *)
(** * Properties *)

(** ** Reading the store *)

Lemma gtb_false_of_le (a b : Z) : a <= b -> (a >? b) = false.
Proof. intro H. rewrite Z.gtb_ltb. apply Z.ltb_ge. exact H. Qed.

Lemma gtb_true_of_lt (a b : Z) : b < a -> (a >? b) = true.
Proof. intro H. rewrite Z.gtb_ltb. apply Z.ltb_lt. exact H. Qed.

(** Runs a monadic computation on a world whose fields are laid bare. *)
Ltac run :=
  cbv [readSession try_catch bind isBrowser sessionStorage_getItem
       sessionStorage_setItem sessionStorage_removeItem isExpired Date_now
       ret throw clearSession writeSession set_storage
       setTimeout_clearSession];
  cbn [clock browser storage timers negb fst snd].

Lemma readSession_live (w : World) (s : MultiSigSession) :
  live w s -> readSession w = (Ok (Some s), w).
Proof.
  destruct w as [now b slot ts]. unfold live. cbn.
  intros (-> & -> & Ht). run.
  rewrite (gtb_false_of_le _ _ Ht). reflexivity.
Qed.

Lemma readSession_stale (w : World) (s : MultiSigSession) :
  stale w s -> readSession w = (Ok None, set_storage w None).
Proof.
  destruct w as [now b slot ts]. unfold stale. cbn.
  intros (-> & -> & Ht). run.
  rewrite (gtb_true_of_lt _ _ Ht). reflexivity.
Qed.

Lemma readSession_empty (w : World) :
  storage w = None -> readSession w = (Ok None, w).
Proof.
  destruct w as [now b slot ts]. cbn. intros ->. run.
  destruct b; reflexivity.
Qed.

Lemma readSession_server (w : World) :
  browser w = false -> readSession w = (Ok None, w).
Proof.
  destruct w as [now b slot ts]. cbn. intros ->. reflexivity.
Qed.

(** [readSession] never throws, and what it returns is live afterwards. *)
Lemma readSession_cases (w : World) :
  (exists s, live w s /\ readSession w = (Ok (Some s), w))
  \/ (readSession w = (Ok None, w) /\ forall s, ~ live w s)
  \/ (exists s, stale w s /\ readSession w = (Ok None, set_storage w None)).
Proof.
  destruct (browser w) eqn:Hb.
  - destruct (storage w) as [s|] eqn:Hs.
    + destruct (Z_le_gt_dec (clock w) (expiresAt s)) as [Ht|Ht].
      * left. exists s. assert (L : live w s) by (repeat split; assumption).
        split; [exact L | apply (readSession_live w s L)].
      * right; right. exists s.
        assert (L : stale w s) by (repeat split; [assumption..|lia]).
        split; [exact L | apply (readSession_stale w s L)].
    + right; left. split; [apply readSession_empty; exact Hs|].
      intros s (_ & Hs' & _). congruence.
  - right; left. split; [apply readSession_server; exact Hb|].
    intros s (Hb' & _). congruence.
Qed.

Lemma writeSession_browser (w : World) (s : MultiSigSession) :
  browser w = true -> writeSession s w = (Ok tt, set_storage w (Some s)).
Proof.
  destruct w as [now b slot ts]. cbn. intros ->. reflexivity.
Qed.

Lemma includes_In (l : list string) (x : string) :
  includes l x = true <-> In x l.
Proof.
  unfold includes. rewrite existsb_exists. split.
  - intros (y & Hy & E). apply String.eqb_eq in E. subst. exact Hy.
  - intro H. exists x. split; [exact H | apply String.eqb_refl].
Qed.

Lemma includes_not_In (l : list string) (x : string) :
  includes l x = false <-> ~ In x l.
Proof.
  rewrite <- includes_In. destruct (includes l x); split; congruence.
Qed.

(** ** Applying a signature *)

Lemma applySignature_unfold (signer tx : string) (w : World) :
  applySignature signer tx w =
  match readSession w with
  | (Ok None, w') => (Throw msg_no_session, w')
  | (Ok (Some session), w') =>
      if negb (Status_eqb (status session) pending) then
        (Throw (msg_already (status session)), w')
      else if includes (collectedSigners session) signer then
        (Throw msg_already_signed, w')
      else
        match writeSession (countersigned session signer tx) w' with
        | (Ok _, w'') => (Ok (countersigned session signer tx), w'')
        | (Throw e, w'') => (Throw e, w'')
        end
  | (Throw e, w') => (Throw e, w')
  end.
Proof.
  unfold applySignature, bind.
  destruct (readSession w) as [[[session|]|e] w']; try reflexivity.
  destruct (negb (Status_eqb (status session) pending)); try reflexivity.
  destruct (includes (collectedSigners session) signer); reflexivity.
Qed.

Lemma applySignature_accepts (w : World) (s : MultiSigSession)
    (signer tx : string) :
  live w s -> status s = pending -> ~ In signer (collectedSigners s) ->
  applySignature signer tx w =
  (Ok (countersigned s signer tx),
   set_storage w (Some (countersigned s signer tx))).
Proof.
  intros L Hst Hnew.
  rewrite applySignature_unfold, (readSession_live w s L), Hst.
  cbn [Status_eqb negb].
  apply includes_not_In in Hnew. rewrite Hnew.
  destruct L as (Hb & _). rewrite (writeSession_browser _ _ Hb). reflexivity.
Qed.

Lemma countersigned_count (s : MultiSigSession) (signer tx : string) :
  collected_count (countersigned s signer tx) = collected_count s + 1.
Proof.
  unfold collected_count, countersigned. cbn.
  rewrite length_app. cbn. lia.
Qed.

Lemma countersigned_status (s : MultiSigSession) (signer tx : string) :
  (status (countersigned s signer tx) = ready
   <-> threshold s <= collected_count s + 1)
  /\ (status (countersigned s signer tx) = pending
      <-> collected_count s + 1 < threshold s).
Proof.
  rewrite <- (countersigned_count s signer tx).
  unfold countersigned, collected_count. cbn.
  destruct (Z.geb_spec
              (Z.of_nat (List.length (collectedSigners s ++ [signer])))
              (threshold s)) as [H|H];
    split; split; intro G; try congruence; try reflexivity; lia.
Qed.

(** Closes the side conditions of a run on the example data. *)
Ltac by_evaluation :=
  repeat split;
  first [ reflexivity
        | apply includes_not_In; reflexivity
        | apply includes_In; reflexivity
        | vm_compute; reflexivity
        | vm_compute; discriminate
        | vm_compute; intro; discriminate ].

(** ** Signers outside the required set *)

(** C1, counterexample.  In the 2-of-3 round opened by A, whose owners are
    A, B and C, a signature by D, who is no owner, is accepted: D is added
    to the collected signers and the session becomes ready.  So the
    statement that signers outside the required set are refused is false. *)
Lemma unrequired_signer_is_accepted :
  live tab_A session_A
  /\ ~ In "pkhD" owners_ABC
  /\ applySignature "pkhD" "84a400a2" tab_A
     = (Ok (countersigned session_A "pkhD" "84a400a2"),
        set_storage tab_A (Some (countersigned session_A "pkhD" "84a400a2")))
  /\ collectedSigners (countersigned session_A "pkhD" "84a400a2")
     = ["pkhA"; "pkhD"]
  /\ status (countersigned session_A "pkhD" "84a400a2") = ready
  /\ ~ rejects_unrequired_signers.
Proof.
  repeat match goal with |- _ /\ _ => split end; try by_evaluation.
  intro G.
  assert (L : live tab_A session_A) by by_evaluation.
  assert (N : ~ In "pkhD" owners_ABC) by by_evaluation.
  destruct (G owners_ABC tab_A session_A "pkhD" "84a400a2" L N)
    as (e & w' & E & _).
  vm_compute in E. discriminate E.
Qed.

(** C1, as the code has it.  [applySignature] consults no set of required
    authorizers: on a live pending session every identity that has not
    signed yet is accepted.  It is appended to the collected signers, the
    partial transaction is replaced, the result is stored, and the status
    becomes ready exactly when the new count reaches the threshold. *)
Theorem applySignature_accepts_any_new_signer
    (w : World) (s : MultiSigSession) (signer tx : string) :
  live w s -> status s = pending -> ~ In signer (collectedSigners s) ->
  exists s',
    applySignature signer tx w = (Ok s', set_storage w (Some s'))
    /\ collectedSigners s' = (collectedSigners s ++ [signer])%list
    /\ partialTx s' = tx
    /\ (status s' = ready <-> threshold s <= collected_count s + 1)
    /\ (status s' = pending <-> collected_count s + 1 < threshold s).
Proof.
  intros L Hst Hnew. exists (countersigned s signer tx).
  split; [apply applySignature_accepts; assumption|].
  split; [reflexivity|]. split; [reflexivity|].
  apply countersigned_status.
Qed.

Lemma applySignature_accepts_any_new_signer_witness :
  live tab_A session_A
  /\ status session_A = pending
  /\ ~ In "pkhD" (collectedSigners session_A)
  /\ exists s',
      applySignature "pkhD" "84a400a2" tab_A
      = (Ok s', set_storage tab_A (Some s'))
      /\ collectedSigners s' = (collectedSigners session_A ++ ["pkhD"])%list
      /\ partialTx s' = "84a400a2"
      /\ (status s' = ready
          <-> threshold session_A <= collected_count session_A + 1)
      /\ (status s' = pending
          <-> collected_count session_A + 1 < threshold session_A).
Proof.
  assert (L : live tab_A session_A) by by_evaluation.
  assert (P : status session_A = pending) by reflexivity.
  assert (N : ~ In "pkhD" (collectedSigners session_A)) by by_evaluation.
  split; [exact L|]. split; [exact P|]. split; [exact N|].
  exact (applySignature_accepts_any_new_signer
           tab_A session_A "pkhD" "84a400a2" L P N).
Defined.

(** ** Signing twice *)

(** C7.  On a live pending session, [applySignature] by an identity that is
    already among the collected signers throws the already-signed error and
    changes nothing: the world after the call, and with it the stored
    session (partial transaction included), is the world before it. *)
Theorem applySignature_already_signed
    (w : World) (s : MultiSigSession) (signer tx : string) :
  live w s -> status s = pending -> In signer (collectedSigners s) ->
  applySignature signer tx w = (Throw msg_already_signed, w).
Proof.
  intros L Hst Hin.
  rewrite applySignature_unfold, (readSession_live w s L), Hst.
  cbn [Status_eqb negb].
  apply includes_In in Hin. rewrite Hin. reflexivity.
Qed.

Lemma applySignature_already_signed_witness :
  live tab_A session_A
  /\ status session_A = pending
  /\ In "pkhA" (collectedSigners session_A)
  /\ applySignature "pkhA" "84a400a2" tab_A = (Throw msg_already_signed, tab_A).
Proof.
  assert (L : live tab_A session_A) by by_evaluation.
  assert (P : status session_A = pending) by reflexivity.
  assert (I : In "pkhA" (collectedSigners session_A)) by by_evaluation.
  split; [exact L|]. split; [exact P|]. split; [exact I|].
  exact (applySignature_already_signed tab_A session_A "pkhA" "84a400a2" L P I).
Defined.

(** ** Creating a session *)

Lemma createSession_result
    (utx ptx : string) (thr : Z) (pkh uuid : string) (w : World) :
  let s := mkSession uuid utx ptx [pkh] thr pending
                     (clock w) (clock w + SESSION_TTL_MS) None in
  createSession utx ptx thr pkh uuid w
  = (Ok s, if browser w then set_storage w (Some s) else w).
Proof. destruct w as [now [|] slot ts]; reflexivity. Qed.

(** C2.  What [createSession] does at threshold 1: the session it returns
    and stores is pending although its single collected signer already
    meets the threshold; the status is the constant [pending] for every
    threshold.  (The ready status the specification asks for at threshold 1
    is the one [applySignature] computes from the same comparison.) *)
Theorem createSession_threshold_one_is_pending
    (utx ptx pkh uuid : string) (w : World) :
  exists s w',
    createSession utx ptx 1 pkh uuid w = (Ok s, w')
    /\ threshold s = 1
    /\ collected_count s = 1
    /\ status s = pending
    /\ ~ ready_iff_threshold_met s.
Proof.
  eexists. eexists. split; [apply createSession_result|].
  cbn. repeat split.
  unfold ready_iff_threshold_met, collected_count. cbn.
  intro G. destruct G as [_ G]; [discriminate|].
  assert (E : pending = ready) by (apply G; lia). discriminate E.
Qed.

(** ** Version counters *)


Lemma markSubmitted_live (w : World) (s : MultiSigSession) (h : string) :
  live w s ->
  markSubmitted h w
  = (Ok tt, mkWorld (clock w) (browser w) (Some (submitted_with s h))
                    (timers w ++ [clock w + 3000])).
Proof.
  intro L. unfold markSubmitted, bind. rewrite (readSession_live w s L).
  destruct L as (Hb & _). rewrite (writeSession_browser _ _ Hb).
  reflexivity.
Qed.



(** ** The transfer protocol *)

Lemma exportSessionPayload_live (C : Codec) (w : World) (s : MultiSigSession) :
  live w s ->
  exportSessionPayload C w = (Ok (Some (btoa_json C (payload_of s))), w).
Proof.
  intro L. unfold exportSessionPayload, bind.
  rewrite (readSession_live w s L). reflexivity.
Qed.

Lemma importSessionPayload_same_id
    (C : Codec) (w : World) (s : MultiSigSession) (str : string)
    (p : Payload.t) :
  live w s -> json_atob C str = Ok p -> clock w <= Payload.expiresAt p ->
  Payload.sessionId p = sessionId s ->
  importSessionPayload C str w = (Ok (Some s), w).
Proof.
  intros L Hdec Hexp Hid.
  unfold importSessionPayload, try_catch, bind, Date_now.
  rewrite Hdec, (gtb_false_of_le _ _ Hexp), (readSession_live w s L).
  rewrite Hid, String.eqb_refl. reflexivity.
Qed.

Lemma importSessionPayload_adopts
    (C : Codec) (w : World) (str : string) (p : Payload.t) :
  json_atob C str = Ok p -> clock w <= Payload.expiresAt p ->
  (forall s, live w s -> sessionId s <> Payload.sessionId p) ->
  importSessionPayload C str w
  = (Ok (Some (adopted p (clock w))),
     if browser w then set_storage w (Some (adopted p (clock w))) else w).
Proof.
  intros Hdec Hexp Hother.
  unfold importSessionPayload, try_catch, bind, Date_now.
  rewrite Hdec, (gtb_false_of_le _ _ Hexp).
  destruct (readSession_cases w) as [(s & L & R) | [(R & _) | (s & S & R)]];
    rewrite R.
  - apply Hother in L. apply String.eqb_neq in L. rewrite L.
    destruct w as [now [|] slot ts]; reflexivity.
  - destruct w as [now [|] slot ts]; reflexivity.
  - destruct S as (Hb & _). destruct w as [now b slot ts].
    cbn in Hb. subst b. reflexivity.
Qed.

Lemma importSessionPayload_expired
    (C : Codec) (w : World) (str : string) (p : Payload.t) :
  json_atob C str = Ok p -> Payload.expiresAt p < clock w ->
  importSessionPayload C str w
  = (Throw ("Failed to import session: " ++ msg_import_expired), w).
Proof.
  intros Hdec Hexp.
  unfold importSessionPayload, try_catch, bind, Date_now.
  rewrite Hdec, (gtb_true_of_lt _ _ Hexp). reflexivity.
Qed.

Example LineCodec_roundtrip_AB :
  json_atob LineCodec.codec (btoa_json LineCodec.codec (payload_of session_AB))
  = Ok (payload_of session_AB).
Proof. vm_compute. reflexivity. Qed.

Example LineCodec_encode_AB :
  btoa_json LineCodec.codec (payload_of session_AB)
  = "5b1e7d3c|84a400a2|pkhA,pkhB|2|601000".
Proof. vm_compute. reflexivity. Qed.

(** C4, counterexample.  The tab of A holds the round with one signer; the
    payload exported after B signed carries the same id and two signers.
    Importing it returns the local session and stores nothing: the payload
    with strictly more progress is not adopted. *)
Lemma import_ignores_greater_progress :
  live tab_A session_A
  /\ Payload.sessionId (payload_of session_AB) = sessionId session_A
  /\ collected_count session_A
     < Z.of_nat (List.length (Payload.collectedSigners (payload_of session_AB)))
  /\ importSessionPayload LineCodec.codec
       (btoa_json LineCodec.codec (payload_of session_AB)) tab_A
     = (Ok (Some session_A), tab_A)
  /\ ~ import_adopts_greater_progress LineCodec.codec.
Proof.
  assert (L : live tab_A session_A) by by_evaluation.
  split; [exact L|]. split; [reflexivity|]. split; [reflexivity|].
  split; [vm_compute; reflexivity|].
  intro G.
  destruct (G tab_A session_A
              (btoa_json LineCodec.codec (payload_of session_AB))
              (payload_of session_AB) L LineCodec_roundtrip_AB)
    as (s' & w' & E & _ & Hc); try by_evaluation.
  vm_compute in E. inversion E; subst s'. discriminate Hc.
Qed.

(** C4, as the code has it.  When a payload that has not expired carries
    the id of the live local session, [importSessionPayload] returns the
    local session and leaves the world as it was, whatever progress the
    payload records; the local count of collected signers therefore never
    decreases through such an import. *)
Theorem import_same_id_returns_local
    (C : Codec) (w : World) (s : MultiSigSession) (str : string)
    (p : Payload.t) :
  live w s -> json_atob C str = Ok p -> clock w <= Payload.expiresAt p ->
  Payload.sessionId p = sessionId s ->
  exists w',
    importSessionPayload C str w = (Ok (Some s), w')
    /\ w' = w
    /\ storage w' = Some s.
Proof.
  intros L Hdec Hexp Hid. exists w.
  split; [apply (importSessionPayload_same_id C w s str p); assumption|].
  split; [reflexivity | apply L].
Qed.

Lemma import_same_id_returns_local_witness :
  (live tab_A session_A
   /\ json_atob LineCodec.codec
        (btoa_json LineCodec.codec (payload_of session_AB))
      = Ok (payload_of session_AB)
   /\ clock tab_A <= Payload.expiresAt (payload_of session_AB)
   /\ Payload.sessionId (payload_of session_AB) = sessionId session_A)
  /\ exists w',
      importSessionPayload LineCodec.codec
        (btoa_json LineCodec.codec (payload_of session_AB)) tab_A
      = (Ok (Some session_A), w')
      /\ w' = tab_A
      /\ storage w' = Some session_A.
Proof.
  assert (L : live tab_A session_A) by by_evaluation.
  assert (D : json_atob LineCodec.codec
                (btoa_json LineCodec.codec (payload_of session_AB))
              = Ok (payload_of session_AB)) by (vm_compute; reflexivity).
  assert (T : clock tab_A <= Payload.expiresAt (payload_of session_AB))
    by by_evaluation.
  assert (I : Payload.sessionId (payload_of session_AB) = sessionId session_A)
    by reflexivity.
  split; [split; [exact L | split; [exact D | split; [exact T | exact I]]]|].
  exact (import_same_id_returns_local LineCodec.codec tab_A session_A
           _ (payload_of session_AB) L D T I).
Defined.

(** ** Status against threshold *)

(** The failing input of C5, evaluated.  The payload exported once both A
    and B had signed (2 of 2 collected) is imported on a device that holds
    no session: the adopted session is stored as pending although its count
    meets the threshold. *)
Lemma import_keeps_pending_at_threshold :
  importSessionPayload LineCodec.codec
    (btoa_json LineCodec.codec (payload_of session_AB)) tab_empty
  = (Ok (Some (adopted (payload_of session_AB) 7000)),
     set_storage tab_empty (Some (adopted (payload_of session_AB) 7000)))
  /\ status (adopted (payload_of session_AB) 7000) = pending
  /\ threshold (adopted (payload_of session_AB) 7000)
     <= collected_count (adopted (payload_of session_AB) 7000)
  /\ ~ import_recomputes_status LineCodec.codec.
Proof.
  assert (E : importSessionPayload LineCodec.codec
                (btoa_json LineCodec.codec (payload_of session_AB)) tab_empty
              = (Ok (Some (adopted (payload_of session_AB) 7000)),
                 set_storage tab_empty
                   (Some (adopted (payload_of session_AB) 7000))))
    by (vm_compute; reflexivity).
  split; [exact E|]. split; [reflexivity|]. split; [by_evaluation|].
  intro G. specialize (G tab_empty _ _ _ eq_refl E).
  destruct G as [_ G]; [discriminate|].
  assert (R : status (adopted (payload_of session_AB) 7000) = ready)
    by (apply G; by_evaluation).
  discriminate R.
Qed.

(** C5.  Where the code breaks the invariant.  [importSessionPayload]
    stores the literal status pending: for every payload that has not
    expired and whose collected signers already number at least its
    threshold, adopted in a browser that holds no live session of that id,
    the session returned is the one stored, it carries the payload's
    signers and threshold, its status is pending, and so it is not the case
    that its status is ready exactly when the count meets the threshold.
    ([applySignature], the sibling path, computes the status from that
    comparison; [createSession] misses it the same way at threshold 1.) *)
Theorem import_stores_pending_at_threshold
    (C : Codec) (w : World) (str : string) (p : Payload.t) :
  browser w = true ->
  json_atob C str = Ok p -> clock w <= Payload.expiresAt p ->
  (forall s, live w s -> sessionId s <> Payload.sessionId p) ->
  Payload.threshold p <= Z.of_nat (List.length (Payload.collectedSigners p)) ->
  exists s' w',
    importSessionPayload C str w = (Ok (Some s'), w')
    /\ storage w' = Some s'
    /\ live w' s'
    /\ collectedSigners s' = Payload.collectedSigners p
    /\ threshold s' = Payload.threshold p
    /\ status s' = pending
    /\ threshold s' <= collected_count s'
    /\ ~ ready_iff_threshold_met s'.
Proof.
  intros Hb Hdec Hexp Hother Hmet.
  exists (adopted p (clock w)), (set_storage w (Some (adopted p (clock w)))).
  split.
  { rewrite (importSessionPayload_adopts C w str p Hdec Hexp Hother), Hb.
    reflexivity. }
  split; [reflexivity|].
  split; [split; [exact Hb | split; [reflexivity | exact Hexp]]|].
  split; [reflexivity|]. split; [reflexivity|]. split; [reflexivity|].
  split; [exact Hmet|].
  intro G. destruct G as [_ G]; [discriminate|].
  assert (R : status (adopted p (clock w)) = ready) by (apply G; exact Hmet).
  discriminate R.
Qed.

Lemma import_stores_pending_at_threshold_witness :
  (browser tab_empty = true
   /\ json_atob LineCodec.codec
        (btoa_json LineCodec.codec (payload_of session_AB))
      = Ok (payload_of session_AB)
   /\ clock tab_empty <= Payload.expiresAt (payload_of session_AB)
   /\ (forall s, live tab_empty s
                 -> sessionId s <> Payload.sessionId (payload_of session_AB))
   /\ Payload.threshold (payload_of session_AB)
      <= Z.of_nat (List.length (Payload.collectedSigners
                                  (payload_of session_AB))))
  /\ exists s' w',
      importSessionPayload LineCodec.codec
        (btoa_json LineCodec.codec (payload_of session_AB)) tab_empty
      = (Ok (Some s'), w')
      /\ storage w' = Some s'
      /\ live w' s'
      /\ collectedSigners s' = Payload.collectedSigners (payload_of session_AB)
      /\ threshold s' = Payload.threshold (payload_of session_AB)
      /\ status s' = pending
      /\ threshold s' <= collected_count s'
      /\ ~ ready_iff_threshold_met s'.
Proof.
  assert (B : browser tab_empty = true) by reflexivity.
  assert (D : json_atob LineCodec.codec
                (btoa_json LineCodec.codec (payload_of session_AB))
              = Ok (payload_of session_AB)) by (vm_compute; reflexivity).
  assert (T : clock tab_empty <= Payload.expiresAt (payload_of session_AB))
    by by_evaluation.
  assert (O : forall s, live tab_empty s
                -> sessionId s <> Payload.sessionId (payload_of session_AB)).
  { intros s (_ & Hs & _). discriminate Hs. }
  assert (M : Payload.threshold (payload_of session_AB)
              <= Z.of_nat (List.length (Payload.collectedSigners
                                          (payload_of session_AB))))
    by by_evaluation.
  split; [split; [exact B | split; [exact D | split; [exact T |
          split; [exact O | exact M]]]]|].
  exact (import_stores_pending_at_threshold LineCodec.codec tab_empty
           _ (payload_of session_AB) B D T O M).
Defined.

(** The device that imported the fully signed round is stuck: the round
    cannot be submitted, and B, who has signed, cannot sign again. *)
Example imported_complete_round_is_stuck :
  let w := snd (importSessionPayload LineCodec.codec
                  (btoa_json LineCodec.codec (payload_of session_AB))
                  tab_empty) in
  fst (submitUnlock helpers_B w)
  = Throw "Not enough signatures: 2/2. Waiting on 0 more signer(s)."
  /\ fst (coSign helpers_B w) = Throw msg_already_signed.
Proof. split; vm_compute; reflexivity. Qed.

(** The status after a signature and after an import, in general.  Every
    accepted [applySignature] leaves a non-terminal session whose status is
    ready if and only if its count of collected signers is at least the
    threshold.  [importSessionPayload] does not recompute the status: a
    payload it adopts in a browser is stored as pending, whatever its
    count. *)
Theorem status_follows_threshold_on_signature (C : Codec) :
  (forall w s signer tx,
      live w s -> status s = pending -> ~ In signer (collectedSigners s) ->
      exists s' w',
        applySignature signer tx w = (Ok s', w')
        /\ storage w' = Some s'
        /\ status s' <> submitted
        /\ ready_iff_threshold_met s')
  /\ (forall w str p,
         browser w = true ->
         json_atob C str = Ok p -> clock w <= Payload.expiresAt p ->
         (forall s, live w s -> sessionId s <> Payload.sessionId p) ->
         exists s' w',
           importSessionPayload C str w = (Ok (Some s'), w')
           /\ storage w' = Some s'
           /\ collectedSigners s' = Payload.collectedSigners p
           /\ threshold s' = Payload.threshold p
           /\ status s' = pending).
Proof.
  split.
  - intros w s signer tx L Hst Hnew.
    exists (countersigned s signer tx). eexists.
    split; [apply applySignature_accepts; assumption|].
    split; [reflexivity|].
    destruct (countersigned_status s signer tx) as [Hr Hp].
    assert (Hns : status (countersigned s signer tx) <> submitted).
    { unfold countersigned. cbn.
      destruct (_ >=? _); discriminate. }
    split; [exact Hns|].
    intros _. rewrite countersigned_count. exact Hr.
  - intros w str p Hb Hdec Hexp Hother.
    exists (adopted p (clock w)), (set_storage w (Some (adopted p (clock w)))).
    split.
    { rewrite (importSessionPayload_adopts C w str p Hdec Hexp Hother), Hb.
      reflexivity. }
    repeat split.
Qed.

Lemma status_follows_threshold_on_signature_witness :
  (live tab_A session_A
   /\ status session_A = pending
   /\ ~ In "pkhB" (collectedSigners session_A))
  /\ (exists s' w',
        applySignature "pkhB" "84a400a2" tab_A = (Ok s', w')
        /\ storage w' = Some s'
        /\ status s' <> submitted
        /\ ready_iff_threshold_met s')
  /\ (browser tab_empty = true
      /\ json_atob LineCodec.codec
           (btoa_json LineCodec.codec (payload_of session_AB))
         = Ok (payload_of session_AB)
      /\ clock tab_empty <= Payload.expiresAt (payload_of session_AB)
      /\ (forall s, live tab_empty s
                    -> sessionId s <> Payload.sessionId (payload_of session_AB)))
  /\ (exists s' w',
        importSessionPayload LineCodec.codec
          (btoa_json LineCodec.codec (payload_of session_AB)) tab_empty
        = (Ok (Some s'), w')
        /\ storage w' = Some s'
        /\ collectedSigners s' = Payload.collectedSigners (payload_of session_AB)
        /\ threshold s' = Payload.threshold (payload_of session_AB)
        /\ status s' = pending).
Proof.
  assert (L : live tab_A session_A) by by_evaluation.
  assert (P : status session_A = pending) by reflexivity.
  assert (N : ~ In "pkhB" (collectedSigners session_A)) by by_evaluation.
  assert (B : browser tab_empty = true) by reflexivity.
  assert (D : json_atob LineCodec.codec
                (btoa_json LineCodec.codec (payload_of session_AB))
              = Ok (payload_of session_AB)) by (vm_compute; reflexivity).
  assert (T : clock tab_empty <= Payload.expiresAt (payload_of session_AB))
    by by_evaluation.
  assert (O : forall s, live tab_empty s
                -> sessionId s <> Payload.sessionId (payload_of session_AB)).
  { intros s (_ & Hs & _). discriminate Hs. }
  split; [split; [exact L | split; [exact P | exact N]]|].
  split.
  - exact (proj1 (status_follows_threshold_on_signature LineCodec.codec)
             tab_A session_A "pkhB" "84a400a2" L P N).
  - split; [split; [exact B | split; [exact D | split; [exact T | exact O]]]|].
    exact (proj2 (status_follows_threshold_on_signature LineCodec.codec)
             tab_empty _ (payload_of session_AB) B D T O).
Defined.

(** ** Expiry *)

(** C6, counterexample.  One second after the example round has expired,
    [markSubmitted] returns normally: it raises no error (it purges the
    session and does nothing else). *)
Lemma markSubmitted_on_expired_session_returns :
  stale tab_A_late session_A
  /\ markSubmitted "9f3c" tab_A_late = (Ok tt, set_storage tab_A_late None)
  /\ ~ expired_operations_fail.
Proof.
  assert (S : stale tab_A_late session_A) by by_evaluation.
  split; [exact S|]. split; [vm_compute; reflexivity|].
  intro G. destruct (G tab_A_late session_A S) as [_ G'].
  destruct (G' "9f3c") as (e & w' & E).
  vm_compute in E. discriminate E.
Qed.

(** C6, as the code has it.  Once the clock has passed [expiresAt]:
    [applySignature] throws the no-active-session-or-expired error;
    [markSubmitted] returns silently without recording anything; each of
    them, like any read, removes the session from the store; and a read
    after that returns no session. *)
Theorem expired_session_is_purged_on_access
    (w : World) (s : MultiSigSession) (signer tx h : string) :
  stale w s ->
  applySignature signer tx w = (Throw msg_no_session, set_storage w None)
  /\ markSubmitted h w = (Ok tt, set_storage w None)
  /\ getSession w = (Ok None, set_storage w None)
  /\ storage (set_storage w None) = None
  /\ getSession (set_storage w None) = (Ok None, set_storage w None).
Proof.
  intro S. pose proof (readSession_stale w s S) as R.
  split; [rewrite applySignature_unfold, R; reflexivity|].
  split; [unfold markSubmitted, bind; rewrite R; reflexivity|].
  split; [exact R|]. split; [reflexivity|].
  apply readSession_empty. reflexivity.
Qed.

Lemma expired_session_is_purged_on_access_witness :
  stale tab_A_late session_A
  /\ applySignature "pkhB" "84a400a2" tab_A_late
     = (Throw msg_no_session, set_storage tab_A_late None)
  /\ markSubmitted "9f3c" tab_A_late = (Ok tt, set_storage tab_A_late None)
  /\ getSession tab_A_late = (Ok None, set_storage tab_A_late None)
  /\ storage (set_storage tab_A_late None) = None
  /\ getSession (set_storage tab_A_late None)
     = (Ok None, set_storage tab_A_late None).
Proof.
  assert (S : stale tab_A_late session_A) by by_evaluation.
  split; [exact S|].
  exact (expired_session_is_purged_on_access
           tab_A_late session_A "pkhB" "84a400a2" "9f3c" S).
Defined.

(** ** Opening a second session *)

Lemma hasActiveSession_live (w : World) (s : MultiSigSession) :
  live w s -> hasActiveSession w = (Ok true, w).
Proof.
  intro L. unfold hasActiveSession, bind.
  rewrite (readSession_live w s L). reflexivity.
Qed.

(** C8, counterexample.  [createSession] has no guard: called in the tab
    of A while the example round is live, it does not fail; it returns a
    new session and stores it in place of the live one.  So the statement
    that every attempt to create a session fails while one is live is
    false. *)
Lemma createSession_overwrites_live_session :
  live tab_A session_A
  /\ createSession "84a500" "84a500a3" 3 "pkhC" "77aa01bc" tab_A
     = (Ok (mkSession "77aa01bc" "84a500" "84a500a3" ["pkhC"] 3 pending
                      6000 (6000 + SESSION_TTL_MS) None),
        set_storage tab_A
          (Some (mkSession "77aa01bc" "84a500" "84a500a3" ["pkhC"] 3 pending
                           6000 (6000 + SESSION_TTL_MS) None)))
  /\ storage (snd (createSession "84a500" "84a500a3" 3 "pkhC" "77aa01bc" tab_A))
     <> Some session_A
  /\ ~ create_refuses_while_live.
Proof.
  assert (L : live tab_A session_A) by by_evaluation.
  split; [exact L|]. split; [reflexivity|]. split; [discriminate|].
  intro G.
  destruct (G "84a500" "84a500a3" 3 "pkhC" "77aa01bc" tab_A session_A L)
    as (e & w' & E & _).
  rewrite createSession_result in E. discriminate E.
Qed.

(** C8, as the code has it.  The guard against a second live session is in
    [initiateUnlock], the flow that opens a round, and not in
    [createSession].  While a live session is stored, [initiateUnlock]
    throws the session-already-active error before it consults any
    collaborator and leaves the world, hence the stored session,
    untouched; after an explicit [clearSession] the guard no longer finds
    an active session.  [createSession] called directly makes no check: it
    succeeds and replaces the stored session by the new one. *)
Theorem initiateUnlock_refuses_while_session_live
    (E : Collaborators) (w : World) (s : MultiSigSession) :
  live w s ->
  initiateUnlock E w = (Throw msg_session_active, w)
  /\ storage (snd (initiateUnlock E w)) = Some s
  /\ hasActiveSession (snd (clearSession w)) = (Ok false, snd (clearSession w))
  /\ (forall utx ptx thr pkh uuid,
        exists s',
          createSession utx ptx thr pkh uuid w
          = (Ok s', set_storage w (Some s'))
          /\ sessionId s' = uuid
          /\ collectedSigners s' = [pkh]
          /\ threshold s' = thr).
Proof.
  intro L.
  assert (R : initiateUnlock E w = (Throw msg_session_active, w)).
  { unfold initiateUnlock, bind at 1.
    rewrite (hasActiveSession_live w s L). reflexivity. }
  split; [exact R|]. rewrite R. split; [apply L|].
  destruct L as (Hb & _). split.
  - destruct w as [now b slot ts]. cbn in Hb. subst b. reflexivity.
  - intros utx ptx thr pkh uuid. eexists.
    split; [rewrite createSession_result, Hb; reflexivity|].
    repeat split.
Qed.

Lemma initiateUnlock_refuses_while_session_live_witness :
  live tab_A session_A
  /\ initiateUnlock helpers_B tab_A = (Throw msg_session_active, tab_A)
  /\ storage (snd (initiateUnlock helpers_B tab_A)) = Some session_A
  /\ hasActiveSession (snd (clearSession tab_A))
     = (Ok false, snd (clearSession tab_A))
  /\ (forall utx ptx thr pkh uuid,
        exists s',
          createSession utx ptx thr pkh uuid tab_A
          = (Ok s', set_storage tab_A (Some s'))
          /\ sessionId s' = uuid
          /\ collectedSigners s' = [pkh]
          /\ threshold s' = thr).
Proof.
  assert (L : live tab_A session_A) by by_evaluation.
  split; [exact L|].
  exact (initiateUnlock_refuses_while_session_live helpers_B tab_A session_A L).
Defined.

(** With no session stored, the same call goes through and stores one. *)
Example initiateUnlock_on_empty_tab :
  initiateUnlock helpers_B tab_empty
  = (Ok (mkSession "c0ffee00" "84a400" "84a400a2" ["pkhB"] 2 pending
                   7600 (7600 + SESSION_TTL_MS) None),
     mkWorld 7600 true
       (Some (mkSession "c0ffee00" "84a400" "84a400a2" ["pkhB"] 2 pending
                        7600 (7600 + SESSION_TTL_MS) None)) []).
Proof. vm_compute. reflexivity. Qed.

(** ** Recording the submission *)



(** ** Export followed by import *)

(** C10.  The string [exportSessionPayload] produces for a live session,
    imported while that session has not expired on a device that stores no
    session, yields and stores a session with the same id, partial
    transaction, collected signers, threshold and expiry; its unsigned
    transaction is the exported partial transaction, its creation time is
    the time of the import and its status is pending. *)
Theorem export_import_roundtrip
    (C : Codec) (w : World) (s : MultiSigSession) (w2 : World) :
  live w s ->
  json_atob C (btoa_json C (payload_of s)) = Ok (payload_of s) ->
  browser w2 = true -> storage w2 = None -> clock w2 <= expiresAt s ->
  exists str s',
    exportSessionPayload C w = (Ok (Some str), w)
    /\ importSessionPayload C str w2 = (Ok (Some s'), set_storage w2 (Some s'))
    /\ sessionId s' = sessionId s
    /\ partialTx s' = partialTx s
    /\ collectedSigners s' = collectedSigners s
    /\ threshold s' = threshold s
    /\ expiresAt s' = expiresAt s
    /\ unsignedTx s' = partialTx s
    /\ createdAt s' = clock w2
    /\ status s' = pending.
Proof.
  intros L Hcodec Hb Hnone Hexp.
  exists (btoa_json C (payload_of s)), (adopted (payload_of s) (clock w2)).
  split; [apply exportSessionPayload_live; exact L|].
  split; [|repeat split].
  rewrite (importSessionPayload_adopts C w2 _ (payload_of s) Hcodec Hexp).
  - rewrite Hb. reflexivity.
  - intros s0 (_ & Hs0 & _). congruence.
Qed.

Lemma export_import_roundtrip_witness :
  (live tab_A session_A
   /\ json_atob LineCodec.codec
        (btoa_json LineCodec.codec (payload_of session_A))
      = Ok (payload_of session_A)
   /\ browser tab_empty = true
   /\ storage tab_empty = None
   /\ clock tab_empty <= expiresAt session_A)
  /\ exists str s',
      exportSessionPayload LineCodec.codec tab_A = (Ok (Some str), tab_A)
      /\ importSessionPayload LineCodec.codec str tab_empty
         = (Ok (Some s'), set_storage tab_empty (Some s'))
      /\ sessionId s' = sessionId session_A
      /\ partialTx s' = partialTx session_A
      /\ collectedSigners s' = collectedSigners session_A
      /\ threshold s' = threshold session_A
      /\ expiresAt s' = expiresAt session_A
      /\ unsignedTx s' = partialTx session_A
      /\ createdAt s' = clock tab_empty
      /\ status s' = pending.
Proof.
  assert (L : live tab_A session_A) by by_evaluation.
  assert (D : json_atob LineCodec.codec
                (btoa_json LineCodec.codec (payload_of session_A))
              = Ok (payload_of session_A)) by (vm_compute; reflexivity).
  assert (B : browser tab_empty = true) by reflexivity.
  assert (N : storage tab_empty = None) by reflexivity.
  assert (T : clock tab_empty <= expiresAt session_A) by by_evaluation.
  split; [repeat split; assumption|].
  exact (export_import_roundtrip LineCodec.codec tab_A session_A tab_empty
           L D B N T).
Defined.

(** ** The flows on the example round *)

(** Scenario A of the specification, run through the flows: B co-signs the
    round opened by A, which becomes ready, and B submits it. *)
Example coSign_then_submit :
  coSign helpers_B tab_A
  = (Ok session_AB_at_B, mkWorld 6400 true (Some session_AB_at_B) [])
  /\ submitUnlock helpers_B (mkWorld 6400 true (Some session_AB_at_B) [])
     = (Ok "9f3c",
        mkWorld 6600 true (Some (submitted_with session_AB_at_B "9f3c"))
                [9600]).
Proof. split; vm_compute; reflexivity. Qed.

(** After the grace period the timer set by [markSubmitted] has emptied the
    store. *)
Example grace_period_cleanup :
  advance 3000
    (mkWorld 6600 true (Some (submitted_with session_AB_at_B "9f3c")) [9600])
  = mkWorld 9600 true None [].
Proof. vm_compute. reflexivity. Qed.

(** The [coSign] flow has no required-signer guard either: the wallet of D
    co-signs the round of owners A, B and C and makes it ready. *)
Example coSign_accepts_outsider :
  ~ In "pkhD" owners_ABC
  /\ coSign helpers_D tab_A
     = (Ok (countersigned session_A "pkhD" "84a400a1a4"),
        mkWorld 6400 true
          (Some (countersigned session_A "pkhD" "84a400a1a4")) [])
  /\ status (countersigned session_A "pkhD" "84a400a1a4") = ready.
Proof.
  split; [apply includes_not_In; reflexivity|].
  split; vm_compute; reflexivity.
Qed.

(* ========================================================================= *)
(** * Further properties of the session manager *)

(** ** Time *)

Lemma advance_quiet (dt : Z) (w : World) :
  quiet_for dt w -> advance dt w = later dt w.
Proof.
  unfold quiet_for, advance, later. intro Q.
  assert (E : existsb (fun deadline => (deadline <=? clock w + dt)%Z) (timers w)
              = false).
  { induction Q as [|d ds Hd _ IH]; [reflexivity|].
    cbn. rewrite IH. replace (d <=? clock w + dt)%Z with false; [reflexivity|].
    symmetry. apply Z.leb_gt. exact Hd. }
  assert (F : filter (fun deadline => (clock w + dt <? deadline)%Z) (timers w)
              = timers w).
  { clear E. induction Q as [|d ds Hd _ IH]; [reflexivity|].
    cbn. rewrite IH. replace (clock w + dt <? d)%Z with true; [reflexivity|].
    symmetry. apply Z.ltb_lt. exact Hd. }
  rewrite E, F. reflexivity.
Qed.

Lemma advance_fires (dt : Z) (w : World) (deadline : Z) :
  In deadline (timers w) -> deadline <= clock w + dt -> browser w = true ->
  storage (advance dt w) = None.
Proof.
  intros Hin Hdue Hb. unfold advance. cbn.
  assert (E : existsb (fun d => (d <=? clock w + dt)%Z) (timers w) = true).
  { apply existsb_exists. exists deadline. split; [exact Hin|].
    apply Z.leb_le. exact Hdue. }
  rewrite E, Hb. reflexivity.
Qed.

Lemma getSessionStatus_live (w : World) (s : MultiSigSession) :
  live w s ->
  getSessionStatus w
  = (Ok (Some (SessionStatus.mk (collected_count s) (threshold s) (status s)
                 (expiresAt s - clock w) (sessionId s))), w).
Proof.
  intro L. unfold getSessionStatus, bind at 1. rewrite (readSession_live w s L).
  unfold getRemainingMs, bind, Date_now, ret.
  destruct L as (_ & _ & Ht). rewrite Z.max_r by lia. reflexivity.
Qed.

Lemma getSessionStatus_none (w w' : World) :
  readSession w = (Ok None, w') -> getSessionStatus w = (Ok None, w').
Proof. intro R. unfold getSessionStatus, bind. rewrite R. reflexivity. Qed.

(** X1.  A session created by [createSession] and looked at [dt] ms later
    through [getSessionStatus]: while [dt] is at most the time to live the
    snapshot shows one signature, the threshold given, status pending and
    exactly [SESSION_TTL_MS - dt] ms remaining (so 0 ms at the last live
    instant); after that the snapshot is [null] and the store is empty. *)
Theorem status_snapshot_counts_down
    (utx ptx : string) (thr : Z) (pkh uuid : string) (w : World) (dt : Z) :
  browser w = true -> quiet_for dt w -> 0 <= dt ->
  let w1 := advance dt (snd (createSession utx ptx thr pkh uuid w)) in
  (dt <= SESSION_TTL_MS ->
   getSessionStatus w1
   = (Ok (Some (SessionStatus.mk 1 thr pending (SESSION_TTL_MS - dt) uuid)),
      w1))
  /\ (SESSION_TTL_MS < dt ->
      getSessionStatus w1 = (Ok None, set_storage w1 None)
      /\ storage (set_storage w1 None) = None).
Proof.
  intros Hb Q Hdt w1.
  assert (E : w1 = later dt (set_storage w
                 (Some (mkSession uuid utx ptx [pkh] thr pending (clock w)
                          (clock w + SESSION_TTL_MS) None)))).
  { unfold w1. rewrite createSession_result. cbn [snd]. rewrite Hb.
    apply advance_quiet. exact Q. }
  split.
  - intro Hle. rewrite E.
    rewrite (getSessionStatus_live _
               (mkSession uuid utx ptx [pkh] thr pending (clock w)
                          (clock w + SESSION_TTL_MS) None)).
    + cbv [collected_count later set_storage].
      cbn [expiresAt clock collectedSigners threshold status sessionId
           List.length Z.of_nat Pos.of_succ_nat Pos.succ].
      replace (clock w + SESSION_TTL_MS - (clock w + dt))
        with (SESSION_TTL_MS - dt) by lia.
      reflexivity.
    + split; [exact Hb | split; [reflexivity|]].
      cbn [clock later set_storage expiresAt]. lia.
  - intro Hgt. split; [|reflexivity]. rewrite E.
    apply getSessionStatus_none.
    apply (readSession_stale _
             (mkSession uuid utx ptx [pkh] thr pending (clock w)
                        (clock w + SESSION_TTL_MS) None)).
    split; [exact Hb | split; [reflexivity|]].
    cbn [clock later set_storage expiresAt]. lia.
Qed.

Lemma status_snapshot_counts_down_witness :
  (browser tab_empty = true /\ quiet_for 600000 tab_empty /\ 0 <= 600000
   /\ 600000 <= SESSION_TTL_MS)
  /\ getSessionStatus
       (advance 600000
          (snd (createSession "84a400" "84a400a1" 2 "pkhA" "5b1e7d3c"
                  tab_empty)))
     = (Ok (Some (SessionStatus.mk 1 2 pending (SESSION_TTL_MS - 600000)
                    "5b1e7d3c")),
        advance 600000
          (snd (createSession "84a400" "84a400a1" 2 "pkhA" "5b1e7d3c"
                  tab_empty)))
  /\ (quiet_for 600001 tab_empty /\ 0 <= 600001 /\ SESSION_TTL_MS < 600001)
  /\ fst (getSessionStatus
            (advance 600001
               (snd (createSession "84a400" "84a400a1" 2 "pkhA" "5b1e7d3c"
                       tab_empty))))
     = Ok None.
Proof.
  assert (B : browser tab_empty = true) by reflexivity.
  assert (Q : quiet_for 600000 tab_empty) by constructor.
  assert (P : 0 <= 600000) by by_evaluation.
  assert (T : 600000 <= SESSION_TTL_MS) by by_evaluation.
  assert (Q' : quiet_for 600001 tab_empty) by constructor.
  assert (P' : 0 <= 600001) by by_evaluation.
  assert (T' : SESSION_TTL_MS < 600001) by by_evaluation.
  split; [repeat split; assumption|].
  split; [exact (proj1 (status_snapshot_counts_down "84a400" "84a400a1" 2
                          "pkhA" "5b1e7d3c" tab_empty 600000 B Q P) T)|].
  split; [repeat split; assumption|].
  rewrite (proj1 (proj2 (status_snapshot_counts_down "84a400" "84a400a1" 2
                           "pkhA" "5b1e7d3c" tab_empty 600001 B Q' P') T')).
  reflexivity.
Defined.

(** ** Outside the browser *)

(** X2.  Server-side rendering: where [window] is undefined every reader
    returns [null] ([false] for [hasActiveSession]), [markSubmitted] and
    [clearSession] do nothing, [applySignature] throws the no-session
    error, and [createSession] still returns a session object but stores
    nothing; the world is never changed. *)
Theorem server_side_rendering_is_inert
    (C : Codec) (w : World) (a b c d e : string) (thr : Z) :
  browser w = false ->
  getSession w = (Ok None, w)
  /\ hasActiveSession w = (Ok false, w)
  /\ getSessionStatus w = (Ok None, w)
  /\ exportSessionPayload C w = (Ok None, w)
  /\ markSubmitted a w = (Ok tt, w)
  /\ clearSession w = (Ok tt, w)
  /\ applySignature a b w = (Throw msg_no_session, w)
  /\ snd (createSession a b thr c d w) = w
  /\ getSession (snd (createSession a b thr c d w)) = (Ok None, w).
Proof.
  intro Hb. pose proof (readSession_server w Hb) as R.
  split; [exact R|].
  split; [unfold hasActiveSession, bind; rewrite R; reflexivity|].
  split; [apply getSessionStatus_none; exact R|].
  split; [unfold exportSessionPayload, bind; rewrite R; reflexivity|].
  split; [unfold markSubmitted, bind; rewrite R; reflexivity|].
  split; [destruct w as [now bw slot ts]; cbn in Hb; subst bw; reflexivity|].
  split; [rewrite applySignature_unfold, R; reflexivity|].
  assert (E : snd (createSession a b thr c d w) = w).
  { rewrite createSession_result. cbn [snd]. rewrite Hb. reflexivity. }
  split; [exact E | rewrite E; exact R].
Qed.

Lemma server_side_rendering_is_inert_witness :
  browser server_side = false
  /\ getSession server_side = (Ok None, server_side)
  /\ hasActiveSession server_side = (Ok false, server_side)
  /\ getSessionStatus server_side = (Ok None, server_side)
  /\ exportSessionPayload LineCodec.codec server_side = (Ok None, server_side)
  /\ markSubmitted "9f3c" server_side = (Ok tt, server_side)
  /\ clearSession server_side = (Ok tt, server_side)
  /\ applySignature "9f3c" "84a400a2" server_side
     = (Throw msg_no_session, server_side)
  /\ snd (createSession "9f3c" "84a400a2" 2 "pkhA" "5b1e7d3c" server_side)
     = server_side
  /\ getSession
       (snd (createSession "9f3c" "84a400a2" 2 "pkhA" "5b1e7d3c" server_side))
     = (Ok None, server_side).
Proof.
  assert (B : browser server_side = false) by reflexivity.
  split; [exact B|].
  exact (server_side_rendering_is_inert LineCodec.codec server_side
           "9f3c" "84a400a2" "pkhA" "5b1e7d3c" "" 2 B).
Defined.

(** ** Guards of [applySignature] *)

(** X3.  On a live session that is no longer pending, [applySignature]
    throws the error that names the current status and changes nothing,
    and it does so for every signer, one who has already signed included:
    the status guard comes before the already-signed guard. *)
Theorem applySignature_refuses_unless_pending
    (w : World) (s : MultiSigSession) (signer tx : string) :
  live w s -> status s <> pending ->
  applySignature signer tx w = (Throw (msg_already (status s)), w)
  /\ (status s = ready
      -> msg_already (status s) = "Session is already " ++ dquote ++ "ready"
                                  ++ dquote ++ ".")
  /\ (status s = submitted
      -> msg_already (status s) = "Session is already " ++ dquote
                                  ++ "submitted" ++ dquote ++ ".").
Proof.
  intros L Hst. split.
  - rewrite applySignature_unfold, (readSession_live w s L).
    destruct (status s); [congruence | reflexivity | reflexivity].
  - split; intros ->; reflexivity.
Qed.

Lemma applySignature_refuses_unless_pending_witness :
  (live tab_AB session_AB /\ status session_AB <> pending)
  /\ applySignature "pkhA" "84a400a3" tab_AB
     = (Throw (msg_already (status session_AB)), tab_AB)
  /\ applySignature "pkhC" "84a400a3" tab_AB
     = (Throw (msg_already (status session_AB)), tab_AB).
Proof.
  assert (L : live tab_AB session_AB) by by_evaluation.
  assert (P : status session_AB <> pending) by discriminate.
  split; [split; assumption|].
  split.
  - exact (proj1 (applySignature_refuses_unless_pending
                    tab_AB session_AB "pkhA" "84a400a3" L P)).
  - exact (proj1 (applySignature_refuses_unless_pending
                    tab_AB session_AB "pkhC" "84a400a3" L P)).
Defined.

(** ** Runs of signatures *)

Lemma set_storage_same (w : World) (s : MultiSigSession) :
  storage w = Some s -> set_storage w (Some s) = w.
Proof. destruct w as [now b slot ts]. cbn. intros ->. reflexivity. Qed.

Lemma live_set_storage (w : World) (s s' : MultiSigSession) :
  live w s -> expiresAt s' = expiresAt s -> live (set_storage w (Some s')) s'.
Proof.
  intros (Hb & _ & Ht) He. split; [exact Hb | split; [reflexivity|]].
  cbn. rewrite He. exact Ht.
Qed.

Lemma applySignature_already_signed_core
    (w : World) (s : MultiSigSession) (signer tx : string) :
  live w s -> status s = pending -> In signer (collectedSigners s) ->
  applySignature signer tx w = (Throw msg_already_signed, w).
Proof.
  intros L Hst Hin.
  rewrite applySignature_unfold, (readSession_live w s L), Hst.
  cbn [Status_eqb negb].
  apply includes_In in Hin. rewrite Hin. reflexivity.
Qed.

(** One call either leaves the world alone or stores the countersigned
    session, and the latter only for a new signer on a pending session. *)
Lemma applySignature_step (w : World) (s : MultiSigSession)
    (signer tx : string) :
  live w s ->
  snd (applySignature signer tx w) = w
  \/ (status s = pending
      /\ ~ In signer (collectedSigners s)
      /\ snd (applySignature signer tx w)
         = set_storage w (Some (countersigned s signer tx))).
Proof.
  intro L.
  destruct (Status_eqb (status s) pending) eqn:Hst.
  - assert (Hp : status s = pending) by (destruct (status s); cbn in Hst; congruence).
    destruct (includes (collectedSigners s) signer) eqn:Hin.
    + left. apply includes_In in Hin.
      rewrite (applySignature_already_signed_core w s signer tx L Hp Hin).
      reflexivity.
    + right. apply includes_not_In in Hin.
      split; [exact Hp | split; [exact Hin|]].
      rewrite (applySignature_accepts w s signer tx L Hp Hin). reflexivity.
  - left. rewrite applySignature_unfold, (readSession_live w s L), Hst.
    reflexivity.
Qed.

(** X4.  Whatever sequence of [applySignature] calls is made on a live
    session, accepted or refused, the store afterwards still holds a live
    session of the same round: its id, unsigned transaction, threshold,
    creation and expiry times are those it started with, its collected
    signers are the original ones followed by signers taken from the
    calls, and if the list had no duplicate it still has none. *)
Theorem signature_run_keeps_the_round
    (calls : list (string * string)) (w : World) (s : MultiSigSession) :
  live w s -> NoDup (collectedSigners s) ->
  exists s' added,
    applySignatures calls w = set_storage w (Some s')
    /\ live (applySignatures calls w) s'
    /\ same_round s s'
    /\ collectedSigners s' = (collectedSigners s ++ added)%list
    /\ incl added (map fst calls)
    /\ NoDup (collectedSigners s').
Proof.
  revert w s. induction calls as [|[signer tx] rest IH]; intros w s L Hnd.
  - exists s, []. cbn [applySignatures].
    rewrite (set_storage_same w s (proj1 (proj2 L))).
    split; [reflexivity|]. split; [exact L|].
    split; [repeat split|]. split; [symmetry; apply app_nil_r|].
    split; [intros x []| exact Hnd].
  - cbn [applySignatures].
    destruct (applySignature_step w s signer tx L) as [E | (Hp & Hnew & E)];
      rewrite E.
    + destruct (IH w s L Hnd) as (s' & added & R & L' & SR & Hc & Hi & Hn).
      exists s', added. repeat (split; [assumption|]).
      split; [|exact Hn]. intros x Hx. right. apply Hi. exact Hx.
    + set (s1 := countersigned s signer tx) in *.
      assert (L1 : live (set_storage w (Some s1)) s1)
        by (apply (live_set_storage w s s1 L); reflexivity).
      assert (N1 : NoDup (collectedSigners s1)).
      { unfold s1, countersigned. cbn [collectedSigners].
        apply NoDup_app; [exact Hnd | repeat constructor; intros [] |].
        intros x Hx [Hy|[]]. subst x. exact (Hnew Hx). }
      destruct (IH _ s1 L1 N1) as (s' & added & R & L' & SR & Hc & Hi & Hn).
      exists s', (signer :: added).
      split; [rewrite R; reflexivity|]. split; [exact L'|].
      split.
      { destruct SR as (A1 & A2 & A3 & A4 & A5). repeat split; assumption. }
      split; [rewrite Hc; unfold s1, countersigned; cbn [collectedSigners];
              rewrite <- app_assoc; reflexivity|].
      split; [|exact Hn].
      intros x [Hx|Hx]; [left; exact Hx | right; apply Hi; exact Hx].
Qed.

Lemma signature_run_keeps_the_round_witness :
  (live tab_A session_A /\ NoDup (collectedSigners session_A))
  /\ exists s' added,
      applySignatures [("pkhA", "84a400a1"); ("pkhB", "84a400a2");
                       ("pkhC", "84a400a3")] tab_A
      = set_storage tab_A (Some s')
      /\ live (applySignatures [("pkhA", "84a400a1"); ("pkhB", "84a400a2");
                                ("pkhC", "84a400a3")] tab_A) s'
      /\ same_round session_A s'
      /\ collectedSigners s' = (collectedSigners session_A ++ added)%list
      /\ incl added (map fst [("pkhA", "84a400a1"); ("pkhB", "84a400a2");
                              ("pkhC", "84a400a3")])
      /\ NoDup (collectedSigners s').
Proof.
  assert (L : live tab_A session_A) by by_evaluation.
  assert (N : NoDup (collectedSigners session_A)).
  { repeat constructor. intros []. }
  split; [split; assumption|].
  exact (signature_run_keeps_the_round _ tab_A session_A L N).
Defined.

Lemma tracked_step (s : MultiSigSession) (signer tx : string) :
  status s = pending -> tracked s -> tracked (countersigned s signer tx).
Proof.
  intros Hp [[_ Hlt] | [Hr _]]; [|congruence].
  destruct (countersigned_status s signer tx) as [Hr Hpn].
  pose proof (countersigned_count s signer tx) as Hc.
  assert (Ht : threshold (countersigned s signer tx) = threshold s)
    by reflexivity.
  destruct (Z_lt_ge_dec (collected_count s + 1) (threshold s)) as [Hlt'|Hge].
  - left. split; [apply Hpn; exact Hlt' | lia].
  - right. split; [apply Hr; lia | lia].
Qed.

Lemma tracked_run
    (calls : list (string * string)) (w : World) (s : MultiSigSession) :
  live w s -> tracked s ->
  exists s',
    live (applySignatures calls w) s' /\ tracked s'
    /\ threshold s' = threshold s.
Proof.
  revert w s. induction calls as [|[signer tx] rest IH]; intros w s L T.
  - exists s. split; [exact L | split; [exact T | reflexivity]].
  - cbn [applySignatures].
    destruct (applySignature_step w s signer tx L) as [E | (Hp & _ & E)];
      rewrite E.
    + apply IH; assumption.
    + destruct (IH (set_storage w (Some (countersigned s signer tx)))
                   (countersigned s signer tx)) as (s' & L' & T' & Ht).
      * apply (live_set_storage w s); [exact L | reflexivity].
      * apply tracked_step; assumption.
      * exists s'. split; [exact L' | split; [exact T' | exact Ht]].
Qed.

(** X5.  A session created in a browser with a threshold of at least 2 and
    then put through any sequence of [applySignature] calls never holds
    more signers than its threshold: it is pending with fewer signers than
    the threshold, or ready with exactly as many. *)
Theorem signature_run_stops_at_threshold
    (utx ptx : string) (thr : Z) (pkh uuid : string) (w : World)
    (calls : list (string * string)) :
  browser w = true -> 2 <= thr ->
  exists s',
    storage (applySignatures calls
               (snd (createSession utx ptx thr pkh uuid w))) = Some s'
    /\ threshold s' = thr
    /\ collected_count s' <= thr
    /\ (status s' = ready <-> collected_count s' = thr)
    /\ (status s' = pending <-> collected_count s' < thr).
Proof.
  intros Hb Hthr. rewrite createSession_result. cbn [snd]. rewrite Hb.
  set (s0 := mkSession uuid utx ptx [pkh] thr pending (clock w)
                       (clock w + SESSION_TTL_MS) None).
  assert (L : live (set_storage w (Some s0)) s0).
  { split; [exact Hb | split; [reflexivity|]]. cbn. unfold SESSION_TTL_MS. lia. }
  assert (T : tracked s0).
  { left. split; [reflexivity|]. unfold collected_count. cbn. lia. }
  destruct (tracked_run calls _ s0 L T) as (s' & L' & T' & Ht).
  exists s'. split; [apply L'|]. cbn in Ht. unfold tracked in T'.
  rewrite Ht in T'.
  split; [exact Ht|].
  destruct T' as [[Hp Hlt] | [Hr He]].
  - split; [lia|]. split; split; intro G; try congruence; try lia; assumption.
  - split; [lia|]. split; split; intro G; try congruence; try lia; assumption.
Qed.

Lemma signature_run_stops_at_threshold_witness :
  (browser tab_empty = true /\ 2 <= 2)
  /\ exists s',
      storage (applySignatures
                 [("pkhB", "84a400a2"); ("pkhC", "84a400a3")]
                 (snd (createSession "84a400" "84a400a1" 2 "pkhA" "5b1e7d3c"
                         tab_empty))) = Some s'
      /\ threshold s' = 2
      /\ collected_count s' <= 2
      /\ (status s' = ready <-> collected_count s' = 2)
      /\ (status s' = pending <-> collected_count s' < 2).
Proof.
  assert (B : browser tab_empty = true) by reflexivity.
  assert (T : 2 <= 2) by by_evaluation.
  split; [split; assumption|].
  exact (signature_run_stops_at_threshold "84a400" "84a400a1" 2 "pkhA"
           "5b1e7d3c" tab_empty _ B T).
Defined.

(** ** After submission *)

Lemma live_after_markSubmitted (w : World) (s : MultiSigSession) (h : string) :
  live w s -> live (snd (markSubmitted h w)) (submitted_with s h).
Proof.
  intro L. rewrite (markSubmitted_live w s h L).
  destruct L as (Hb & _ & Ht). repeat split; assumption.
Qed.

(** X6.  Once [markSubmitted] has run on a live session the round is
    closed: [applySignature] is refused with the status error naming
    [submitted], [submitUnlock] is refused with the not-enough-signatures
    error, both leave the stored session as it is, and the status snapshot
    reports [submitted]. *)
Theorem submitted_session_is_closed
    (E : Collaborators) (w : World) (s : MultiSigSession)
    (h signer tx : string) :
  live w s ->
  let w1 := snd (markSubmitted h w) in
  applySignature signer tx w1 = (Throw (msg_already submitted), w1)
  /\ submitUnlock E w1 = (Throw (msg_not_enough (submitted_with s h)), w1)
  /\ storage w1 = Some (submitted_with s h)
  /\ option_map SessionStatus.status
       (match fst (getSessionStatus w1) with Ok r => r | Throw _ => None end)
     = Some submitted.
Proof.
  intros L w1.
  pose proof (live_after_markSubmitted w s h L) as L1. fold w1 in L1.
  split.
  { rewrite applySignature_unfold, (readSession_live w1 _ L1). reflexivity. }
  split.
  { unfold submitUnlock, getSession, bind.
    rewrite (readSession_live w1 _ L1). reflexivity. }
  split; [apply L1|].
  rewrite (getSessionStatus_live w1 _ L1). reflexivity.
Qed.

Lemma submitted_session_is_closed_witness :
  live tab_AB session_AB
  /\ applySignature "pkhC" "84a400a3" (snd (markSubmitted "9f3c" tab_AB))
     = (Throw (msg_already submitted), snd (markSubmitted "9f3c" tab_AB))
  /\ submitUnlock helpers_B (snd (markSubmitted "9f3c" tab_AB))
     = (Throw (msg_not_enough (submitted_with session_AB "9f3c")),
        snd (markSubmitted "9f3c" tab_AB))
  /\ storage (snd (markSubmitted "9f3c" tab_AB))
     = Some (submitted_with session_AB "9f3c")
  /\ option_map SessionStatus.status
       (match fst (getSessionStatus (snd (markSubmitted "9f3c" tab_AB))) with
        | Ok r => r
        | Throw _ => None
        end)
     = Some submitted.
Proof.
  assert (L : live tab_AB session_AB) by by_evaluation.
  split; [exact L|].
  exact (submitted_session_is_closed helpers_B tab_AB session_AB
           "9f3c" "pkhC" "84a400a3" L).
Defined.

(** X7.  The grace period of [markSubmitted]: the submitted session stays
    in the store for the next 3000 ms (when no older timer is due) and is
    removed by the timer once 3000 ms have passed; a read then finds no
    session. *)
Theorem grace_period_then_cleanup
    (w : World) (s : MultiSigSession) (h : string) (dt : Z) :
  live w s ->
  (0 <= dt < 3000 -> quiet_for dt w ->
   storage (advance dt (snd (markSubmitted h w))) = Some (submitted_with s h))
  /\ (3000 <= dt ->
      storage (advance dt (snd (markSubmitted h w))) = None
      /\ fst (getSession (advance dt (snd (markSubmitted h w)))) = Ok None).
Proof.
  intro L. rewrite (markSubmitted_live w s h L). cbn [snd].
  destruct L as (Hb & _ & _). split.
  - intros Hdt Q. rewrite advance_quiet; [reflexivity|].
    unfold quiet_for in *. cbn [timers clock].
    apply Forall_app. split; [exact Q|].
    constructor; [lia | constructor].
  - intro Hdt.
    assert (S : storage
                  (advance dt
                     (mkWorld (clock w) (browser w) (Some (submitted_with s h))
                              (timers w ++ [clock w + 3000]))) = None).
    { apply (advance_fires dt _ (clock w + 3000)); cbn [timers clock browser].
      - apply in_or_app. right. left. reflexivity.
      - lia.
      - exact Hb. }
    split; [exact S|]. unfold getSession.
    rewrite (readSession_empty _ S). reflexivity.
Qed.

Lemma grace_period_then_cleanup_witness :
  live tab_AB session_AB
  /\ (0 <= 2999 < 3000 /\ quiet_for 2999 tab_AB)
  /\ storage (advance 2999 (snd (markSubmitted "9f3c" tab_AB)))
     = Some (submitted_with session_AB "9f3c")
  /\ 3000 <= 3000
  /\ storage (advance 3000 (snd (markSubmitted "9f3c" tab_AB))) = None
  /\ fst (getSession (advance 3000 (snd (markSubmitted "9f3c" tab_AB))))
     = Ok None.
Proof.
  assert (L : live tab_AB session_AB) by by_evaluation.
  assert (R : 0 <= 2999 < 3000) by by_evaluation.
  assert (Q : quiet_for 2999 tab_AB) by constructor.
  assert (T : 3000 <= 3000) by by_evaluation.
  split; [exact L|]. split; [split; assumption|].
  split; [exact (proj1 (grace_period_then_cleanup tab_AB session_AB "9f3c"
                          2999 L) R Q)|].
  split; [exact T|].
  exact (proj2 (grace_period_then_cleanup tab_AB session_AB "9f3c" 3000 L) T).
Defined.

(** X8.  The grace-period timer is not tied to the session it was set for:
    if the submitted session is cleared by hand and a new session is
    created less than 3000 ms after [markSubmitted], the timer still fires
    at the 3000 ms mark and removes the new session, long before that
    session's own expiry. *)
Theorem grace_timer_clears_a_newer_session
    (w : World) (s : MultiSigSession) (h : string)
    (utx ptx : string) (thr : Z) (pkh uuid : string) (dt1 dt2 : Z) :
  live w s -> timers w = [] ->
  0 <= dt1 < 3000 -> 3000 <= dt1 + dt2 -> dt2 <= SESSION_TTL_MS ->
  let w1 := snd (markSubmitted h w) in
  let w2 := advance dt1 (snd (clearSession w1)) in
  let w3 := snd (createSession utx ptx thr pkh uuid w2) in
  exists s2,
    live w3 s2
    /\ sessionId s2 = uuid
    /\ clock (advance dt2 w3) <= expiresAt s2
    /\ storage (advance dt2 w3) = None.
Proof.
  intros L Hts Hdt1 Hsum Hdt2 w1 w2 w3.
  assert (E1 : w1 = mkWorld (clock w) true (Some (submitted_with s h))
                            [clock w + 3000]).
  { unfold w1. rewrite (markSubmitted_live w s h L), Hts.
    destruct L as (-> & _). reflexivity. }
  assert (E2 : w2 = mkWorld (clock w + dt1) true None [clock w + 3000]).
  { unfold w2. rewrite E1. cbn [snd clearSession].
    rewrite advance_quiet; [reflexivity|].
    unfold quiet_for. cbn. repeat constructor. lia. }
  set (s2 := mkSession uuid utx ptx [pkh] thr pending (clock w + dt1)
                       (clock w + dt1 + SESSION_TTL_MS) None).
  assert (E3 : w3 = mkWorld (clock w + dt1) true (Some s2) [clock w + 3000]).
  { unfold w3. rewrite E2, createSession_result. reflexivity. }
  exists s2. rewrite E3.
  split.
  { split; [reflexivity | split; [reflexivity|]]. cbn.
    unfold SESSION_TTL_MS. lia. }
  split; [reflexivity|].
  split; [unfold advance, s2; cbn [clock expiresAt]; lia|].
  apply (advance_fires dt2 _ (clock w + 3000)); cbn [timers clock browser].
  - left. reflexivity.
  - lia.
  - reflexivity.
Qed.

Lemma grace_timer_clears_a_newer_session_witness :
  (live tab_AB session_AB /\ timers tab_AB = []
   /\ 0 <= 1000 < 3000 /\ 3000 <= 1000 + 2000 /\ 2000 <= SESSION_TTL_MS)
  /\ exists s2,
      live (snd (createSession "84a400" "84a400a1" 2 "pkhA" "c0ffee00"
                   (advance 1000
                      (snd (clearSession (snd (markSubmitted "9f3c" tab_AB)))))))
           s2
      /\ sessionId s2 = "c0ffee00"
      /\ clock (advance 2000
                  (snd (createSession "84a400" "84a400a1" 2 "pkhA" "c0ffee00"
                          (advance 1000
                             (snd (clearSession
                                     (snd (markSubmitted "9f3c" tab_AB))))))))
         <= expiresAt s2
      /\ storage (advance 2000
                    (snd (createSession "84a400" "84a400a1" 2 "pkhA" "c0ffee00"
                            (advance 1000
                               (snd (clearSession
                                       (snd (markSubmitted "9f3c" tab_AB))))))))
         = None.
Proof.
  assert (L : live tab_AB session_AB) by by_evaluation.
  assert (T : timers tab_AB = []) by reflexivity.
  assert (A : 0 <= 1000 < 3000) by by_evaluation.
  assert (B : 3000 <= 1000 + 2000) by by_evaluation.
  assert (D : 2000 <= SESSION_TTL_MS) by by_evaluation.
  split; [repeat split; try assumption; apply A|].
  exact (grace_timer_clears_a_newer_session tab_AB session_AB "9f3c"
           "84a400" "84a400a1" 2 "pkhA" "c0ffee00" 1000 2000 L T A B D).
Defined.

(** ** More on the transfer protocol *)

Lemma importSessionPayload_malformed
    (C : Codec) (w : World) (str e : string) :
  json_atob C str = Throw e ->
  importSessionPayload C str w
  = (Throw ("Failed to import session: " ++ e), w).
Proof.
  intro Hdec. unfold importSessionPayload, try_catch, bind.
  rewrite Hdec. reflexivity.
Qed.

(** X9.  [importSessionPayload] fails without touching the world in two
    cases: a string that does not decode is reported with the decoder's
    message behind the prefix ["Failed to import session: "], and a payload
    whose expiry has passed is reported as already expired.  The expiry
    check comes before the look at the local store, so it also applies to
    a payload that carries the id of a live local session. *)
Theorem import_failures_leave_the_world_alone (C : Codec) (w : World)
    (str : string) :
  (forall e,
      json_atob C str = Throw e ->
      importSessionPayload C str w
      = (Throw ("Failed to import session: " ++ e), w))
  /\ (forall p,
         json_atob C str = Ok p -> Payload.expiresAt p < clock w ->
         importSessionPayload C str w
         = (Throw "Failed to import session: Imported session has already expired.",
            w)).
Proof.
  split.
  - intros e Hdec. apply importSessionPayload_malformed. exact Hdec.
  - intros p Hdec Hexp.
    rewrite (importSessionPayload_expired C w str p Hdec Hexp). reflexivity.
Qed.

Lemma import_failures_leave_the_world_alone_witness :
  (json_atob LineCodec.codec "not a payload" = Throw "malformed payload"
   /\ importSessionPayload LineCodec.codec "not a payload" tab_A
      = (Throw ("Failed to import session: " ++ "malformed payload"), tab_A))
  /\ (live tab_A_extended session_A_extended
      /\ json_atob LineCodec.codec
           (btoa_json LineCodec.codec (payload_of session_A))
         = Ok (payload_of session_A)
      /\ Payload.sessionId (payload_of session_A)
         = sessionId session_A_extended
      /\ Payload.expiresAt (payload_of session_A) < clock tab_A_extended)
  /\ importSessionPayload LineCodec.codec
       (btoa_json LineCodec.codec (payload_of session_A)) tab_A_extended
     = (Throw "Failed to import session: Imported session has already expired.",
        tab_A_extended).
Proof.
  assert (D1 : json_atob LineCodec.codec "not a payload"
               = Throw "malformed payload") by (vm_compute; reflexivity).
  assert (L : live tab_A_extended session_A_extended) by by_evaluation.
  assert (D2 : json_atob LineCodec.codec
                 (btoa_json LineCodec.codec (payload_of session_A))
               = Ok (payload_of session_A)) by (vm_compute; reflexivity).
  assert (I : Payload.sessionId (payload_of session_A)
              = sessionId session_A_extended) by reflexivity.
  assert (X : Payload.expiresAt (payload_of session_A) < clock tab_A_extended)
    by by_evaluation.
  split.
  { split; [exact D1|].
    exact (proj1 (import_failures_leave_the_world_alone LineCodec.codec tab_A
                    "not a payload") _ D1). }
  split; [repeat split; solve [assumption | apply L]|].
  exact (proj2 (import_failures_leave_the_world_alone LineCodec.codec
                  tab_A_extended _) _ D2 X).
Defined.

(** X10.  A payload that has not expired and carries another id than the
    live local session replaces it: the local session, with whatever
    signatures it had collected, is overwritten by the adopted payload. *)
Theorem import_of_another_round_overwrites
    (C : Codec) (w : World) (s : MultiSigSession) (str : string)
    (p : Payload.t) :
  live w s -> json_atob C str = Ok p -> clock w <= Payload.expiresAt p ->
  sessionId s <> Payload.sessionId p ->
  importSessionPayload C str w
  = (Ok (Some (adopted p (clock w))),
     set_storage w (Some (adopted p (clock w))))
  /\ adopted p (clock w) <> s.
Proof.
  intros L Hdec Hexp Hid.
  rewrite (importSessionPayload_adopts C w str p Hdec Hexp).
  - destruct L as (Hb & _). rewrite Hb. split; [reflexivity|].
    intro E. apply Hid. rewrite <- E. reflexivity.
  - intros s0 (_ & Hs0 & _) E. destruct L as (_ & Hs & _).
    rewrite Hs in Hs0. injection Hs0 as <-. exact (Hid E).
Qed.

Lemma import_of_another_round_overwrites_witness :
  (live tab_AB session_AB
   /\ json_atob LineCodec.codec
        (btoa_json LineCodec.codec (payload_of session_other))
      = Ok (payload_of session_other)
   /\ clock tab_AB <= Payload.expiresAt (payload_of session_other)
   /\ sessionId session_AB <> Payload.sessionId (payload_of session_other))
  /\ importSessionPayload LineCodec.codec
       (btoa_json LineCodec.codec (payload_of session_other)) tab_AB
     = (Ok (Some (adopted (payload_of session_other) (clock tab_AB))),
        set_storage tab_AB
          (Some (adopted (payload_of session_other) (clock tab_AB))))
  /\ adopted (payload_of session_other) (clock tab_AB) <> session_AB.
Proof.
  assert (L : live tab_AB session_AB) by by_evaluation.
  assert (D : json_atob LineCodec.codec
                (btoa_json LineCodec.codec (payload_of session_other))
              = Ok (payload_of session_other)) by (vm_compute; reflexivity).
  assert (T : clock tab_AB <= Payload.expiresAt (payload_of session_other))
    by by_evaluation.
  assert (I : sessionId session_AB
              <> Payload.sessionId (payload_of session_other))
    by discriminate.
  split; [split; [exact L | split; [exact D | split; [exact T | exact I]]]|].
  exact (import_of_another_round_overwrites LineCodec.codec tab_AB session_AB
           _ (payload_of session_other) L D T I).
Defined.

(** X11.  Importing, in the tab that produced it, the payload that
    [exportSessionPayload] returns is a no-op: it gives back the stored
    session and changes nothing. *)
Theorem import_of_own_export_is_a_noop
    (C : Codec) (w : World) (s : MultiSigSession) :
  live w s ->
  json_atob C (btoa_json C (payload_of s)) = Ok (payload_of s) ->
  exists str,
    exportSessionPayload C w = (Ok (Some str), w)
    /\ importSessionPayload C str w = (Ok (Some s), w).
Proof.
  intros L Hcodec. exists (btoa_json C (payload_of s)).
  split; [apply exportSessionPayload_live; exact L|].
  apply (importSessionPayload_same_id C w s _ (payload_of s) L Hcodec).
  - apply L.
  - reflexivity.
Qed.

Lemma import_of_own_export_is_a_noop_witness :
  (live tab_A session_A
   /\ json_atob LineCodec.codec
        (btoa_json LineCodec.codec (payload_of session_A))
      = Ok (payload_of session_A))
  /\ exists str,
      exportSessionPayload LineCodec.codec tab_A = (Ok (Some str), tab_A)
      /\ importSessionPayload LineCodec.codec str tab_A
         = (Ok (Some session_A), tab_A).
Proof.
  assert (L : live tab_A session_A) by by_evaluation.
  assert (D : json_atob LineCodec.codec
                (btoa_json LineCodec.codec (payload_of session_A))
              = Ok (payload_of session_A)) by (vm_compute; reflexivity).
  split; [split; assumption|].
  exact (import_of_own_export_is_a_noop LineCodec.codec tab_A session_A L D).
Defined.

Lemma payload_of_adopted (p : Payload.t) (now : Z) :
  payload_of (adopted p now) = p.
Proof. destruct p; reflexivity. Qed.

(** X12.  A payload passes through a device unchanged: after a payload has
    been adopted in a browser that held no live session of that id,
    [exportSessionPayload] on that device, while the session lives, yields
    the encoding of exactly the payload that came in. *)
Theorem export_after_import_returns_the_payload
    (C : Codec) (w : World) (str : string) (p : Payload.t) :
  browser w = true ->
  json_atob C str = Ok p -> clock w <= Payload.expiresAt p ->
  (forall s, live w s -> sessionId s <> Payload.sessionId p) ->
  let w' := snd (importSessionPayload C str w) in
  exportSessionPayload C w' = (Ok (Some (btoa_json C p)), w').
Proof.
  intros Hb Hdec Hexp Hother w'.
  assert (E : w' = set_storage w (Some (adopted p (clock w)))).
  { unfold w'. rewrite (importSessionPayload_adopts C w str p Hdec Hexp Hother).
    rewrite Hb. reflexivity. }
  rewrite E.
  rewrite (exportSessionPayload_live C _ (adopted p (clock w))).
  - rewrite payload_of_adopted. reflexivity.
  - split; [exact Hb | split; [reflexivity | exact Hexp]].
Qed.

Lemma export_after_import_returns_the_payload_witness :
  (browser tab_empty = true
   /\ json_atob LineCodec.codec
        (btoa_json LineCodec.codec (payload_of session_AB))
      = Ok (payload_of session_AB)
   /\ clock tab_empty <= Payload.expiresAt (payload_of session_AB)
   /\ (forall s, live tab_empty s
                 -> sessionId s <> Payload.sessionId (payload_of session_AB)))
  /\ exportSessionPayload LineCodec.codec
       (snd (importSessionPayload LineCodec.codec
               (btoa_json LineCodec.codec (payload_of session_AB)) tab_empty))
     = (Ok (Some (btoa_json LineCodec.codec (payload_of session_AB))),
        snd (importSessionPayload LineCodec.codec
               (btoa_json LineCodec.codec (payload_of session_AB)) tab_empty)).
Proof.
  assert (B : browser tab_empty = true) by reflexivity.
  assert (D : json_atob LineCodec.codec
                (btoa_json LineCodec.codec (payload_of session_AB))
              = Ok (payload_of session_AB)) by (vm_compute; reflexivity).
  assert (T : clock tab_empty <= Payload.expiresAt (payload_of session_AB))
    by by_evaluation.
  assert (O : forall s, live tab_empty s
                -> sessionId s <> Payload.sessionId (payload_of session_AB)).
  { intros s (_ & Hs & _). discriminate Hs. }
  split; [split; [exact B | split; [exact D | split; [exact T | exact O]]]|].
  exact (export_after_import_returns_the_payload LineCodec.codec tab_empty
           _ (payload_of session_AB) B D T O).
Defined.

(* ========================================================================= *)
(** * Further properties of the coordination flows *)

Lemma quiet_for_weaken (a b : Z) (w : World) :
  a <= b -> quiet_for b w -> quiet_for a w.
Proof.
  unfold quiet_for. intros Hab Q.
  eapply Forall_impl; [|exact Q]. cbn. intros d Hd. lia.
Qed.

Lemma quiet_for_later (a b : Z) (w : World) :
  quiet_for (a + b) w -> quiet_for b (later a w).
Proof.
  unfold quiet_for, later. cbn [clock timers]. intro Q.
  eapply Forall_impl; [|exact Q]. cbn. intros d Hd. lia.
Qed.

Lemma later_later (a b : Z) (w : World) :
  later b (later a w) = later (a + b) w.
Proof. unfold later. cbn [clock browser storage timers]. f_equal. lia. Qed.

Lemma later_zero (w : World) : later 0 w = w.
Proof. destruct w as [now b slot ts]. unfold later. cbn. f_equal. lia. Qed.

Lemma live_later (dt : Z) (w : World) (s : MultiSigSession) :
  live w s -> clock w + dt <= expiresAt s -> live (later dt w) s.
Proof. intros (Hb & Hs & _) Ht. repeat split; assumption. Qed.

Lemma stale_later (dt : Z) (w : World) (s : MultiSigSession) :
  live w s -> expiresAt s < clock w + dt -> stale (later dt w) s.
Proof. intros (Hb & Hs & _) Ht. repeat split; assumption. Qed.

Lemma advance_keeps_empty (dt : Z) (w : World) :
  storage w = None -> storage (advance dt w) = None.
Proof.
  intro Hs. unfold advance. cbn [storage]. rewrite Hs.
  destruct (_ && _); reflexivity.
Qed.

(** ** Co-signing *)

Lemma coSign_unfold (E : Collaborators) (w : World) (s : MultiSigSession) :
  live w s ->
  coSign E w =
  match wallet_getChangeAddress E with
  | Throw e => (Throw e, advance (latency E) w)
  | Ok addr =>
      let pkh := deserializeAddress_pubKeyHash E addr in
      if includes (collectedSigners s) pkh then
        (Throw msg_already_signed, advance (latency E) w)
      else if negb (Status_eqb (status s) pending) then
        (Throw (msg_already (status s)), advance (latency E) w)
      else
        match wallet_signTx E (partialTx s) true with
        | Throw e => (Throw e, advance (latency E) (advance (latency E) w))
        | Ok newTx =>
            applySignature pkh newTx
              (advance (latency E) (advance (latency E) w))
        end
  end.
Proof.
  intro L. unfold coSign, getSession, bind at 1.
  rewrite (readSession_live w s L). unfold bind, await.
  destruct (wallet_getChangeAddress E) as [addr|e]; [|reflexivity].
  cbv zeta.
  destruct (includes _ _); [reflexivity|].
  destruct (negb _); [reflexivity|].
  destruct (wallet_signTx E (partialTx s) true); reflexivity.
Qed.

(** X13.  [coSign] on a live pending session, with a wallet that has not
    signed yet: the wallet is asked to sign the session's current partial
    transaction in partial mode, and if the session is still live when the
    two wallet calls are over, the signer and the transaction the wallet
    returned are stored through [applySignature]. *)
Theorem coSign_stores_the_wallet_signature
    (E : Collaborators) (w : World) (s : MultiSigSession)
    (addr newTx : string) :
  live w s -> status s = pending ->
  wallet_getChangeAddress E = Ok addr ->
  ~ In (deserializeAddress_pubKeyHash E addr) (collectedSigners s) ->
  wallet_signTx E (partialTx s) true = Ok newTx ->
  0 <= latency E -> quiet_for (latency E + latency E) w ->
  clock w + (latency E + latency E) <= expiresAt s ->
  let s' := countersigned s (deserializeAddress_pubKeyHash E addr) newTx in
  coSign E w
  = (Ok s', set_storage (later (latency E + latency E) w) (Some s')).
Proof.
  intros L Hp Ha Hnew Hsig Hlat Q Hlive s'.
  rewrite (coSign_unfold E w s L), Ha. cbv zeta.
  apply includes_not_In in Hnew. rewrite Hnew, Hp. cbn [Status_eqb negb].
  rewrite Hsig.
  rewrite (advance_quiet _ w) by (apply (quiet_for_weaken _ _ w) with (2 := Q); lia).
  rewrite (advance_quiet _ (later _ w)) by (apply quiet_for_later; exact Q).
  rewrite later_later.
  apply applySignature_accepts.
  - apply live_later; assumption.
  - exact Hp.
  - apply includes_not_In. exact Hnew.
Qed.

Lemma coSign_stores_the_wallet_signature_witness :
  (live tab_A session_A /\ status session_A = pending
   /\ wallet_getChangeAddress helpers_B = Ok "addr_test1B"
   /\ ~ In (deserializeAddress_pubKeyHash helpers_B "addr_test1B")
          (collectedSigners session_A)
   /\ wallet_signTx helpers_B (partialTx session_A) true = Ok "84a400a1a2"
   /\ 0 <= latency helpers_B
   /\ quiet_for (latency helpers_B + latency helpers_B) tab_A
   /\ clock tab_A + (latency helpers_B + latency helpers_B)
      <= expiresAt session_A)
  /\ coSign helpers_B tab_A
     = (Ok (countersigned session_A "pkhB" "84a400a1a2"),
        set_storage (later (latency helpers_B + latency helpers_B) tab_A)
          (Some (countersigned session_A "pkhB" "84a400a1a2"))).
Proof.
  assert (L : live tab_A session_A) by by_evaluation.
  assert (P : status session_A = pending) by reflexivity.
  assert (A : wallet_getChangeAddress helpers_B = Ok "addr_test1B")
    by reflexivity.
  assert (N : ~ In (deserializeAddress_pubKeyHash helpers_B "addr_test1B")
                (collectedSigners session_A)) by by_evaluation.
  assert (S : wallet_signTx helpers_B (partialTx session_A) true
              = Ok "84a400a1a2") by reflexivity.
  assert (D : 0 <= latency helpers_B) by by_evaluation.
  assert (Q : quiet_for (latency helpers_B + latency helpers_B) tab_A)
    by constructor.
  assert (T : clock tab_A + (latency helpers_B + latency helpers_B)
              <= expiresAt session_A) by by_evaluation.
  split; [repeat split; solve [assumption | apply L]|].
  exact (coSign_stores_the_wallet_signature helpers_B tab_A session_A
           "addr_test1B" "84a400a1a2" L P A N S D Q T).
Defined.

(** X14.  When the session expires while the wallet is busy, the signature
    is lost: [coSign] passed its guards on the session it read at the
    start, the wallet signs, and the [applySignature] that follows finds
    the session expired, throws the no-session error and purges the store. *)
Theorem coSign_loses_signature_on_expiry
    (E : Collaborators) (w : World) (s : MultiSigSession)
    (addr newTx : string) :
  live w s -> status s = pending ->
  wallet_getChangeAddress E = Ok addr ->
  ~ In (deserializeAddress_pubKeyHash E addr) (collectedSigners s) ->
  wallet_signTx E (partialTx s) true = Ok newTx ->
  0 <= latency E -> quiet_for (latency E + latency E) w ->
  expiresAt s < clock w + (latency E + latency E) ->
  coSign E w
  = (Throw msg_no_session,
     set_storage (later (latency E + latency E) w) None).
Proof.
  intros L Hp Ha Hnew Hsig Hlat Q Hdead.
  rewrite (coSign_unfold E w s L), Ha. cbv zeta.
  apply includes_not_In in Hnew. rewrite Hnew, Hp. cbn [Status_eqb negb].
  rewrite Hsig.
  rewrite (advance_quiet _ w) by (apply (quiet_for_weaken _ _ w) with (2 := Q); lia).
  rewrite (advance_quiet _ (later _ w)) by (apply quiet_for_later; exact Q).
  rewrite later_later, applySignature_unfold.
  rewrite (readSession_stale _ s); [reflexivity|].
  apply stale_later; assumption.
Qed.

Lemma coSign_loses_signature_on_expiry_witness :
  (live tab_A_closing session_A /\ status session_A = pending
   /\ wallet_getChangeAddress helpers_B = Ok "addr_test1B"
   /\ ~ In (deserializeAddress_pubKeyHash helpers_B "addr_test1B")
          (collectedSigners session_A)
   /\ wallet_signTx helpers_B (partialTx session_A) true = Ok "84a400a1a2"
   /\ 0 <= latency helpers_B
   /\ quiet_for (latency helpers_B + latency helpers_B) tab_A_closing
   /\ expiresAt session_A
      < clock tab_A_closing + (latency helpers_B + latency helpers_B))
  /\ coSign helpers_B tab_A_closing
     = (Throw msg_no_session,
        set_storage
          (later (latency helpers_B + latency helpers_B) tab_A_closing) None).
Proof.
  assert (L : live tab_A_closing session_A) by by_evaluation.
  assert (P : status session_A = pending) by reflexivity.
  assert (A : wallet_getChangeAddress helpers_B = Ok "addr_test1B")
    by reflexivity.
  assert (N : ~ In (deserializeAddress_pubKeyHash helpers_B "addr_test1B")
                (collectedSigners session_A)) by by_evaluation.
  assert (S : wallet_signTx helpers_B (partialTx session_A) true
              = Ok "84a400a1a2") by reflexivity.
  assert (D : 0 <= latency helpers_B) by by_evaluation.
  assert (Q : quiet_for (latency helpers_B + latency helpers_B) tab_A_closing)
    by constructor.
  assert (T : expiresAt session_A
              < clock tab_A_closing + (latency helpers_B + latency helpers_B))
    by by_evaluation.
  split; [repeat split; solve [assumption | apply L]|].
  exact (coSign_loses_signature_on_expiry helpers_B tab_A_closing session_A
           "addr_test1B" "84a400a1a2" L P A N S D Q T).
Defined.

(** X15.  The guards of [coSign] on a live session, in the order the code
    applies them: a wallet that has already signed is told so whatever the
    status of the session; otherwise a session that is not pending is
    refused with the status error; and when the wallet refuses to sign, its
    error is passed on.  In none of these cases is the stored session
    changed (as long as no cleanup timer fires meanwhile). *)
Theorem coSign_guards
    (E : Collaborators) (w : World) (s : MultiSigSession) (addr : string) :
  live w s -> wallet_getChangeAddress E = Ok addr ->
  0 <= latency E -> quiet_for (latency E + latency E) w ->
  let pkh := deserializeAddress_pubKeyHash E addr in
  (In pkh (collectedSigners s) ->
   coSign E w = (Throw msg_already_signed, later (latency E) w))
  /\ (~ In pkh (collectedSigners s) -> status s <> pending ->
      coSign E w = (Throw (msg_already (status s)), later (latency E) w))
  /\ (forall e,
         ~ In pkh (collectedSigners s) -> status s = pending ->
         wallet_signTx E (partialTx s) true = Throw e ->
         coSign E w = (Throw e, later (latency E + latency E) w)).
Proof.
  intros L Ha Hlat Q pkh.
  assert (Q1 : quiet_for (latency E) w)
    by (apply (quiet_for_weaken _ _ w) with (2 := Q); lia).
  rewrite (coSign_unfold E w s L), Ha. cbv zeta. fold pkh.
  rewrite (advance_quiet _ w Q1).
  split; [|split].
  - intro Hin. apply includes_In in Hin. rewrite Hin. reflexivity.
  - intros Hnew Hst. apply includes_not_In in Hnew. rewrite Hnew.
    destruct (status s); [congruence | reflexivity | reflexivity].
  - intros e Hnew Hp Hsig. apply includes_not_In in Hnew.
    rewrite Hnew, Hp, Hsig. cbn [Status_eqb negb].
    rewrite (advance_quiet _ (later _ w)) by (apply quiet_for_later; exact Q).
    rewrite later_later. reflexivity.
Qed.

Lemma coSign_guards_witness :
  (live tab_AB session_AB /\ wallet_getChangeAddress helpers_A = Ok "addr_test1A"
   /\ 0 <= latency helpers_A
   /\ quiet_for (latency helpers_A + latency helpers_A) tab_AB
   /\ In "pkhA" (collectedSigners session_AB))
  /\ coSign helpers_A tab_AB
     = (Throw msg_already_signed, later (latency helpers_A) tab_AB)
  /\ (~ In "pkhC" (collectedSigners session_AB) /\ status session_AB <> pending)
  /\ coSign helpers_declining tab_AB
     = (Throw (msg_already (status session_AB)),
        later (latency helpers_declining) tab_AB)
  /\ (live tab_A session_A /\ ~ In "pkhC" (collectedSigners session_A)
      /\ status session_A = pending
      /\ wallet_signTx helpers_declining (partialTx session_A) true
         = Throw "user declined to sign")
  /\ coSign helpers_declining tab_A
     = (Throw "user declined to sign",
        later (latency helpers_declining + latency helpers_declining) tab_A).
Proof.
  assert (L : live tab_AB session_AB) by by_evaluation.
  assert (L' : live tab_A session_A) by by_evaluation.
  assert (A : wallet_getChangeAddress helpers_A = Ok "addr_test1A")
    by reflexivity.
  assert (A' : wallet_getChangeAddress helpers_declining = Ok "addr_test1C")
    by reflexivity.
  assert (D : 0 <= latency helpers_A) by by_evaluation.
  assert (Q : quiet_for (latency helpers_A + latency helpers_A) tab_AB)
    by constructor.
  assert (Q' : quiet_for (latency helpers_declining + latency helpers_declining)
                 tab_A) by constructor.
  assert (I : In "pkhA" (collectedSigners session_AB)) by by_evaluation.
  assert (N : ~ In "pkhC" (collectedSigners session_AB)) by by_evaluation.
  assert (N' : ~ In "pkhC" (collectedSigners session_A)) by by_evaluation.
  assert (P : status session_AB <> pending) by discriminate.
  assert (P' : status session_A = pending) by reflexivity.
  assert (S : wallet_signTx helpers_declining (partialTx session_A) true
              = Throw "user declined to sign") by reflexivity.
  split; [repeat split; solve [assumption | apply L]|].
  split; [exact (proj1 (coSign_guards helpers_A tab_AB session_AB
                          "addr_test1A" L A D Q) I)|].
  split; [split; assumption|].
  split; [exact (proj1 (proj2 (coSign_guards helpers_declining tab_AB
                                 session_AB "addr_test1C" L A' D Q)) N P)|].
  split; [repeat split; solve [assumption | apply L']|].
  exact (proj2 (proj2 (coSign_guards helpers_declining tab_A session_A
                         "addr_test1C" L' A' D Q')) _ N' P' S).
Defined.

(** ** Submitting *)

Lemma submitUnlock_unfold (E : Collaborators) (w : World) (s : MultiSigSession) :
  live w s -> status s = ready ->
  submitUnlock E w =
  match wallet_submitTx E (partialTx s) with
  | Throw e => (Throw e, advance (latency E) w)
  | Ok h =>
      (Ok h, snd (markSubmitted h (advance (latency E) w)))
  end.
Proof.
  intros L Hr. unfold submitUnlock, getSession, bind at 1.
  rewrite (readSession_live w s L), Hr. cbn [Status_eqb negb].
  unfold bind, await.
  destruct (wallet_submitTx E (partialTx s)) as [h|e]; [|reflexivity].
  destruct (readSession_cases (advance (latency E) w))
    as [(s1 & L1 & _) | [(R & _) | (s1 & _ & R)]].
  - rewrite (markSubmitted_live _ s1 h L1). reflexivity.
  - unfold markSubmitted, bind. rewrite R. reflexivity.
  - unfold markSubmitted, bind. rewrite R. reflexivity.
Qed.

(** X16.  [submitUnlock] on a live ready session hands the accumulated
    partial transaction to the wallet.  If the wallet rejects it, the
    error is passed on and the session stays ready in the store, so the
    submission can be tried again.  If the wallet accepts it, the hash is
    returned and the session is stored as submitted with that hash and a
    cleanup timer 3000 ms ahead; but if the session expired while the
    wallet was submitting, the hash is still returned and nothing is
    recorded. *)
Theorem submitUnlock_outcomes
    (E : Collaborators) (w : World) (s : MultiSigSession) :
  live w s -> status s = ready -> 0 <= latency E -> quiet_for (latency E) w ->
  (forall e,
      wallet_submitTx E (partialTx s) = Throw e ->
      submitUnlock E w = (Throw e, later (latency E) w)
      /\ storage (later (latency E) w) = Some s)
  /\ (forall h,
         wallet_submitTx E (partialTx s) = Ok h ->
         clock w + latency E <= expiresAt s ->
         submitUnlock E w
         = (Ok h,
            mkWorld (clock w + latency E) true (Some (submitted_with s h))
                    (timers w ++ [clock w + latency E + 3000])))
  /\ (forall h,
         wallet_submitTx E (partialTx s) = Ok h ->
         expiresAt s < clock w + latency E ->
         submitUnlock E w = (Ok h, set_storage (later (latency E) w) None)).
Proof.
  intros L Hr Hlat Q.
  rewrite (submitUnlock_unfold E w s L Hr), (advance_quiet _ w Q).
  split; [|split].
  - intros e ->. split; [reflexivity | apply L].
  - intros h -> Hlive.
    rewrite (markSubmitted_live _ s h (live_later _ w s L Hlive)).
    destruct L as (Hb & _). unfold later. cbn. rewrite Hb. reflexivity.
  - intros h -> Hdead. unfold markSubmitted, bind.
    rewrite (readSession_stale _ s (stale_later _ w s L Hdead)). reflexivity.
Qed.

Lemma submitUnlock_outcomes_witness :
  (live tab_AB session_AB /\ status session_AB = ready
   /\ 0 <= latency helpers_B /\ quiet_for (latency helpers_B) tab_AB)
  /\ (wallet_submitTx helpers_declining (partialTx session_AB)
      = Throw "user declined to submit")
  /\ (submitUnlock helpers_declining tab_AB
      = (Throw "user declined to submit",
         later (latency helpers_declining) tab_AB)
      /\ storage (later (latency helpers_declining) tab_AB) = Some session_AB)
  /\ (wallet_submitTx helpers_B (partialTx session_AB) = Ok "9f3c"
      /\ clock tab_AB + latency helpers_B <= expiresAt session_AB)
  /\ submitUnlock helpers_B tab_AB
     = (Ok "9f3c",
        mkWorld (clock tab_AB + latency helpers_B) true
                (Some (submitted_with session_AB "9f3c"))
                (timers tab_AB ++ [clock tab_AB + latency helpers_B + 3000])).
Proof.
  assert (L : live tab_AB session_AB) by by_evaluation.
  assert (R : status session_AB = ready) by reflexivity.
  assert (D : 0 <= latency helpers_B) by by_evaluation.
  assert (Q : quiet_for (latency helpers_B) tab_AB) by constructor.
  assert (S1 : wallet_submitTx helpers_declining (partialTx session_AB)
               = Throw "user declined to submit") by reflexivity.
  assert (S2 : wallet_submitTx helpers_B (partialTx session_AB) = Ok "9f3c")
    by reflexivity.
  assert (T : clock tab_AB + latency helpers_B <= expiresAt session_AB)
    by by_evaluation.
  split; [repeat split; solve [assumption | apply L]|].
  split; [exact S1|].
  split; [exact (proj1 (submitUnlock_outcomes helpers_declining tab_AB
                          session_AB L R D Q) _ S1)|].
  split; [split; assumption|].
  exact (proj1 (proj2 (submitUnlock_outcomes helpers_B tab_AB session_AB
                         L R D Q)) _ S2 T).
Defined.

(** ** Opening a round *)

Lemma hasActiveSession_none (w w' : World) :
  readSession w = (Ok None, w') -> hasActiveSession w = (Ok false, w').
Proof. intro R. unfold hasActiveSession, bind. rewrite R. reflexivity. Qed.

Lemma initiateUnlock_unfold (E : Collaborators) (w w0 : World) :
  readSession w = (Ok None, w0) ->
  initiateUnlock E w =
  let w1 := advance (latency E) w0 in
  let w2 := advance (latency E) w1 in
  let w3 := advance (latency E) w2 in
  match wallet_getChangeAddress E with
  | Throw e => (Throw e, w1)
  | Ok addr =>
      match buildUnlockTransaction E with
      | Throw e => (Throw e, w2)
      | Ok (utx, _, thr) =>
          match wallet_signTx E utx true with
          | Throw e => (Throw e, w3)
          | Ok ptx =>
              createSession utx ptx thr
                (deserializeAddress_pubKeyHash E addr) (crypto_randomUUID E) w3
          end
      end
  end.
Proof.
  intro R. unfold initiateUnlock, bind at 1.
  rewrite (hasActiveSession_none w w0 R). unfold bind, await. cbv zeta.
  destruct (wallet_getChangeAddress E) as [addr|e]; [|reflexivity].
  destruct (buildUnlockTransaction E) as [[[utx owners] thr]|e]; [|reflexivity].
  destruct (wallet_signTx E utx true) as [ptx|e]; reflexivity.
Qed.

(** X17.  [initiateUnlock] where no live session is stored.  When the
    wallet, the builder and the signing all succeed, the session created
    has the builder's unsigned transaction and threshold, the wallet's
    partial signature, the key hash of the wallet's change address as its
    only signer, status pending, and lives for [SESSION_TTL_MS] from the
    moment the three calls are over; it is the stored session.  When any of
    the three fails, its error is passed on and the store stays empty. *)
Theorem initiateUnlock_outcomes (E : Collaborators) (w : World) :
  browser w = true -> (forall s, ~ live w s) -> 0 <= latency E ->
  quiet_for (latency E + latency E + latency E) w ->
  (forall addr utx owners thr ptx,
      wallet_getChangeAddress E = Ok addr ->
      buildUnlockTransaction E = Ok (utx, owners, thr) ->
      wallet_signTx E utx true = Ok ptx ->
      let now := clock w + (latency E + latency E + latency E) in
      let s := mkSession (crypto_randomUUID E) utx ptx
                 [deserializeAddress_pubKeyHash E addr] thr pending
                 now (now + SESSION_TTL_MS) None in
      initiateUnlock E w
      = (Ok s, mkWorld now true (Some s) (timers w)))
  /\ (forall e,
         (wallet_getChangeAddress E = Throw e
          \/ (exists addr, wallet_getChangeAddress E = Ok addr)
             /\ (buildUnlockTransaction E = Throw e
                 \/ exists utx owners thr,
                     buildUnlockTransaction E = Ok (utx, owners, thr)
                     /\ wallet_signTx E utx true = Throw e)) ->
         fst (initiateUnlock E w) = Throw e
         /\ storage (snd (initiateUnlock E w)) = None).
Proof.
  intros Hb Hno Hlat Q.
  assert (R : exists w0, readSession w = (Ok None, w0)
                         /\ w0 = set_storage w None).
  { destruct (readSession_cases w) as [(s & L & _) | [(R & _) | (s & _ & R)]].
    - destruct (Hno s L).
    - exists w. split; [exact R|].
      destruct w as [now b [s|] ts]; [|reflexivity].
      cbn in Hb. subst b.
      destruct (Z_le_gt_dec now (expiresAt s)) as [Hle|Hgt].
      + exfalso. apply (Hno s). repeat split; assumption.
      + rewrite (readSession_stale _ s) in R by (repeat split; cbn; lia).
        symmetry. exact (f_equal snd R).
    - eexists. split; [exact R | reflexivity]. }
  destruct R as (w0 & R & E0).
  assert (Q0 : quiet_for (latency E + latency E + latency E) w0)
    by (rewrite E0; exact Q).
  assert (Q1 : quiet_for (latency E) w0)
    by (apply (quiet_for_weaken _ _ w0) with (2 := Q0); lia).
  assert (Q2 : quiet_for (latency E + latency E) w0)
    by (apply (quiet_for_weaken _ _ w0) with (2 := Q0); lia).
  rewrite (initiateUnlock_unfold E w w0 R). cbv zeta.
  split.
  - intros addr utx owners thr ptx -> -> ->.
    rewrite (advance_quiet _ w0 Q1).
    rewrite (advance_quiet _ (later _ w0)) by (apply quiet_for_later; exact Q2).
    rewrite later_later.
    rewrite (advance_quiet _ (later _ w0))
      by (apply quiet_for_later; exact Q0).
    rewrite later_later, createSession_result, E0.
    unfold later, set_storage. cbn. rewrite Hb. reflexivity.
  - intros e H.
    assert (S0 : storage w0 = None) by (rewrite E0; reflexivity).
    pose proof (advance_keeps_empty (latency E) w0 S0) as S1.
    pose proof (advance_keeps_empty (latency E) _ S1) as S2.
    pose proof (advance_keeps_empty (latency E) _ S2) as S3.
    destruct H as [-> | [(addr & ->) [-> | (utx & owners & thr & -> & ->)]]];
      split; solve [reflexivity | assumption].
Qed.

Lemma initiateUnlock_outcomes_witness :
  (browser tab_empty = true /\ (forall s, ~ live tab_empty s)
   /\ 0 <= latency helpers_A
   /\ quiet_for (latency helpers_A + latency helpers_A + latency helpers_A)
        tab_empty)
  /\ (wallet_getChangeAddress helpers_A = Ok "addr_test1A"
      /\ buildUnlockTransaction helpers_A = Ok ("84a400", owners_ABC, 2)
      /\ wallet_signTx helpers_A "84a400" true = Ok "84a400a1")
  /\ initiateUnlock helpers_A tab_empty
     = (Ok (mkSession "5b1e7d3c" "84a400" "84a400a1" ["pkhA"] 2 pending
                      7600 (7600 + SESSION_TTL_MS) None),
        mkWorld 7600 true
          (Some (mkSession "5b1e7d3c" "84a400" "84a400a1" ["pkhA"] 2 pending
                           7600 (7600 + SESSION_TTL_MS) None)) [])
  /\ (exists addr, wallet_getChangeAddress helpers_declining = Ok addr)
  /\ (exists utx owners thr,
        buildUnlockTransaction helpers_declining = Ok (utx, owners, thr)
        /\ wallet_signTx helpers_declining utx true
           = Throw "user declined to sign")
  /\ fst (initiateUnlock helpers_declining tab_empty)
     = Throw "user declined to sign"
  /\ storage (snd (initiateUnlock helpers_declining tab_empty)) = None.
Proof.
  assert (B : browser tab_empty = true) by reflexivity.
  assert (Z0 : forall s, ~ live tab_empty s).
  { intros s (_ & Hs & _). discriminate Hs. }
  assert (D : 0 <= latency helpers_A) by by_evaluation.
  assert (Q : quiet_for (latency helpers_A + latency helpers_A
                         + latency helpers_A) tab_empty) by constructor.
  assert (A1 : wallet_getChangeAddress helpers_A = Ok "addr_test1A")
    by reflexivity.
  assert (A2 : buildUnlockTransaction helpers_A = Ok ("84a400", owners_ABC, 2))
    by reflexivity.
  assert (A3 : wallet_signTx helpers_A "84a400" true = Ok "84a400a1")
    by reflexivity.
  assert (F1 : exists addr, wallet_getChangeAddress helpers_declining = Ok addr)
    by (eexists; reflexivity).
  assert (F2 : exists utx owners thr,
             buildUnlockTransaction helpers_declining = Ok (utx, owners, thr)
             /\ wallet_signTx helpers_declining utx true
                = Throw "user declined to sign").
  { exists "84a400", owners_ABC, 2. split; reflexivity. }
  split; [repeat split; assumption|].
  split; [repeat split; assumption|].
  split; [exact (proj1 (initiateUnlock_outcomes helpers_A tab_empty B Z0 D Q)
                   _ _ _ _ _ A1 A2 A3)|].
  split; [exact F1|]. split; [exact F2|].
  exact (proj2 (initiateUnlock_outcomes helpers_declining tab_empty B Z0 D Q)
           _ (or_intror (conj F1 (or_intror F2)))).
Defined.

(* ========================================================================= *)
(** * Properties of the transaction builder *)

Section Collateral.

Variable BigInt : string -> Outcome Z.



End Collateral.


Example findCollateralUtxo_example :
  Builder.findCollateralUtxo decimal_BigInt
    [utxo_tokens; utxo_small; utxo_ada] = Ok (Some utxo_ada)
  /\ Builder.findCollateralUtxo decimal_BigInt [utxo_tokens; utxo_small]
     = Ok None.
Proof. split; vm_compute; reflexivity. Qed.

(** ** Reading the datum *)

(** X19.  [parseDatum] succeeds exactly on a UTxO whose Plutus data is
    present, non-empty and decodes to a constructor whose first field is a
    list and whose second field is an integer.  The owners it returns are
    the byte strings of that list, in order; list entries that are not
    byte strings are dropped without an error.  Every failure other than
    missing Plutus data is reported behind ["Failed to parse datum: "]. *)
Theorem parseDatum_reads_owners_and_threshold
    (lib : Builder.CSL) (utxo : Builder.UTxO) :
  (forall owners thr,
      Builder.parseDatum lib utxo = Ok (owners, thr)
      <-> exists datum alt items rest,
            Builder.output_plutusData utxo = Some datum
            /\ datum <> ""
            /\ Builder.PlutusData_from_hex lib datum
               = Ok (Builder.PConstr alt
                       (Builder.PList items :: Builder.PInteger thr :: rest))
            /\ owners = Builder.owners_of items)
  /\ (forall e,
         Builder.parseDatum lib utxo = Throw e ->
         e = "UTxO does not contain Plutus data."
         \/ exists e', e = "Failed to parse datum: " ++ e').
Proof.
  unfold Builder.parseDatum, Builder.andThen, Builder.PlutusList_get.
  destruct (Builder.output_plutusData utxo) as [datum|].
  2:{ split.
      - intros owners thr. split; [discriminate|].
        intros (d & _ & _ & _ & H & _). discriminate H.
      - intros e H. left. congruence. }
  destruct (String.eqb_spec datum "") as [->|Hne].
  { split.
    - intros owners thr. split; [discriminate|].
      intros (d & _ & _ & _ & H & Hd & _). congruence.
    - intros e H. left. congruence. }
  split.
  - intros owners thr. split.
    + intro H. exists datum.
      destruct (Builder.PlutusData_from_hex lib datum)
        as [[alt fields| | | |]|e]; try discriminate H.
      destruct fields as [|[| |items| |] fields]; cbn in H; try discriminate H.
      destruct fields as [|[| | |z|] rest]; cbn in H; try discriminate H.
      injection H as <- <-.
      exists alt, items, rest. repeat split. exact Hne.
    + intros (d & alt & items & rest & Hd & _ & Hx & ->).
      injection Hd as <-. rewrite Hx. reflexivity.
  - intros e H. right.
    destruct (Builder.PlutusData_from_hex lib datum)
      as [[alt fields| | | |]|e0];
      try (injection H as <-; eexists; reflexivity).
    destruct fields as [|[| |items| |] fields]; cbn in H;
      try (injection H as <-; eexists; reflexivity).
    destruct fields as [|[| | |z|] rest]; cbn in H;
      try (injection H as <-; eexists; reflexivity).
    discriminate H.
Qed.

Lemma owners_of_length (items : list Builder.PlutusData) :
  (List.length (Builder.owners_of items) <= List.length items)%nat.
Proof.
  induction items as [|[| | | |hex] rest IH]; cbn; lia.
Qed.

Lemma parseDatum_reads_owners_and_threshold_witness :
  (exists datum alt items rest,
      Builder.output_plutusData script_utxo = Some datum
      /\ datum <> ""
      /\ Builder.PlutusData_from_hex example_csl datum
         = Ok (Builder.PConstr alt
                 (Builder.PList items :: Builder.PInteger 2 :: rest))
      /\ [pkh_A; pkh_B; pkh_C] = Builder.owners_of items)
  /\ Builder.parseDatum example_csl script_utxo = Ok ([pkh_A; pkh_B; pkh_C], 2)
  /\ Builder.parseDatum example_csl utxo_ada
     = Throw "UTxO does not contain Plutus data."
  /\ ("UTxO does not contain Plutus data."
      = "UTxO does not contain Plutus data."
      \/ exists e', "UTxO does not contain Plutus data."
                    = "Failed to parse datum: " ++ e').
Proof.
  assert (H : exists datum alt items rest,
             Builder.output_plutusData script_utxo = Some datum
             /\ datum <> ""
             /\ Builder.PlutusData_from_hex example_csl datum
                = Ok (Builder.PConstr alt
                        (Builder.PList items :: Builder.PInteger 2 :: rest))
             /\ [pkh_A; pkh_B; pkh_C] = Builder.owners_of items).
  { exists "d8799f", 0,
      [Builder.PBytes pkh_A; Builder.PBytes pkh_B; Builder.PBytes pkh_C], [].
    repeat split. discriminate. }
  assert (T : Builder.parseDatum example_csl utxo_ada
              = Throw "UTxO does not contain Plutus data.") by reflexivity.
  split; [exact H|].
  split; [exact (proj2 (proj1 (parseDatum_reads_owners_and_threshold
                                 example_csl script_utxo) _ _) H)|].
  split; [exact T|].
  exact (proj2 (parseDatum_reads_owners_and_threshold example_csl utxo_ada)
           _ T).
Defined.

(** ** The calls made on the builder *)

Lemma declared_signers_app (a b : list Builder.BuilderCall) :
  declared_signers (a ++ b) = (declared_signers a ++ declared_signers b)%list.
Proof.
  induction a as [|[] a IH]; cbn; rewrite ?IH; reflexivity.
Qed.

Lemma declared_signers_map (l : list string) :
  declared_signers (map Builder.requiredSignerHash l) = l.
Proof. induction l as [|x l IH]; cbn; rewrite ?IH; reflexivity. Qed.

Lemma selections_app (a b : list Builder.BuilderCall) :
  selections (a ++ b) = (selections a ++ selections b)%list.
Proof.
  induction a as [|[] a IH]; cbn; rewrite ?IH; reflexivity.
Qed.

Lemma selections_map (l : list string) :
  selections (map Builder.requiredSignerHash l) = [].
Proof. induction l as [|x l IH]; cbn; rewrite ?IH; reflexivity. Qed.

Lemma outputs_app (a b : list Builder.BuilderCall) :
  outputs (a ++ b) = (outputs a ++ outputs b)%list.
Proof.
  induction a as [|[] a IH]; cbn; rewrite ?IH; reflexivity.
Qed.

Lemma outputs_map (l : list string) :
  outputs (map Builder.requiredSignerHash l) = [].
Proof. induction l as [|x l IH]; cbn; rewrite ?IH; reflexivity. Qed.

Lemma parseDatum_ok_has_datum
    (lib : Builder.CSL) (u : Builder.UTxO) (r : list string * Z) :
  Builder.parseDatum lib u = Ok r ->
  exists d, Builder.output_plutusData u = Some d /\ String.eqb d "" = false.
Proof.
  unfold Builder.parseDatum. intro H.
  destruct (Builder.output_plutusData u) as [d|]; [|discriminate H].
  exists d. split; [reflexivity|].
  destruct (String.eqb d ""); [discriminate H | reflexivity].
Qed.

(** The run of [buildUnlockTransaction] once its inputs are there and the
    signer count is sufficient: the calls handed to [complete]. *)
Lemma buildUnlockTransaction_run
    (S : Builder.Services) (scriptAddr : string) (scriptUtxo : Builder.UTxO)
    (scriptCbor outputAddress network : string)
    (signingOwners : option (list string))
    (owners : list string) (thr : Z) (walletUtxos : list Builder.UTxO)
    (change : string) (collateral : option Builder.UTxO) :
  Builder.parseDatum (Builder.csl S) scriptUtxo = Ok (owners, thr) ->
  Builder.wallet_getUtxos S = Ok walletUtxos ->
  Builder.wallet_changeAddress S = Ok change ->
  Builder.provider_fetchProtocolParameters S = Ok tt ->
  let effective := match signingOwners with
                   | Some l => l
                   | None => Builder.slice0 owners thr
                   end in
  thr <= Z.of_nat (List.length effective) ->
  Builder.findCollateralUtxo (Builder.BigInt S) walletUtxos = Ok collateral ->
  exists calls,
    Builder.buildUnlockTransaction S scriptAddr scriptUtxo scriptCbor
      outputAddress network signingOwners
    = Builder.andThen (Builder.txBuilder_complete S calls)
        (fun tx => Ok (tx, owners, thr))
    /\ declared_signers calls
       = filter (fun pkh => Nat.eqb (String.length pkh) 56) effective
    /\ selections calls
       = [filter (fun u => negb (Builder.is_script_utxo scriptUtxo u))
                 walletUtxos]
    /\ outputs calls = [(outputAddress, Builder.output_amount scriptUtxo)]
    /\ In Builder.txInInlineDatumPresent calls
    /\ (forall d, ~ In (Builder.txInDatumValue d) calls).
Proof.
  intros Hd Hu Hc Hp effective Hn Hcol.
  destruct (parseDatum_ok_has_datum _ _ _ Hd) as (d & Hsome & Hne).
  unfold Builder.buildUnlockTransaction.
  rewrite Hd, Hu, Hc, Hp. cbn [Builder.andThen]. fold effective.
  replace (Z.of_nat (List.length effective) <? thr)%Z with false
    by (symmetry; apply Z.ltb_ge; exact Hn).
  rewrite Hcol. cbn [Builder.andThen].
  assert (Hspend : Builder.spend_calls network scriptUtxo scriptCbor
                   = [ Builder.setNetwork network;
                       Builder.spendingPlutusScriptV3;
                       Builder.txIn (Builder.input_txHash scriptUtxo)
                         (Builder.input_outputIndex scriptUtxo)
                         (Builder.output_amount scriptUtxo)
                         (Builder.output_address scriptUtxo);
                       Builder.txInScript scriptCbor;
                       Builder.txInInlineDatumPresent;
                       Builder.txInRedeemerValue "d87980" 14000000
                         10000000000 ]).
  { unfold Builder.spend_calls. rewrite Hsome, Hne. reflexivity. }
  rewrite Hspend.
  eexists. split; [reflexivity|].
  set (is_datum_value := fun c : Builder.BuilderCall =>
                           match c with
                           | Builder.txInDatumValue _ => true
                           | _ => false
                           end).
  assert (Hmap : forall l, existsb is_datum_value
                             (map Builder.requiredSignerHash l) = false).
  { induction l as [|x l IH]; [reflexivity | exact IH]. }
  destruct collateral as [c|];
    repeat rewrite ?declared_signers_app, ?selections_app, ?outputs_app,
      ?declared_signers_map, ?selections_map, ?outputs_map;
    cbn [declared_signers selections outputs app];
    rewrite ?app_nil_r;
    (split; [reflexivity|]); (split; [reflexivity|]); (split; [reflexivity|]);
    (split; [cbn; tauto|]);
    intros d0 Hd0;
    assert (X : existsb is_datum_value _ = true)
      by (apply existsb_exists; exists (Builder.txInDatumValue d0);
          split; [exact Hd0 | reflexivity]);
    cbn [existsb is_datum_value orb] in X;
    rewrite ?existsb_app, Hmap in X; cbn in X; discriminate X.
Qed.

Lemma slice0_within {A} (l : list A) (e : Z) :
  0 <= e <= Z.of_nat (List.length l) ->
  Builder.slice0 l e = firstn (Z.to_nat e) l
  /\ Z.of_nat (List.length (Builder.slice0 l e)) = e.
Proof.
  intro H. unfold Builder.slice0.
  replace (e <? 0)%Z with false by (symmetry; apply Z.ltb_ge; lia).
  rewrite Z.min_l by lia. split; [reflexivity|].
  rewrite length_firstn. lia.
Qed.

Lemma slice0_beyond {A} (l : list A) (e : Z) :
  Z.of_nat (List.length l) < e -> Builder.slice0 l e = l.
Proof.
  intro H. unfold Builder.slice0.
  replace (e <? 0)%Z with false by (symmetry; apply Z.ltb_ge; lia).
  rewrite Z.min_r by lia. rewrite Nat2Z.id. apply firstn_all.
Qed.

(** X20.  The required signers [buildUnlockTransaction] declares on the
    transaction are, in order, the effective signers whose key hash is 56
    characters long, where the effective signers are [signingOwners] when
    given and otherwise the first [threshold] owners of the datum.  Hashes
    of another length are left out after the count check has passed, so
    fewer than [threshold] signers can end up declared. *)
Theorem declared_signers_are_the_wellformed_effective_signers
    (S : Builder.Services) (scriptAddr : string) (scriptUtxo : Builder.UTxO)
    (scriptCbor outputAddress network : string)
    (signingOwners : option (list string))
    (owners : list string) (thr : Z) (walletUtxos : list Builder.UTxO)
    (change : string) (collateral : option Builder.UTxO) :
  Builder.parseDatum (Builder.csl S) scriptUtxo = Ok (owners, thr) ->
  Builder.wallet_getUtxos S = Ok walletUtxos ->
  Builder.wallet_changeAddress S = Ok change ->
  Builder.provider_fetchProtocolParameters S = Ok tt ->
  Builder.findCollateralUtxo (Builder.BigInt S) walletUtxos = Ok collateral ->
  (forall l,
      signingOwners = Some l -> thr <= Z.of_nat (List.length l) ->
      exists calls,
        Builder.buildUnlockTransaction S scriptAddr scriptUtxo scriptCbor
          outputAddress network signingOwners
        = Builder.andThen (Builder.txBuilder_complete S calls)
            (fun tx => Ok (tx, owners, thr))
        /\ declared_signers calls
           = filter (fun pkh => Nat.eqb (String.length pkh) 56) l)
  /\ (signingOwners = None -> 0 <= thr <= Z.of_nat (List.length owners) ->
      exists calls,
        Builder.buildUnlockTransaction S scriptAddr scriptUtxo scriptCbor
          outputAddress network signingOwners
        = Builder.andThen (Builder.txBuilder_complete S calls)
            (fun tx => Ok (tx, owners, thr))
        /\ declared_signers calls
           = filter (fun pkh => Nat.eqb (String.length pkh) 56)
                    (firstn (Z.to_nat thr) owners)).
Proof.
  intros Hd Hu Hc Hp Hcol. split.
  - intros l -> Hn.
    destruct (buildUnlockTransaction_run S scriptAddr scriptUtxo scriptCbor
                outputAddress network (Some l) owners thr walletUtxos change
                collateral Hd Hu Hc Hp Hn Hcol) as (calls & E & D & _).
    exists calls. split; assumption.
  - intros -> Hthr. destruct (slice0_within owners thr Hthr) as [Es El].
    destruct (buildUnlockTransaction_run S scriptAddr scriptUtxo scriptCbor
                outputAddress network None owners thr walletUtxos change
                collateral Hd Hu Hc Hp) as (calls & E & D & _).
    + cbv zeta. lia.
    + exact Hcol.
    + exists calls. split; [exact E|]. cbv zeta in D. rewrite Es in D. exact D.
Qed.

Lemma declared_signers_are_the_wellformed_effective_signers_witness :
  (Builder.parseDatum (Builder.csl example_services) script_utxo
   = Ok ([pkh_A; pkh_B; pkh_C], 2)
   /\ Builder.wallet_getUtxos example_services
      = Ok [utxo_tokens; script_utxo; utxo_small; utxo_ada]
   /\ Builder.wallet_changeAddress example_services = Ok "addr_test1A"
   /\ Builder.provider_fetchProtocolParameters example_services = Ok tt
   /\ Builder.findCollateralUtxo (Builder.BigInt example_services)
        [utxo_tokens; script_utxo; utxo_small; utxo_ada] = Ok (Some script_utxo)
   /\ 2 <= Z.of_nat (List.length [pkh_C; "c3c3"])
   /\ 0 <= 2 <= Z.of_nat (List.length [pkh_A; pkh_B; pkh_C]))
  /\ (exists calls,
        Builder.buildUnlockTransaction example_services "addr_test1script"
          script_utxo "5901" "addr_test1out" "preprod" (Some [pkh_C; "c3c3"])
        = Builder.andThen (Builder.txBuilder_complete example_services calls)
            (fun tx => Ok (tx, [pkh_A; pkh_B; pkh_C], 2))
        /\ declared_signers calls
           = filter (fun pkh => Nat.eqb (String.length pkh) 56) [pkh_C; "c3c3"])
  /\ filter (fun pkh => Nat.eqb (String.length pkh) 56) [pkh_C; "c3c3"]
     = [pkh_C]
  /\ (exists calls,
        Builder.buildUnlockTransaction example_services "addr_test1script"
          script_utxo "5901" "addr_test1out" "preprod" None
        = Builder.andThen (Builder.txBuilder_complete example_services calls)
            (fun tx => Ok (tx, [pkh_A; pkh_B; pkh_C], 2))
        /\ declared_signers calls
           = filter (fun pkh => Nat.eqb (String.length pkh) 56)
                    (firstn (Z.to_nat 2) [pkh_A; pkh_B; pkh_C])).
Proof.
  assert (Hd : Builder.parseDatum (Builder.csl example_services) script_utxo
               = Ok ([pkh_A; pkh_B; pkh_C], 2)) by reflexivity.
  assert (Hu : Builder.wallet_getUtxos example_services
               = Ok [utxo_tokens; script_utxo; utxo_small; utxo_ada])
    by reflexivity.
  assert (Hc : Builder.wallet_changeAddress example_services
               = Ok "addr_test1A") by reflexivity.
  assert (Hp : Builder.provider_fetchProtocolParameters example_services
               = Ok tt) by reflexivity.
  assert (Hcol : Builder.findCollateralUtxo (Builder.BigInt example_services)
                   [utxo_tokens; script_utxo; utxo_small; utxo_ada]
                 = Ok (Some script_utxo)) by (vm_compute; reflexivity).
  assert (N1 : 2 <= Z.of_nat (List.length [pkh_C; "c3c3"])) by by_evaluation.
  assert (N2 : 0 <= 2 <= Z.of_nat (List.length [pkh_A; pkh_B; pkh_C]))
    by by_evaluation.
  split; [repeat split; solve [assumption | apply N2]|].
  split; [exact (proj1 (declared_signers_are_the_wellformed_effective_signers
                          example_services "addr_test1script" script_utxo
                          "5901" "addr_test1out" "preprod" (Some [pkh_C; "c3c3"])
                          _ _ _ _ _ Hd Hu Hc Hp Hcol) _ eq_refl N1)|].
  split; [vm_compute; reflexivity|].
  exact (proj2 (declared_signers_are_the_wellformed_effective_signers
                  example_services "addr_test1script" script_utxo
                  "5901" "addr_test1out" "preprod" None
                  _ _ _ _ _ Hd Hu Hc Hp Hcol) eq_refl N2).
Defined.

(** X21.  With the datum, the wallet and the provider at hand,
    [buildUnlockTransaction] throws before anything is completed when the
    signers are fewer than the threshold: a [signingOwners] list shorter
    than the threshold, or, when none is given, a datum with fewer owners
    than its threshold.  The message names the threshold and the count. *)
Theorem buildUnlockTransaction_rejects_too_few_signers
    (S : Builder.Services) (scriptAddr : string) (scriptUtxo : Builder.UTxO)
    (scriptCbor outputAddress network : string)
    (owners : list string) (thr : Z) (walletUtxos : list Builder.UTxO)
    (change : string) :
  Builder.parseDatum (Builder.csl S) scriptUtxo = Ok (owners, thr) ->
  Builder.wallet_getUtxos S = Ok walletUtxos ->
  Builder.wallet_changeAddress S = Ok change ->
  Builder.provider_fetchProtocolParameters S = Ok tt ->
  (forall l,
      Z.of_nat (List.length l) < thr ->
      Builder.buildUnlockTransaction S scriptAddr scriptUtxo scriptCbor
        outputAddress network (Some l)
      = Throw (Builder.msg_too_few_signers thr (Z.of_nat (List.length l))))
  /\ (Z.of_nat (List.length owners) < thr ->
      Builder.buildUnlockTransaction S scriptAddr scriptUtxo scriptCbor
        outputAddress network None
      = Throw (Builder.msg_too_few_signers thr
                 (Z.of_nat (List.length owners)))).
Proof.
  intros Hd Hu Hc Hp. split.
  - intros l Hl. unfold Builder.buildUnlockTransaction.
    rewrite Hd, Hu, Hc, Hp. cbn [Builder.andThen].
    replace (Z.of_nat (List.length l) <? thr)%Z with true
      by (symmetry; apply Z.ltb_lt; exact Hl).
    reflexivity.
  - intro Hl. unfold Builder.buildUnlockTransaction.
    rewrite Hd, Hu, Hc, Hp. cbn [Builder.andThen].
    rewrite (slice0_beyond owners thr Hl).
    replace (Z.of_nat (List.length owners) <? thr)%Z with true
      by (symmetry; apply Z.ltb_lt; exact Hl).
    reflexivity.
Qed.

Lemma buildUnlockTransaction_rejects_too_few_signers_witness :
  (Builder.parseDatum (Builder.csl example_services) script_utxo
   = Ok ([pkh_A; pkh_B; pkh_C], 2)
   /\ Builder.wallet_getUtxos example_services
      = Ok [utxo_tokens; script_utxo; utxo_small; utxo_ada]
   /\ Builder.wallet_changeAddress example_services = Ok "addr_test1A"
   /\ Builder.provider_fetchProtocolParameters example_services = Ok tt
   /\ Z.of_nat (List.length [pkh_A]) < 2)
  /\ Builder.buildUnlockTransaction example_services "addr_test1script"
       script_utxo "5901" "addr_test1out" "preprod" (Some [pkh_A])
     = Throw "signingOwners must contain at least 2 key hashes (got 1).".
Proof.
  assert (Hd : Builder.parseDatum (Builder.csl example_services) script_utxo
               = Ok ([pkh_A; pkh_B; pkh_C], 2)) by reflexivity.
  assert (Hu : Builder.wallet_getUtxos example_services
               = Ok [utxo_tokens; script_utxo; utxo_small; utxo_ada])
    by reflexivity.
  assert (Hc : Builder.wallet_changeAddress example_services
               = Ok "addr_test1A") by reflexivity.
  assert (Hp : Builder.provider_fetchProtocolParameters example_services
               = Ok tt) by reflexivity.
  assert (N : Z.of_nat (List.length [pkh_A]) < 2) by by_evaluation.
  split; [repeat split; assumption|].
  exact (proj1 (buildUnlockTransaction_rejects_too_few_signers
                  example_services "addr_test1script" script_utxo "5901"
                  "addr_test1out" "preprod" _ _ _ _ Hd Hu Hc Hp) [pkh_A] N).
Defined.

(** X22.  The transaction [buildUnlockTransaction] asks the builder to
    complete: the script UTxO is spent with its datum declared inline (the
    datum-by-value call is never made, since [parseDatum] has already
    refused a UTxO without Plutus data); there is exactly one output,
    paying the whole amount of the script UTxO to the output address; and
    the UTxOs offered for coin selection are the wallet's UTxOs except the
    one with the script UTxO's transaction hash and index. *)
Theorem buildUnlockTransaction_shape
    (S : Builder.Services) (scriptAddr : string) (scriptUtxo : Builder.UTxO)
    (scriptCbor outputAddress network : string)
    (signingOwners : option (list string))
    (owners : list string) (thr : Z) (walletUtxos : list Builder.UTxO)
    (change : string) (collateral : option Builder.UTxO) :
  Builder.parseDatum (Builder.csl S) scriptUtxo = Ok (owners, thr) ->
  Builder.wallet_getUtxos S = Ok walletUtxos ->
  Builder.wallet_changeAddress S = Ok change ->
  Builder.provider_fetchProtocolParameters S = Ok tt ->
  thr <= Z.of_nat (List.length (match signingOwners with
                                | Some l => l
                                | None => Builder.slice0 owners thr
                                end)) ->
  Builder.findCollateralUtxo (Builder.BigInt S) walletUtxos = Ok collateral ->
  exists calls selected,
    Builder.buildUnlockTransaction S scriptAddr scriptUtxo scriptCbor
      outputAddress network signingOwners
    = Builder.andThen (Builder.txBuilder_complete S calls)
        (fun tx => Ok (tx, owners, thr))
    /\ In Builder.txInInlineDatumPresent calls
    /\ (forall d, ~ In (Builder.txInDatumValue d) calls)
    /\ outputs calls = [(outputAddress, Builder.output_amount scriptUtxo)]
    /\ selections calls = [selected]
    /\ (forall u,
           In u selected
           <-> In u walletUtxos
               /\ (Builder.input_txHash u <> Builder.input_txHash scriptUtxo
                   \/ Builder.input_outputIndex u
                      <> Builder.input_outputIndex scriptUtxo)).
Proof.
  intros Hd Hu Hc Hp Hn Hcol.
  destruct (buildUnlockTransaction_run S scriptAddr scriptUtxo scriptCbor
              outputAddress network signingOwners owners thr walletUtxos
              change collateral Hd Hu Hc Hp Hn Hcol)
    as (calls & E & _ & Hsel & Hout & Hin & Hnot).
  exists calls. eexists. split; [exact E|]. split; [exact Hin|].
  split; [exact Hnot|]. split; [exact Hout|]. split; [exact Hsel|].
  intro u. rewrite filter_In. unfold Builder.is_script_utxo.
  rewrite negb_true_iff, andb_false_iff, String.eqb_neq, Z.eqb_neq.
  reflexivity.
Qed.

Lemma buildUnlockTransaction_shape_witness :
  (Builder.parseDatum (Builder.csl example_services) script_utxo
   = Ok ([pkh_A; pkh_B; pkh_C], 2)
   /\ Builder.wallet_getUtxos example_services
      = Ok [utxo_tokens; script_utxo; utxo_small; utxo_ada]
   /\ Builder.wallet_changeAddress example_services = Ok "addr_test1A"
   /\ Builder.provider_fetchProtocolParameters example_services = Ok tt
   /\ 2 <= Z.of_nat (List.length [pkh_A; pkh_B])
   /\ Builder.findCollateralUtxo (Builder.BigInt example_services)
        [utxo_tokens; script_utxo; utxo_small; utxo_ada]
      = Ok (Some script_utxo))
  /\ exists calls selected,
      Builder.buildUnlockTransaction example_services "addr_test1script"
        script_utxo "5901" "addr_test1out" "preprod" (Some [pkh_A; pkh_B])
      = Builder.andThen (Builder.txBuilder_complete example_services calls)
          (fun tx => Ok (tx, [pkh_A; pkh_B; pkh_C], 2))
      /\ In Builder.txInInlineDatumPresent calls
      /\ (forall d, ~ In (Builder.txInDatumValue d) calls)
      /\ outputs calls
         = [("addr_test1out", Builder.output_amount script_utxo)]
      /\ selections calls = [selected]
      /\ (forall u,
             In u selected
             <-> In u [utxo_tokens; script_utxo; utxo_small; utxo_ada]
                 /\ (Builder.input_txHash u <> Builder.input_txHash script_utxo
                     \/ Builder.input_outputIndex u
                        <> Builder.input_outputIndex script_utxo)).
Proof.
  assert (Hd : Builder.parseDatum (Builder.csl example_services) script_utxo
               = Ok ([pkh_A; pkh_B; pkh_C], 2)) by reflexivity.
  assert (Hu : Builder.wallet_getUtxos example_services
               = Ok [utxo_tokens; script_utxo; utxo_small; utxo_ada])
    by reflexivity.
  assert (Hc : Builder.wallet_changeAddress example_services
               = Ok "addr_test1A") by reflexivity.
  assert (Hp : Builder.provider_fetchProtocolParameters example_services
               = Ok tt) by reflexivity.
  assert (N : 2 <= Z.of_nat (List.length [pkh_A; pkh_B])) by by_evaluation.
  assert (Hcol : Builder.findCollateralUtxo (Builder.BigInt example_services)
                   [utxo_tokens; script_utxo; utxo_small; utxo_ada]
                 = Ok (Some script_utxo)) by (vm_compute; reflexivity).
  split; [repeat split; assumption|].
  exact (buildUnlockTransaction_shape example_services "addr_test1script"
           script_utxo "5901" "addr_test1out" "preprod" (Some [pkh_A; pkh_B])
           _ _ _ _ _ Hd Hu Hc Hp N Hcol).
Defined.

(* ========================================================================= *)
(** * Properties of the countdown and of the script builder *)

Lemma two_digit_seconds (s : Z) :
  0 <= s < 60 ->
  Hook.padStart 2 "0" (Number_toString s)
  = String (digit_char (s / 10)) (String (digit_char (s mod 10)) "").
Proof.
  intro H.
  assert (G : forall n : nat, (n < 60)%nat ->
              Hook.padStart 2 "0" (Number_toString (Z.of_nat n))
              = String (digit_char (Z.of_nat n / 10))
                  (String (digit_char (Z.of_nat n mod 10)) "")).
  { intros n Hn.
    do 60 (destruct n as [|n]; [vm_compute; reflexivity|]). lia. }
  rewrite <- (Z2Nat.id s) by lia. apply G. lia.
Qed.

(** X23.  [formatCountdown] on a remaining time of [ms] milliseconds, a
    whole number from 0 to [MAX_SAFE_INTEGER], prints minutes, a colon and
    seconds, the seconds always with two digits, where sixty times the
    minutes plus the seconds is [ms / 1000] rounded up: any positive
    remainder is shown as at least one second. *)
Theorem formatCountdown_rounds_up_and_pads (ms : Z) :
  0 <= ms <= MAX_SAFE_INTEGER ->
  exists m s,
    0 <= m /\ 0 <= s < 60
    /\ ms <= 1000 * (60 * m + s) < ms + 1000
    /\ Hook.formatCountdown ms
       = Number_toString m ++ ":"
         ++ String (digit_char (s / 10)) (String (digit_char (s mod 10)) "").
Proof.
  intros [H _]. unfold Hook.formatCountdown.
  set (t := (ms + 999) / 1000).
  assert (Ht : 0 <= t) by (apply Z.div_pos; lia).
  assert (Hr : Z.rem t 60 = t mod 60) by (apply Z.rem_mod_nonneg; lia).
  exists (t / 60), (t mod 60).
  pose proof (Z.mod_pos_bound t 60 ltac:(lia)) as Hs.
  pose proof (Z.div_mod t 60 ltac:(lia)) as Hdm.
  pose proof (Z.div_mod (ms + 999) 1000 ltac:(lia)) as Hdm2.
  pose proof (Z.mod_pos_bound (ms + 999) 1000 ltac:(lia)) as Hs2.
  fold t in Hdm2.
  split; [apply Z.div_pos; lia|]. split; [exact Hs|].
  split; [lia|].
  rewrite Hr, (two_digit_seconds _ Hs). reflexivity.
Qed.

Lemma formatCountdown_rounds_up_and_pads_witness :
  0 <= 61001 <= MAX_SAFE_INTEGER
  /\ (exists m s,
        0 <= m /\ 0 <= s < 60
        /\ 61001 <= 1000 * (60 * m + s) < 61001 + 1000
        /\ Hook.formatCountdown 61001
           = Number_toString m ++ ":"
             ++ String (digit_char (s / 10))
                  (String (digit_char (s mod 10)) ""))
  /\ Hook.formatCountdown 61001 = "1:02"
  /\ Hook.formatCountdown SESSION_TTL_MS = "10:00"
  /\ Hook.formatCountdown 0 = "0:00".
Proof.
  assert (P : 0 <= 61001 <= MAX_SAFE_INTEGER) by by_evaluation.
  split; [exact P|].
  split; [exact (formatCountdown_rounds_up_and_pads 61001 P)|].
  repeat split; vm_compute; reflexivity.
Defined.

(** ** The script wrapper *)

Lemma hex_digits_small (fuel : nat) (n : N) :
  (n < 16)%N ->
  ScriptBuilder.hex_digits (S fuel) n
  = String (ScriptBuilder.hex_digit n) "".
Proof.
  intro H. cbn [ScriptBuilder.hex_digits].
  rewrite (N.div_small n 16 H), (N.mod_small n 16 H). reflexivity.
Qed.

Lemma hex_digits_step (fuel : nat) (n : N) :
  (16 <= n)%N ->
  ScriptBuilder.hex_digits (S fuel) n
  = ScriptBuilder.hex_digits fuel (n / 16)
    ++ String (ScriptBuilder.hex_digit (n mod 16)) "".
Proof.
  intro H. cbn [ScriptBuilder.hex_digits].
  replace (n / 16 =? 0)%N with false; [reflexivity|].
  symmetry. apply N.eqb_neq. intro E.
  apply N.div_small_iff in E; [|discriminate]. apply N.lt_nge in E. exact (E H).
Qed.

Lemma fuel_of_log2 (n bound : N) (bits : nat) :
  (bound <= n)%N -> N.log2 bound = N.of_nat bits ->
  exists fuel, N.to_nat (N.log2 n) = (bits + fuel)%nat.
Proof.
  intros Hle Hb. pose proof (N.log2_le_mono bound n Hle) as Hm.
  rewrite Hb in Hm. exists (N.to_nat (N.log2 n) - bits)%nat. lia.
Qed.

Lemma div_lt_16 (n b : N) : (n < 16 * b)%N -> (b <> 0)%N -> (n / b < 16)%N.
Proof.
  intros H Hb. apply N.Div0.div_lt_upper_bound. rewrite N.mul_comm. exact H.
Qed.

Lemma two_byte_length_header (k : N) :
  (k < 65536)%N ->
  Hook.padStart 4 "0" (ScriptBuilder.toString16 k) = four_hex_digits k.
Proof.
  intro Hk. unfold ScriptBuilder.toString16, four_hex_digits.
  destruct (N.lt_ge_cases k 16) as [H1|H1].
  { rewrite (hex_digits_small _ k H1).
    rewrite (N.div_small k 4096) by lia.
    rewrite (N.div_small k 256) by lia.
    rewrite (N.div_small k 16) by lia.
    rewrite (N.mod_small k 16 H1). reflexivity. }
  assert (D1 : ((k / 16) / 16 = k / 256)%N)
    by (rewrite N.Div0.div_div; reflexivity).
  assert (D2 : ((k / 256) / 16 = k / 4096)%N)
    by (rewrite N.Div0.div_div; reflexivity).
  destruct (fuel_of_log2 k 16 4 H1 eq_refl) as (f1 & ->).
  cbn [Nat.add]. rewrite (hex_digits_step _ k H1).
  destruct (N.lt_ge_cases (k / 16) 16) as [H2|H2].
  { rewrite (hex_digits_small _ _ H2).
    rewrite (N.div_small k 4096)
      by (pose proof (N.Div0.div_mod k 16);
          pose proof (N.mod_lt k 16 ltac:(discriminate)); lia).
    rewrite <- D1, (N.div_small (k / 16) 16 H2).
    rewrite (N.mod_small (k / 16) 16 H2). reflexivity. }
  rewrite (hex_digits_step _ _ H2), D1.
  destruct (N.lt_ge_cases (k / 256) 16) as [H3|H3].
  { rewrite (hex_digits_small _ _ H3).
    rewrite <- D2, (N.div_small (k / 256) 16 H3).
    rewrite (N.mod_small (k / 256) 16 H3). reflexivity. }
  rewrite (hex_digits_step _ _ H3), D2.
  assert (H4 : (k / 4096 < 16)%N)
    by (apply N.Div0.div_lt_upper_bound; lia).
  rewrite (hex_digits_small _ _ H4). reflexivity.
Qed.

(** X24.  The script CBOR [getScript] returns for a validator whose
    compiled code is an even number of hex characters, fewer than 65536
    bytes: it is ["59"], then exactly the four hexadecimal digits of the
    byte length of the compiled code (zero-padded), then the compiled code
    itself, that is, the compiled code wrapped as a CBOR byte string with
    a two-byte length. *)
Theorem getScript_wraps_with_two_byte_length
    (P : ScriptBuilder.Platform) (validators : list ScriptBuilder.Validator)
    (NETWORK : string) (index : nat) (v : ScriptBuilder.Validator)
    (addr : string) :
  nth_error validators index = Some v ->
  ScriptBuilder.bech32_address P
    (if String.eqb NETWORK "mainnet" then "addr" else "addr_test")
    (if String.eqb NETWORK "mainnet" then 113 else 112)
    (ScriptBuilder.hash v) = Ok addr ->
  Nat.even (String.length (ScriptBuilder.compiledCode v)) = true ->
  let byteLength :=
    N.of_nat (Nat.div2 (String.length (ScriptBuilder.compiledCode v))) in
  (byteLength < 65536)%N ->
  ScriptBuilder.getScript P validators NETWORK index
  = Ok (ScriptBuilder.mkScript
          ("59" ++ four_hex_digits byteLength ++ ScriptBuilder.compiledCode v)
          addr (ScriptBuilder.title v))
  /\ (byteLength
      = 4096 * (byteLength / 4096) + 256 * (byteLength / 256 mod 16)
        + 16 * (byteLength / 16 mod 16) + byteLength mod 16)%N.
Proof.
  intros Hv Haddr Heven byteLength Hlen. split.
  - unfold ScriptBuilder.getScript. rewrite Hv.
    unfold ScriptBuilder.half_toString16. rewrite Heven.
    fold byteLength. rewrite (two_byte_length_header _ Hlen).
    destruct (String.eqb NETWORK "mainnet"); cbn [Z.eqb Pos.eqb];
      rewrite Haddr; reflexivity.
  - pose proof (N.Div0.div_mod byteLength 16) as E0.
    pose proof (N.Div0.div_mod (byteLength / 16) 16) as E1.
    pose proof (N.Div0.div_mod (byteLength / 256) 16) as E2.
    rewrite N.Div0.div_div in E1. rewrite N.Div0.div_div in E2.
    change (16 * 16)%N with 256%N in E1. change (256 * 16)%N with 4096%N in E2.
    lia.
Qed.

Lemma getScript_wraps_with_two_byte_length_witness :
  (nth_error example_blueprint 0
   = Some (ScriptBuilder.mkValidator "multisig.spend" "590a00aa" "ab12")
   /\ ScriptBuilder.bech32_address example_platform
        (if String.eqb "preprod" "mainnet" then "addr" else "addr_test")
        (if String.eqb "preprod" "mainnet" then 113 else 112) "ab12"
      = Ok "addr_test1112ab12"
   /\ Nat.even (String.length "590a00aa") = true
   /\ (N.of_nat (Nat.div2 (String.length "590a00aa")) < 65536)%N)
  /\ ScriptBuilder.getScript example_platform example_blueprint "preprod" 0
     = Ok (ScriptBuilder.mkScript
             ("59" ++ four_hex_digits
                        (N.of_nat (Nat.div2 (String.length "590a00aa")))
                   ++ "590a00aa")
             "addr_test1112ab12" "multisig.spend").
Proof.
  assert (A : nth_error example_blueprint 0
              = Some (ScriptBuilder.mkValidator "multisig.spend" "590a00aa"
                        "ab12")) by reflexivity.
  assert (B : ScriptBuilder.bech32_address example_platform
                (if String.eqb "preprod" "mainnet" then "addr" else "addr_test")
                (if String.eqb "preprod" "mainnet" then 113 else 112) "ab12"
              = Ok "addr_test1112ab12") by (vm_compute; reflexivity).
  assert (E : Nat.even (String.length "590a00aa") = true) by reflexivity.
  assert (L : (N.of_nat (Nat.div2 (String.length "590a00aa")) < 65536)%N)
    by (vm_compute; reflexivity).
  split; [repeat split; assumption|].
  exact (proj1 (getScript_wraps_with_two_byte_length example_platform
                  example_blueprint "preprod" 0 _ _ A B E L)).
Defined.

Example getScript_example :
  ScriptBuilder.getScript example_platform example_blueprint "preprod" 0
  = Ok (ScriptBuilder.mkScript "590004590a00aa" "addr_test1112ab12"
          "multisig.spend")
  /\ ScriptBuilder.getScript example_platform example_blueprint "preprod" 7
     = Throw "Cannot read properties of undefined".
Proof. split; vm_compute; reflexivity. Qed.

(** ** Unique scripts *)

Section UniqueScripts.

Variable P : ScriptBuilder.Platform.
Variable validators : list ScriptBuilder.Validator.
Variable NETWORK : string.

Let built (index : nat) := ScriptBuilder.getScript P validators NETWORK index.

(** What holds of the pair carried through the [forEach]. *)
Let coherent (acc : list string * list ScriptBuilder.Script) : Prop :=
  fst acc = map ScriptBuilder.scriptCbor (snd acc)
  /\ NoDup (fst acc)
  /\ forall s, In s (snd acc) -> exists i, built i = Ok s.

Lemma existsb_eqb_In (x : string) (l : list string) :
  existsb (String.eqb x) l = true <-> In x l.
Proof.
  rewrite existsb_exists. split.
  - intros (y & Hy & E). apply String.eqb_eq in E. subst. exact Hy.
  - intro H. exists x. split; [exact H | apply String.eqb_refl].
Qed.

Lemma visit_coherent (acc : list string * list ScriptBuilder.Script)
    (index : nat) :
  coherent acc ->
  coherent (ScriptBuilder.visit P validators NETWORK acc index)
  /\ incl (fst acc) (fst (ScriptBuilder.visit P validators NETWORK acc index))
  /\ forall s, built index = Ok s ->
               In (ScriptBuilder.scriptCbor s)
                  (fst (ScriptBuilder.visit P validators NETWORK acc index)).
Proof.
  destruct acc as [seen uniq]. unfold coherent. intros (Hmap & Hnd & Hsrc).
  unfold ScriptBuilder.visit. fold (built index). cbn [fst snd] in *.
  destruct (built index) as [s|e] eqn:Hb.
  - destruct (existsb (String.eqb (ScriptBuilder.scriptCbor s)) seen) eqn:Hs.
    + apply existsb_eqb_In in Hs.
      split; [repeat split; assumption|]. split; [apply incl_refl|].
      intros s' E. injection E as <-. exact Hs.
    + assert (Hnot : ~ In (ScriptBuilder.scriptCbor s) seen).
      { intro Hin. apply existsb_eqb_In in Hin. congruence. }
      cbn [fst snd]. split; [split; [|split]|split].
      * rewrite map_app, Hmap. reflexivity.
      * apply NoDup_app; [exact Hnd | repeat constructor; intros [] |].
        intros x Hx [Hy|[]]. subst x. exact (Hnot Hx).
      * intros s' Hin. apply in_app_or in Hin.
        destruct Hin as [Hin|[<-|[]]]; [apply Hsrc; exact Hin|].
        exists index. exact Hb.
      * apply incl_appl, incl_refl.
      * intros s' E. injection E as <-. apply in_or_app. right. left.
        reflexivity.
  - split; [repeat split; assumption|]. split; [apply incl_refl|].
    intros s' E. discriminate E.
Qed.

Lemma fold_visit_coherent (indices : list nat)
    (acc : list string * list ScriptBuilder.Script) :
  coherent acc ->
  let r := fold_left (ScriptBuilder.visit P validators NETWORK) indices acc in
  coherent r
  /\ incl (fst acc) (fst r)
  /\ forall i s, In i indices -> built i = Ok s ->
                 In (ScriptBuilder.scriptCbor s) (fst r).
Proof.
  revert acc. induction indices as [|i rest IH]; intros acc Hc.
  - cbn. split; [exact Hc|]. split; [apply incl_refl | intros i s []].
  - cbn [fold_left].
    destruct (visit_coherent acc i Hc) as (Hc1 & Hi1 & Hn1).
    destruct (IH _ Hc1) as (Hc2 & Hi2 & Hn2).
    cbv zeta. split; [exact Hc2|].
    split; [eapply incl_tran; eassumption|].
    intros j s [<-|Hj] Hb.
    + apply Hi2. apply Hn1. exact Hb.
    + apply (Hn2 j s Hj Hb).
Qed.

(** X25.  [getAllUniqueScripts] returns scripts with pairwise different
    CBOR; each of them is what [getScript] builds for some validator of
    the blueprint; and every validator for which [getScript] succeeds is
    represented: a script with its CBOR is in the result.  Validators for
    which [getScript] throws are left out. *)
Theorem getAllUniqueScripts_dedupes_by_cbor :
  let result := ScriptBuilder.getAllUniqueScripts P validators NETWORK in
  NoDup (map ScriptBuilder.scriptCbor result)
  /\ (forall s, In s result ->
                exists i, (i < List.length validators)%nat
                          /\ ScriptBuilder.getScript P validators NETWORK i
                             = Ok s)
  /\ (forall i s,
         ScriptBuilder.getScript P validators NETWORK i = Ok s ->
         exists s', In s' result
                    /\ ScriptBuilder.scriptCbor s' = ScriptBuilder.scriptCbor s).
Proof.
  assert (Hin : forall i s, built i = Ok s -> (i < List.length validators)%nat).
  { intros i s Hb. apply nth_error_Some. unfold built, ScriptBuilder.getScript in Hb.
    destruct (nth_error validators i); [discriminate | discriminate Hb]. }
  assert (C0 : coherent ([], [])).
  { split; [reflexivity|]. split; [constructor | intros s []]. }
  destruct (fold_visit_coherent (seq 0 (List.length validators)) _ C0)
    as ((Hmap & Hnd & Hsrc) & _ & Hall).
  unfold ScriptBuilder.getAllUniqueScripts. cbv zeta.
  split; [rewrite <- Hmap; exact Hnd|]. split.
  - intros s Hs. destruct (Hsrc s Hs) as (i & Hb).
    exists i. split; [exact (Hin i s Hb) | exact Hb].
  - intros i s Hb.
    pose proof (Hall i s ltac:(apply in_seq; pose proof (Hin i s Hb); lia) Hb)
      as Hseen.
    rewrite Hmap in Hseen. apply in_map_iff in Hseen.
    destruct Hseen as (s' & E & Hs'). exists s'. split; assumption.
Qed.

End UniqueScripts.

Example getAllUniqueScripts_example :
  map ScriptBuilder.script_title
    (ScriptBuilder.getAllUniqueScripts example_platform example_blueprint
       "preprod")
  = ["multisig.spend"; "vesting.spend"].
Proof. vm_compute. reflexivity. Qed.

(* ========================================================================= *)
(** * Properties of the server-side signature sessions *)

Module SA := SignatureApi.

Lemma Map_get_set_same (m : SA.Sessions) (k : string) (v : SA.SignatureSession) :
  SA.Map_get (SA.Map_set m k v) k = Some v.
Proof.
  induction m as [|[k0 v0] m IH]; cbn.
  - rewrite String.eqb_refl. reflexivity.
  - destruct (String.eqb k0 k) eqn:E; cbn; rewrite E; [reflexivity | exact IH].
Qed.

Lemma Map_get_set_other (m : SA.Sessions) (k k' : string)
    (v : SA.SignatureSession) :
  k' <> k -> SA.Map_get (SA.Map_set m k v) k' = SA.Map_get m k'.
Proof.
  intro Hne. induction m as [|[k0 v0] m IH]; cbn.
  - apply String.eqb_neq in Hne. rewrite String.eqb_sym in Hne.
    rewrite Hne. reflexivity.
  - destruct (String.eqb k0 k) eqn:E; cbn.
    + apply String.eqb_eq in E. subst k0.
      replace (String.eqb k k') with false; [reflexivity|].
      symmetry. apply String.eqb_neq. congruence.
    + rewrite IH. reflexivity.
Qed.

Lemma Map_get_delete_same (m : SA.Sessions) (k : string) :
  SA.Map_get (SA.Map_delete m k) k = None.
Proof.
  unfold SA.Map_delete. induction m as [|[k0 v0] m IH]; cbn; [reflexivity|].
  destruct (String.eqb k0 k) eqn:E; cbn; [exact IH|]. rewrite E. exact IH.
Qed.

Lemma Map_get_delete_other (m : SA.Sessions) (k k' : string) :
  k' <> k -> SA.Map_get (SA.Map_delete m k) k' = SA.Map_get m k'.
Proof.
  intro Hne. unfold SA.Map_delete.
  induction m as [|[k0 v0] m IH]; cbn; [reflexivity|].
  destruct (String.eqb k0 k) eqn:E; cbn.
  - apply String.eqb_eq in E. subst k0.
    replace (String.eqb k k') with false; [exact IH|].
    symmetry. apply String.eqb_neq. congruence.
  - rewrite IH. reflexivity.
Qed.

Lemma truthy_some (s : string) : s <> "" -> SA.truthy (Some s) = true.
Proof.
  intro H. cbn. apply String.eqb_neq in H. rewrite H. reflexivity.
Qed.

Lemma replace_signature_signers (l : list SA.SignatureEntry)
    (signer sig : string) (t : Z) :
  map SA.signerAddress (SA.replace_signature l signer sig t)
  = map SA.signerAddress l.
Proof.
  induction l as [|e l IH]; cbn; [reflexivity|].
  destruct (String.eqb (SA.signerAddress e) signer); cbn;
    [reflexivity | rewrite IH; reflexivity].
Qed.

Lemma replace_signature_In (l : list SA.SignatureEntry)
    (signer sig : string) (t : Z) :
  In signer (map SA.signerAddress l) ->
  In (SA.mkEntry signer sig t) (SA.replace_signature l signer sig t).
Proof.
  induction l as [|e l IH]; cbn; [intros []|].
  intro H. destruct (String.eqb (SA.signerAddress e) signer) eqn:E.
  - apply String.eqb_eq in E. rewrite E. left. reflexivity.
  - right. apply IH. destruct H as [H|H]; [|exact H].
    apply String.eqb_neq in E. congruence.
Qed.

Lemma existsb_signer (l : list SA.SignatureEntry) (signer : string) :
  existsb (fun e => String.eqb (SA.signerAddress e) signer) l = true
  <-> In signer (map SA.signerAddress l).
Proof.
  rewrite existsb_exists, in_map_iff. split.
  - intros (e & He & E). apply String.eqb_eq in E. exists e. split; assumption.
  - intros (e & E & He). exists e. split; [exact He|].
    apply String.eqb_eq. exact E.
Qed.

(** The state a live session is left in by a well-formed sign request. *)
Lemma POST_sign_live (env : SA.PostEnv) (srv : SA.Server)
    (sid signer sig : string) (session : SA.SignatureSession) :
  sign_request env sid signer sig ->
  SA.Map_get (SA.signatureSessions srv) sid = Some session ->
  SA.now srv <= SA.expiresAt session ->
  let updated :=
    if existsb (fun e => String.eqb (SA.signerAddress e) signer)
               (SA.signatures session)
    then SA.replace_signature (SA.signatures session) signer sig (SA.now srv)
    else (SA.signatures session ++ [SA.mkEntry signer sig (SA.now srv)])%list in
  SA.POST env srv
  = (SA.mkResponse 200
       (SA.JSigned sid (Z.of_nat (List.length updated))
          (SA.requiredSignatures session)
          (Z.of_nat (List.length updated) >=? SA.requiredSignatures session)),
     SA.mkServer (SA.now srv)
       (SA.Map_set (SA.signatureSessions srv) sid
          (SA.with_signatures session updated))).
Proof.
  intros (body & data & Hj & Ha & Hd & Hs & Hs' & Hg & Hg' & Hx & Hx') Hget Hlive.
  unfold SA.POST. rewrite Hj, Ha, Hd, Hs, Hg, Hx. cbn [SA.text].
  cbn [String.eqb Ascii.eqb Bool.eqb].
  rewrite (truthy_some _ Hs'), (truthy_some _ Hg'), (truthy_some _ Hx').
  cbn [negb orb]. rewrite Hget.
  replace (SA.expiresAt session <? SA.now srv)%Z with false
    by (symmetry; apply Z.ltb_ge; exact Hlive).
  reflexivity.
Qed.

(** X26.  A well-formed sign request on a session that has not expired is
    always accepted, whether or not the session is already complete.  The
    session then holds exactly one signature of that signer, the one just
    sent, stamped with the current time: a signer who signs again replaces
    their signature and the count stays the same, a new signer is appended
    and the count grows by one.  Signers stay pairwise different, and the
    response reports the count and whether it has reached the required
    number. *)
Theorem sign_keeps_one_signature_per_signer
    (env : SA.PostEnv) (srv : SA.Server) (sid signer sig : string)
    (session : SA.SignatureSession) :
  sign_request env sid signer sig ->
  SA.Map_get (SA.signatureSessions srv) sid = Some session ->
  SA.now srv <= SA.expiresAt session ->
  NoDup (signers_of session) ->
  exists session' count,
    SA.POST env srv
    = (SA.mkResponse 200
         (SA.JSigned sid count (SA.requiredSignatures session)
            (count >=? SA.requiredSignatures session)),
       SA.mkServer (SA.now srv)
         (SA.Map_set (SA.signatureSessions srv) sid session'))
    /\ SA.Map_get (SA.signatureSessions (snd (SA.POST env srv))) sid
       = Some session'
    /\ count = Z.of_nat (List.length (SA.signatures session'))
    /\ NoDup (signers_of session')
    /\ In (SA.mkEntry signer sig (SA.now srv)) (SA.signatures session')
    /\ (In signer (signers_of session) ->
        signers_of session' = signers_of session)
    /\ (~ In signer (signers_of session) ->
        signers_of session' = (signers_of session ++ [signer])%list)
    /\ SA.requiredSignatures session' = SA.requiredSignatures session
    /\ SA.expiresAt session' = SA.expiresAt session.
Proof.
  intros Hreq Hget Hlive Hnd.
  pose proof (POST_sign_live env srv sid signer sig session Hreq Hget Hlive)
    as E. cbv zeta in E.
  destruct (existsb (fun e => String.eqb (SA.signerAddress e) signer)
                    (SA.signatures session)) eqn:Hex.
  - apply existsb_signer in Hex.
    eexists. eexists. split; [exact E|].
    rewrite E. cbn [snd SA.signatureSessions].
    split; [apply Map_get_set_same|]. split; [reflexivity|].
    unfold signers_of. cbn [SA.with_signatures SA.signatures].
    rewrite replace_signature_signers.
    split; [exact Hnd|].
    split; [apply replace_signature_In; exact Hex|].
    split; [reflexivity|]. split; [intro H; destruct (H Hex)|].
    split; reflexivity.
  - assert (Hnot : ~ In signer (signers_of session)).
    { intro H. apply existsb_signer in H. congruence. }
    eexists. eexists. split; [exact E|].
    rewrite E. cbn [snd SA.signatureSessions].
    split; [apply Map_get_set_same|]. split; [reflexivity|].
    unfold signers_of in *. cbn [SA.with_signatures SA.signatures].
    rewrite map_app. cbn [map SA.signerAddress].
    split.
    { apply NoDup_app; [exact Hnd | repeat constructor; intros [] |].
      intros x Hx [Hy|[]]. subst x. exact (Hnot Hx). }
    split; [apply in_or_app; right; left; reflexivity|].
    split; [intro H; destruct (Hnot H)|].
    split; [reflexivity|]. split; reflexivity.
Qed.

Lemma sign_keeps_one_signature_per_signer_witness :
  (sign_request (sign_env "sig_1000_k3j2h1g0f" "addr_test1A" "sigA2")
     "sig_1000_k3j2h1g0f" "addr_test1A" "sigA2"
   /\ SA.Map_get (SA.signatureSessions example_server) "sig_1000_k3j2h1g0f"
      = Some server_session
   /\ SA.now example_server <= SA.expiresAt server_session
   /\ NoDup (signers_of server_session))
  /\ exists session' count,
      SA.POST (sign_env "sig_1000_k3j2h1g0f" "addr_test1A" "sigA2")
        example_server
      = (SA.mkResponse 200
           (SA.JSigned "sig_1000_k3j2h1g0f" count
              (SA.requiredSignatures server_session)
              (count >=? SA.requiredSignatures server_session)),
         SA.mkServer (SA.now example_server)
           (SA.Map_set (SA.signatureSessions example_server)
              "sig_1000_k3j2h1g0f" session'))
      /\ SA.Map_get
           (SA.signatureSessions
              (snd (SA.POST (sign_env "sig_1000_k3j2h1g0f" "addr_test1A"
                               "sigA2") example_server)))
           "sig_1000_k3j2h1g0f" = Some session'
      /\ count = Z.of_nat (List.length (SA.signatures session'))
      /\ NoDup (signers_of session')
      /\ In (SA.mkEntry "addr_test1A" "sigA2" (SA.now example_server))
            (SA.signatures session')
      /\ (In "addr_test1A" (signers_of server_session) ->
          signers_of session' = signers_of server_session)
      /\ (~ In "addr_test1A" (signers_of server_session) ->
          signers_of session'
          = (signers_of server_session ++ ["addr_test1A"])%list)
      /\ SA.requiredSignatures session' = SA.requiredSignatures server_session
      /\ SA.expiresAt session' = SA.expiresAt server_session.
Proof.
  assert (R : sign_request (sign_env "sig_1000_k3j2h1g0f" "addr_test1A" "sigA2")
                "sig_1000_k3j2h1g0f" "addr_test1A" "sigA2").
  { eexists. eexists. repeat split; try reflexivity; discriminate. }
  assert (G : SA.Map_get (SA.signatureSessions example_server)
                "sig_1000_k3j2h1g0f" = Some server_session) by reflexivity.
  assert (T : SA.now example_server <= SA.expiresAt server_session)
    by by_evaluation.
  assert (N : NoDup (signers_of server_session)).
  { repeat constructor. intros []. }
  split; [repeat split; assumption|].
  exact (sign_keeps_one_signature_per_signer _ example_server _ _ _
           server_session R G T N).
Defined.

(** X27.  A server-side session whose expiry lies before the current time
    is refused with status 410 both by a sign request and by GET, and the
    refusal removes it from the map, so that the next GET of the same id
    answers 404; at the instant of expiry itself the session is still
    served. *)
Theorem expired_server_session_is_gone
    (env : SA.PostEnv) (srv : SA.Server) (sid signer sig : string)
    (session : SA.SignatureSession) :
  sign_request env sid signer sig ->
  SA.Map_get (SA.signatureSessions srv) sid = Some session ->
  (SA.expiresAt session < SA.now srv ->
   let gone := SA.mkServer (SA.now srv)
                 (SA.Map_delete (SA.signatureSessions srv) sid) in
   SA.POST env srv = (SA.mkResponse 410 (SA.JError "Session expired"), gone)
   /\ SA.GET (Some sid) srv
      = (SA.mkResponse 410 (SA.JError "Session expired"), gone)
   /\ SA.GET (Some sid) gone
      = (SA.mkResponse 404 (SA.JError "Session not found or expired"), gone))
  /\ (SA.now srv <= SA.expiresAt session ->
      SA.GET (Some sid) srv
      = (SA.mkResponse 200 (SA.JSession (SA.view_of sid session)), srv)).
Proof.
  intros (body & data & Hj & Ha & Hd & Hs & Hs' & Hg & Hg' & Hx & Hx') Hget.
  split.
  - intros Hdead gone.
    assert (Hlt : (SA.expiresAt session <? SA.now srv)%Z = true)
      by (apply Z.ltb_lt; exact Hdead).
    split; [|split].
    + unfold SA.POST. rewrite Hj, Ha, Hd, Hs, Hg, Hx. cbn [SA.text].
      cbn [String.eqb Ascii.eqb Bool.eqb].
      rewrite (truthy_some _ Hs'), (truthy_some _ Hg'), (truthy_some _ Hx').
      cbn [negb orb]. rewrite Hget, Hlt. reflexivity.
    + unfold SA.GET. rewrite (truthy_some _ Hs'). cbn [negb SA.text].
      rewrite Hget, Hlt. reflexivity.
    + unfold SA.GET. rewrite (truthy_some _ Hs'). cbn [negb SA.text].
      unfold gone. cbn [SA.signatureSessions].
      rewrite Map_get_delete_same. reflexivity.
  - intro Hlive. unfold SA.GET. rewrite (truthy_some _ Hs'). cbn [negb SA.text].
    rewrite Hget.
    replace (SA.expiresAt session <? SA.now srv)%Z with false
      by (symmetry; apply Z.ltb_ge; exact Hlive).
    reflexivity.
Qed.

Lemma expired_server_session_is_gone_witness :
  (sign_request (sign_env "sig_1000_k3j2h1g0f" "addr_test1B" "sigB")
     "sig_1000_k3j2h1g0f" "addr_test1B" "sigB"
   /\ SA.Map_get (SA.signatureSessions example_server_late)
        "sig_1000_k3j2h1g0f" = Some server_session
   /\ SA.expiresAt server_session < SA.now example_server_late)
  /\ SA.POST (sign_env "sig_1000_k3j2h1g0f" "addr_test1B" "sigB")
       example_server_late
     = (SA.mkResponse 410 (SA.JError "Session expired"),
        SA.mkServer 601001 [])
  /\ SA.GET (Some "sig_1000_k3j2h1g0f") (SA.mkServer 601001 [])
     = (SA.mkResponse 404 (SA.JError "Session not found or expired"),
        SA.mkServer 601001 [])
  /\ SA.now example_server <= SA.expiresAt server_session
  /\ SA.GET (Some "sig_1000_k3j2h1g0f") example_server
     = (SA.mkResponse 200
          (SA.JSession (SA.view_of "sig_1000_k3j2h1g0f" server_session)),
        example_server).
Proof.
  assert (R : sign_request (sign_env "sig_1000_k3j2h1g0f" "addr_test1B" "sigB")
                "sig_1000_k3j2h1g0f" "addr_test1B" "sigB").
  { eexists. eexists. repeat split; try reflexivity; discriminate. }
  assert (G : SA.Map_get (SA.signatureSessions example_server_late)
                "sig_1000_k3j2h1g0f" = Some server_session) by reflexivity.
  assert (G' : SA.Map_get (SA.signatureSessions example_server)
                 "sig_1000_k3j2h1g0f" = Some server_session) by reflexivity.
  assert (D : SA.expiresAt server_session < SA.now example_server_late)
    by by_evaluation.
  assert (L : SA.now example_server <= SA.expiresAt server_session)
    by by_evaluation.
  split; [repeat split; assumption|].
  pose proof (proj1 (expired_server_session_is_gone _ example_server_late
                       _ _ _ server_session R G) D) as (E1 & _ & E3).
  split; [exact E1|]. split; [exact E3|]. split; [exact L|].
  exact (proj2 (expired_server_session_is_gone _ example_server
                  _ _ _ server_session R G') L).
Defined.

(** X28.  [cleanupExpiredSessions] on a map with distinct keys removes
    exactly the sessions whose expiry lies before the current time: an id
    is found afterwards if and only if it was found before with a session
    that has not expired, and it is found with the same session.  Running
    the cleanup twice changes nothing more. *)
Theorem cleanup_removes_exactly_the_expired (srv : SA.Server) :
  NoDup (map fst (SA.signatureSessions srv)) ->
  (forall sid session,
      SA.Map_get (SA.signatureSessions (SA.cleanupExpiredSessions srv)) sid
      = Some session
      <-> SA.Map_get (SA.signatureSessions srv) sid = Some session
          /\ SA.now srv <= SA.expiresAt session)
  /\ SA.cleanupExpiredSessions (SA.cleanupExpiredSessions srv)
     = SA.cleanupExpiredSessions srv
  /\ NoDup (map fst (SA.signatureSessions (SA.cleanupExpiredSessions srv))).
Proof.
  destruct srv as [now m]. cbn [SA.signatureSessions SA.now].
  unfold SA.cleanupExpiredSessions. cbn [SA.signatureSessions SA.now].
  intro Hnd. split; [|split].
  - intros sid session. induction m as [|[k v] m IH]; cbn.
    + split; [discriminate | intros [H _]; discriminate H].
    + inversion Hnd as [|? ? Hk Hnd']; subst.
      assert (Hnone : forall l, ~ In k (map fst l) -> k = sid ->
                                SA.Map_get l sid = None).
      { intros l Hl <-. induction l as [|[k' v'] l IHl]; [reflexivity|].
        cbn. destruct (String.eqb_spec k' k) as [->|Hne].
        - exfalso. apply Hl. left. reflexivity.
        - apply IHl. intro H. apply Hl. right. exact H. }
      destruct (Z.ltb_spec (SA.expiresAt v) now) as [Hdead|Hlive]; cbn.
      * destruct (String.eqb_spec k sid) as [E|Hne].
        -- rewrite (Hnone (filter _ m)); [|  | exact E].
           ++ split; [discriminate|]. intros [H Hl]. injection H as <-. lia.
           ++ intro Hin. apply Hk. apply in_map_iff in Hin.
              destruct Hin as (kv & Ekv & Hkv). apply filter_In in Hkv.
              apply in_map_iff. exists kv. split; [exact Ekv | apply Hkv].
        -- apply IH. exact Hnd'.
      * destruct (String.eqb_spec k sid) as [E|Hne].
        -- split.
           ++ intro H. injection H as <-. split; [reflexivity | exact Hlive].
           ++ intros [H _]. exact H.
        -- apply IH. exact Hnd'.
  - f_equal. induction m as [|[k v] m IH]; [reflexivity|].
    inversion Hnd as [|? ? Hk Hnd']; subst. cbn.
    destruct (negb (SA.expiresAt v <? now)%Z) eqn:E; cbn;
      rewrite ?E, (IH Hnd'); reflexivity.
  - clear -Hnd. induction m as [|[k v] m IH]; [constructor|].
    inversion Hnd as [|? ? Hk Hnd']; subst. cbn.
    destruct (negb (SA.expiresAt v <? now)%Z); cbn; [|apply IH; exact Hnd'].
    constructor; [|apply IH; exact Hnd'].
    intro Hin. apply Hk. apply in_map_iff in Hin.
    destruct Hin as (kv & Ekv & Hkv). apply filter_In in Hkv.
    apply in_map_iff. exists kv. split; [exact Ekv | apply Hkv].
Qed.

Lemma cleanup_removes_exactly_the_expired_witness :
  NoDup (map fst (SA.signatureSessions example_server_late))
  /\ (SA.Map_get
        (SA.signatureSessions (SA.cleanupExpiredSessions example_server_late))
        "sig_1000_k3j2h1g0f" = Some server_session
      <-> SA.Map_get (SA.signatureSessions example_server_late)
            "sig_1000_k3j2h1g0f" = Some server_session
          /\ SA.now example_server_late <= SA.expiresAt server_session)
  /\ SA.cleanupExpiredSessions example_server_late = SA.mkServer 601001 [].
Proof.
  assert (N : NoDup (map fst (SA.signatureSessions example_server_late))).
  { repeat constructor. intros []. }
  split; [exact N|].
  split; [exact (proj1 (cleanup_removes_exactly_the_expired
                          example_server_late N) _ _)|].
  vm_compute. reflexivity.
Defined.

Lemma Number_toString_nonempty_prefix (a b : string) : "sig_" ++ a ++ b <> "".
Proof. discriminate. Qed.

(** X29.  A create request whose four fields are present and truthy is
    answered with a fresh id of the form [sig_<now>_<random>] and the time
    to live; the session stored under that id has no signature, was
    created now and expires [SESSION_TTL] later, and a GET of the id at
    that time returns it with zero signatures collected; the other
    sessions are untouched.  A create request whose [requiredSignatures] is
    0 is refused with status 400 as having a missing field, and stores
    nothing. *)
Theorem create_then_get
    (env : SA.PostEnv) (srv : SA.Server) (utx addr ref : string) (required : Z) :
  create_request env utx addr ref required ->
  let sid := "sig_" ++ Number_toString (SA.now srv) ++ "_"
                    ++ SA.random_suffix env in
  let session := SA.mkSignatureSession "" utx addr ref required []
                   (SA.now srv) (SA.now srv + SA.SESSION_TTL) in
  let srv' := snd (SA.POST env srv) in
  fst (SA.POST env srv) = SA.mkResponse 200 (SA.JCreated sid SA.SESSION_TTL)
  /\ SA.Map_get (SA.signatureSessions srv') sid = Some session
  /\ SA.GET (Some sid) srv'
     = (SA.mkResponse 200
          (SA.JSession
             (SA.mkSessionView sid utx addr ref required 0 []
                (SA.now srv) (SA.now srv + SA.SESSION_TTL)
                (0 >=? required))),
        srv')
  /\ (forall other, other <> sid ->
        SA.Map_get (SA.signatureSessions srv') other
        = SA.Map_get (SA.signatureSessions srv) other)
  /\ (forall env0 body data,
        SA.request_json env0 = Ok body ->
        SA.body_action body = Some "create" ->
        SA.body_data body = Some data ->
        SA.data_requiredSignatures data = Some 0 ->
        SA.POST env0 srv
        = (SA.mkResponse 400 (SA.JError "Missing required fields"), srv)).
Proof.
  intros (body & data & Hj & Ha & Hd & H1 & H1' & H2 & H2' & H3 & H3' & H4 & H4')
         sid session srv'.
  assert (Zero : forall env0 body data,
             SA.request_json env0 = Ok body ->
             SA.body_action body = Some "create" ->
             SA.body_data body = Some data ->
             SA.data_requiredSignatures data = Some 0 ->
             SA.POST env0 srv
             = (SA.mkResponse 400 (SA.JError "Missing required fields"), srv)).
  { intros env0 body0 data0 J A D Z0. unfold SA.POST.
    rewrite J, A, D, Z0. cbn [SA.text String.eqb Ascii.eqb Bool.eqb].
    cbn [SA.truthy_number Z.eqb negb]. rewrite !orb_true_r. reflexivity. }
  assert (E : SA.POST env srv
              = (SA.mkResponse 200 (SA.JCreated sid SA.SESSION_TTL),
                 SA.mkServer (SA.now srv)
                   (SA.Map_set (SA.signatureSessions srv) sid session))).
  { unfold SA.POST. rewrite Hj, Ha, Hd, H1, H2, H3, H4. cbn [SA.text SA.number].
    cbn [String.eqb Ascii.eqb Bool.eqb].
    rewrite (truthy_some _ H1'), (truthy_some _ H2'), (truthy_some _ H3').
    unfold SA.truthy_number.
    replace (required =? 0)%Z with false
      by (symmetry; apply Z.eqb_neq; exact H4').
    reflexivity. }
  unfold srv'. rewrite E. cbn [fst snd SA.signatureSessions SA.now].
  split; [reflexivity|]. split; [apply Map_get_set_same|]. split.
  - unfold SA.GET. rewrite truthy_some by (apply Number_toString_nonempty_prefix).
    cbn [negb SA.text SA.signatureSessions SA.now].
    rewrite Map_get_set_same. fold sid.
    replace (SA.expiresAt session <? SA.now srv)%Z with false.
    + reflexivity.
    + symmetry. apply Z.ltb_ge. unfold session, SA.SESSION_TTL. cbn. lia.
  - split; [|exact Zero].
    intros other Hne. apply Map_get_set_other. exact Hne.
Qed.

Lemma create_then_get_witness :
  create_request (create_env 2) "84a400" "addr_test1script" "aa00#0" 2
  /\ fst (SA.POST (create_env 2) example_server)
     = SA.mkResponse 200 (SA.JCreated "sig_6000_x7y8z9a1b" SA.SESSION_TTL)
  /\ SA.GET (Some "sig_6000_x7y8z9a1b") (snd (SA.POST (create_env 2) example_server))
     = (SA.mkResponse 200
          (SA.JSession
             (SA.mkSessionView "sig_6000_x7y8z9a1b" "84a400" "addr_test1script"
                "aa00#0" 2 0 [] 6000 (6000 + SA.SESSION_TTL) false)),
        snd (SA.POST (create_env 2) example_server))
  /\ fst (SA.POST (create_env 0) example_server)
     = SA.mkResponse 400 (SA.JError "Missing required fields").
Proof.
  assert (R : create_request (create_env 2) "84a400" "addr_test1script"
                "aa00#0" 2).
  { eexists. eexists. repeat split; try reflexivity; discriminate. }
  split; [exact R|].
  pose proof (create_then_get (create_env 2) example_server _ _ _ _ R)
    as (E1 & _ & E3 & _ & Z0).
  split; [exact E1|]. split; [exact E3|].
  rewrite (Z0 (create_env 0) _ _ eq_refl eq_refl eq_refl eq_refl).
  reflexivity.
Defined.

(** X30.  DELETE removes a stored session whether or not it has expired
    and answers 200; after that a GET and a second DELETE of the same id
    both answer 404, and the other sessions are untouched.  DELETE of an
    id that is not stored answers 404 and changes nothing. *)
Theorem delete_is_unconditional_and_final
    (srv : SA.Server) (sid : string) :
  sid <> "" ->
  (forall session,
      SA.Map_get (SA.signatureSessions srv) sid = Some session ->
      let srv' := SA.mkServer (SA.now srv)
                    (SA.Map_delete (SA.signatureSessions srv) sid) in
      SA.DELETE (Some sid) srv
      = (SA.mkResponse 200 (SA.JDeleted "Session deleted successfully"), srv')
      /\ SA.GET (Some sid) srv'
         = (SA.mkResponse 404 (SA.JError "Session not found or expired"), srv')
      /\ SA.DELETE (Some sid) srv'
         = (SA.mkResponse 404 (SA.JError "Session not found"), srv')
      /\ (forall other, other <> sid ->
            SA.Map_get (SA.signatureSessions srv') other
            = SA.Map_get (SA.signatureSessions srv) other))
  /\ (SA.Map_get (SA.signatureSessions srv) sid = None ->
      SA.DELETE (Some sid) srv
      = (SA.mkResponse 404 (SA.JError "Session not found"), srv)).
Proof.
  intro Hne. split.
  - intros session Hget srv'.
    split; [|split; [|split]].
    + unfold SA.DELETE. rewrite (truthy_some _ Hne). cbn [negb SA.text].
      rewrite Hget. reflexivity.
    + unfold SA.GET. rewrite (truthy_some _ Hne). cbn [negb SA.text].
      unfold srv'. cbn [SA.signatureSessions].
      rewrite Map_get_delete_same. reflexivity.
    + unfold SA.DELETE. rewrite (truthy_some _ Hne). cbn [negb SA.text].
      unfold srv'. cbn [SA.signatureSessions].
      rewrite Map_get_delete_same. reflexivity.
    + intros other Ho. apply Map_get_delete_other. exact Ho.
  - intro Hget. unfold SA.DELETE. rewrite (truthy_some _ Hne).
    cbn [negb SA.text]. rewrite Hget. reflexivity.
Qed.

Lemma delete_is_unconditional_and_final_witness :
  ("sig_1000_k3j2h1g0f" <> ""
   /\ SA.Map_get (SA.signatureSessions example_server_late)
        "sig_1000_k3j2h1g0f" = Some server_session)
  /\ SA.DELETE (Some "sig_1000_k3j2h1g0f") example_server_late
     = (SA.mkResponse 200 (SA.JDeleted "Session deleted successfully"),
        SA.mkServer 601001 [])
  /\ SA.Map_get (SA.signatureSessions example_server) "sig_0_none" = None
  /\ SA.DELETE (Some "sig_0_none") example_server
     = (SA.mkResponse 404 (SA.JError "Session not found"), example_server).
Proof.
  assert (N : "sig_1000_k3j2h1g0f" <> "") by discriminate.
  assert (N' : "sig_0_none" <> "") by discriminate.
  assert (G : SA.Map_get (SA.signatureSessions example_server_late)
                "sig_1000_k3j2h1g0f" = Some server_session) by reflexivity.
  assert (G' : SA.Map_get (SA.signatureSessions example_server) "sig_0_none"
               = None) by reflexivity.
  split; [split; assumption|].
  split; [exact (proj1 (proj1 (delete_is_unconditional_and_final
                                 example_server_late _ N) _ G))|].
  split; [exact G'|].
  exact (proj2 (delete_is_unconditional_and_final example_server _ N') G').
Defined.
